(** * grub_install: the target / platform installation engine

    A shallow embedding of [python3/grub_install/_target.py] and
    [python3/grub_install/_util.py].

    - Python exceptions are values of [Exc]; a computation that may raise
      returns a [Res].
    - Code that touches the boot directory or a block device is a function
      of the [World] in the state-and-error monad [M]; whatever was written
      before an exception was raised stays written.
    - The directory tree below the boot directory is a [node]; paths are
      lists of path components relative to the boot directory.
    - [bytes] objects are lists of [byte]; slices are [slice].
    - Names that the two modules import from [_const.py], [_handy.py] and
      [_source.py] are the fields of the class [GrubEnv]. *)

From Stdlib Require Import ZArith String Ascii Strings.Byte.
From stdpp Require Import gmap strings list fin_maps finite.

Set Warnings "-clear-no-such-hyp".

Local Open Scope string_scope.
Local Open Scope list_scope.
Local Open Scope stdpp_scope.

(** ** Exceptions and results *)

Inductive Exc :=
| AssertionError
| IndexError
| TypeError
| AttributeError
| FileNotFoundError
| FileExistsError
| IsADirectoryError
| NotADirectoryError
| DirectoryNotEmpty
| KeyError
| PyException (msg : string)
| ExternalError (who : string).

Inductive Res (A : Type) :=
| Ok (a : A)
| Raise (e : Exc).
Arguments Ok {A} a.
Arguments Raise {A} e.

Definition is_Ok {A} (r : Res A) : Prop :=
  match r with Ok _ => True | Raise _ => False end.

Definition is_Raise {A} (r : Res A) : Prop :=
  match r with Ok _ => False | Raise _ => True end.

#[global] Instance byte_eq_dec : EqDecision byte := Byte.byte_eq_dec.

(** ** Byte buffers *)

(** [buf[a:b]] for non-negative [a] and [b]. *)
Definition slice {A} (a b : nat) (buf : list A) : list A :=
  take (b - a) (drop a buf).

(** [buf[a:b] = src] on a [bytearray]: the slice is replaced by [src],
    whatever the length of [src]. *)
Definition slice_assign {A} (a b : nat) (src buf : list A) : list A :=
  take a buf ++ src ++ drop (a `max` b) buf.

(** [buf[i] = x] on a [bytearray]. *)
Definition index_assign {A} (i : nat) (x : A) (buf : list A) : Res (list A) :=
  if decide (i < length buf) then Ok (<[i := x]> buf) else Raise IndexError.

(** ** The directory tree below the boot directory *)

#[warnings="-register-all"] Inductive node :=
| File (content : list byte)
| Dir (entries : gmap string node).

Definition path := list string.

Fixpoint fs_lookup (p : path) (n : node) : option node :=
  match p with
  | [] => Some n
  | x :: p' =>
      match n with
      | Dir m => match m !! x with
                 | Some c => fs_lookup p' c
                 | None => None
                 end
      | File _ => None
      end
  end.

(** Replace ([Some]) or unlink ([None]) the entry named by [p] in its
    parent directory; [None] when the parent is not a directory. *)
Fixpoint fs_put (p : path) (v : option node) (n : node) : option node :=
  match p with
  | [] => None
  | x :: p' =>
      match n with
      | File _ => None
      | Dir m =>
          match p' with
          | [] => Some (Dir (match v with
                             | Some c => <[x := c]> m
                             | None => delete x m
                             end))
          | _ :: _ =>
              match m !! x with
              | Some c =>
                  match fs_put p' v c with
                  | Some c' => Some (Dir (<[x := c']> m))
                  | None => None
                  end
              | None => None
              end
          end
      end
  end.

Definition os_path_exists (p : path) (n : node) : bool :=
  bool_decide (is_Some (fs_lookup p n)).

Definition os_path_isdir (p : path) (n : node) : bool :=
  match fs_lookup p n with Some (Dir _) => true | _ => false end.

Definition os_path_isfile (p : path) (n : node) : bool :=
  match fs_lookup p n with Some (File _) => true | _ => false end.

Definition os_listdir (p : path) (n : node) : Res (list string) :=
  match fs_lookup p n with
  | Some (Dir m) => Ok (map_to_list m).*1
  | Some (File _) => Raise NotADirectoryError
  | None => Raise FileNotFoundError
  end.

Definition read_bytes (p : path) (n : node) : Res (list byte) :=
  match fs_lookup p n with
  | Some (File c) => Ok c
  | Some (Dir _) => Raise IsADirectoryError
  | None => Raise FileNotFoundError
  end.

(** ** Block devices, as [parted] and [open] see them *)

Record Disk := {
  dk_bytes : list byte;
  (** [parted.newDisk(...).type]; [None] when there is no partition table
      that [parted] recognises and [newDisk] raises. *)
  dk_type : option string;
  (** [geometry.start] of every primary partition, in table order. *)
  dk_primaries : list Z;
  dk_sectorSize : Z
}.

(** One call of the image maker, as the code issued it. *)
Record MkImageCall (P : Type) := {
  mk_platform : P;
  mk_loadCfgFile : path;
  mk_target : string;
  mk_moduleList : list string;
  mk_coreImgFile : path
}.
Arguments mk_platform {P} _.
Arguments mk_loadCfgFile {P} _.
Arguments mk_target {P} _.
Arguments mk_moduleList {P} _.
Arguments mk_coreImgFile {P} _.
Arguments Build_MkImageCall {P} _ _ _ _ _.

(** The mount descriptor returned by [Grub.probeMnt]. *)
Record Mnt := {
  fs_uuid : option string;
  mnt_fs : string;
  mnt_pt : string
}.

(** ** Enumerations and records of [_const.py] *)

Inductive TargetType := MOUNTED_HDD_DEV | PYCDLIB_OBJ | ISO_DIR.
Inductive TargetAccessMode := R | W | RW.
Inductive Status := NOT_EXIST | EXIST | BOOTABLE.

#[global] Instance TargetType_eq_dec : EqDecision TargetType.
Proof. solve_decision. Defined.
#[global] Instance TargetAccessMode_eq_dec : EqDecision TargetAccessMode.
Proof. solve_decision. Defined.
#[global] Instance Status_eq_dec : EqDecision Status.
Proof. solve_decision. Defined.

(** A [PlatformInstallInfo] object: every attribute is unset ([None]) until
    the code assigns it. [allow_floppy] may also be assigned Python's
    [None], which is not told apart from unset. *)
Record PlatformInstallInfo := {
  status : option Status;
  mbr_installed : option bool;
  allow_floppy : option bool;
  rs_codes : option bool;
  removable : option bool;
  nvram : option bool
}.

Definition PlatformInstallInfo_new : PlatformInstallInfo :=
  {| status := None; mbr_installed := None; allow_floppy := None;
     rs_codes := None; removable := None; nvram := None |}.

Definition set_status (s : Status) (i : PlatformInstallInfo) :=
  {| status := Some s; mbr_installed := mbr_installed i;
     allow_floppy := allow_floppy i; rs_codes := rs_codes i;
     removable := removable i; nvram := nvram i |}.

Definition set_bios_attrs (mbr : bool) (floppy : option bool) (rs : bool)
    (i : PlatformInstallInfo) :=
  {| status := status i; mbr_installed := Some mbr;
     allow_floppy := floppy; rs_codes := Some rs;
     removable := removable i; nvram := nvram i |}.

Definition set_efi_attrs (rem nv : bool) (i : PlatformInstallInfo) :=
  {| status := status i; mbr_installed := mbr_installed i;
     allow_floppy := allow_floppy i; rs_codes := rs_codes i;
     removable := Some rem; nvram := Some nv |}.

(** ** What the two modules import

    [PlatformType] with its members and [value]s ([_const.py]); the
    predicates and file names of [Handy], the boot-sector offsets and the
    helpers of [Grub] ([_handy.py]); the payload provider [Source]
    ([_source.py]). The helpers that write do so below the boot directory
    only, and may raise after having written. *)
Class GrubEnv := {
  PlatformType : Type;
  PlatformType_eq_dec :: EqDecision PlatformType;
  PlatformType_finite :: Finite PlatformType;
  value : PlatformType -> string;
  I386_PC : PlatformType;
  I386_MULTIBOOT : PlatformType;
  MIPSEL_LOONGSON : PlatformType;

  isPlatformEfi : PlatformType -> bool;
  isPlatformCoreboot : PlatformType -> bool;
  isPlatformQemu : PlatformType -> bool;
  getStandardEfiFilename : PlatformType -> string;

  DISK_SECTOR_SIZE : nat;
  BOOT_MACHINE_BPB_START : nat;
  BOOT_MACHINE_BPB_END : nat;
  BOOT_MACHINE_DRIVE_CHECK : nat;
  BOOT_MACHINE_WINDOWS_NT_MAGIC : nat;
  BOOT_MACHINE_PART_END : nat;

  Source : Type;
  (** The file [boot.img] in [source.get_platform_dir(platform_type)]. *)
  source_boot_img : Source -> PlatformType -> option (list byte);

  getCoreImgNameAndTarget : string * string;
  getGrubFsName : string -> Res string;
  probeMnt : string -> Res Mnt;
  copyPlatformFiles : PlatformType -> Source -> path -> node -> Res unit * node;
  makeCoreImage :
    Source -> PlatformType -> path -> string -> list string -> path ->
    node -> Res unit * node;
  copyLocaleFiles : Source -> path -> list string -> node -> Res unit * node;
  copyFontFiles : Source -> path -> list string -> node -> Res unit * node;
  copyThemeFiles : Source -> path -> list string -> node -> Res unit * node;
  createEnvBlkFile : path -> node -> Res unit * node
}.

(** ** The state-and-error monad *)

Definition M (S A : Type) : Type := S -> Res A * S.

Definition ret {S A} (a : A) : M S A := fun s => (Ok a, s).

Definition raise {S A} (e : Exc) : M S A := fun s => (Raise e, s).

Definition bind {S A B} (m : M S A) (k : A -> M S B) : M S B :=
  fun s => match m s with
           | (Ok a, s') => k a s'
           | (Raise e, s') => (Raise e, s')
           end.

Notation "'do' x <~ m ; k" := (bind m (fun x => k))
  (at level 10, x name, m at level 100, k at level 200, only parsing).
Notation "'run' m ; k" := (bind m (fun _ => k))
  (at level 10, m at level 100, k at level 200, only parsing).

Definition lift {S A} (r : Res A) : M S A := fun s => (r, s).

Definition assert_ {S} (b : bool) : M S unit :=
  if b then ret tt else raise AssertionError.

Definition get {S} : M S S := fun s => (Ok s, s).

(** ** [_util.py], on the directory tree *)

Definition fs_store (p : path) (v : option node) (e : Exc) : M node unit :=
  fun n => match fs_put p v n with
           | Some n' => (Ok tt, n')
           | None => (Raise e, n)
           end.

Definition os_remove (p : path) : M node unit :=
  fun n => match fs_lookup p n with
           | Some (File _) => fs_store p None FileNotFoundError n
           | Some (Dir _) => (Raise IsADirectoryError, n)
           | None => (Raise FileNotFoundError, n)
           end.

Definition shutil_rmtree (p : path) : M node unit :=
  fun n => match fs_lookup p n with
           | Some (Dir _) => fs_store p None FileNotFoundError n
           | Some (File _) => (Raise NotADirectoryError, n)
           | None => (Raise FileNotFoundError, n)
           end.

Definition os_mkdir (p : path) : M node unit :=
  fun n => match fs_lookup p n with
           | Some _ => (Raise FileExistsError, n)
           | None => fs_store p (Some (Dir ∅)) FileNotFoundError n
           end.

Definition os_rmdir (p : path) : M node unit :=
  fun n => match fs_lookup p n with
           | Some (Dir m) =>
               if decide (m = ∅) then fs_store p None FileNotFoundError n
               else (Raise DirectoryNotEmpty, n)
           | Some (File _) => (Raise NotADirectoryError, n)
           | None => (Raise FileNotFoundError, n)
           end.

(** [open(p, "w")] followed by the writes of [content]. *)
Definition write_file (p : path) (content : list byte) : M node unit :=
  fun n => match fs_lookup p n with
           | Some (Dir _) => (Raise IsADirectoryError, n)
           | _ => fs_store p (Some (File content)) FileNotFoundError n
           end.

(** [shutil.copy] of a file with content [src], whose base name is [base]. *)
Definition shutil_copy_to (src : Res (list byte)) (base : string) (dst : path)
    : M node unit :=
  do c <~ lift src;
  do n <~ get;
  if os_path_isdir dst n then write_file (dst ++ [base]) c
  else write_file dst c.

(** The tree has regular files and directories only: [islink] is always
    false and there is no "other type of file". *)
Definition force_rm (p : path) : M node unit :=
  do n <~ get;
  if os_path_isfile p n then os_remove p
  else if os_path_isdir p n then shutil_rmtree p
  else ret tt.

Definition force_mkdir (p : path) : M node unit :=
  do n <~ get;
  if os_path_isfile p n then (run os_remove p; os_mkdir p)
  else if os_path_isdir p n then (run shutil_rmtree p; os_mkdir p)
  else os_mkdir p.

Definition rmdir_if_empty (p : path) : M node unit :=
  do n <~ get;
  do l <~ lift (os_listdir p n);
  if decide (length l = 0) then os_rmdir p else ret tt.

(** [filecmp.cmp(f1, f2, shallow=False)]: [os.stat] on both, [False]
    unless both are regular files, then the contents. *)
Definition compare_files (p1 p2 : path) (n : node) : Res bool :=
  match fs_lookup p1 n, fs_lookup p2 n with
  | None, _ => Raise FileNotFoundError
  | Some _, None => Raise FileNotFoundError
  | Some (File a), Some (File b) => Ok (bool_decide (a = b))
  | Some _, Some _ => Ok false
  end.

(** ** Strings *)

(** [os.path.join(a, b)] for a relative [b]. *)
Definition os_path_join (a b : string) : string :=
  if decide (a = "") then b
  else if String.eqb (String.substring (String.length a - 1) 1 a) "/"
       then a +:+ b
       else a +:+ "/" +:+ b.

Fixpoint str_remove_go (old : string) (skip : nat) (s : string) : string :=
  match s with
  | EmptyString => EmptyString
  | String c s' =>
      match skip with
      | S k => str_remove_go old k s'
      | O => if String.prefix old s
             then str_remove_go old (String.length old - 1) s'
             else String c (str_remove_go old 0 s')
      end
  end.

(** [s.replace(old, "")]. *)
Definition str_remove_all (old s : string) : string :=
  if decide (old = "") then s else str_remove_go old 0 s.

Definition is_digit (c : ascii) : bool :=
  (48 <=? nat_of_ascii c)%nat && (nat_of_ascii c <=? 57)%nat.

Fixpoint no_newline (s : string) : bool :=
  match s with
  | EmptyString => true
  | String c s' => negb (nat_of_ascii c =? 10)%nat && no_newline s'
  end.

Fixpoint last_is_digit (s : string) : bool :=
  match s with
  | EmptyString => false
  | String c EmptyString => is_digit c
  | String _ s' => last_is_digit s'
  end.

(** [re.fullmatch(".*[0-9]+$", s) is not None]: [.] matches everything but
    a newline, so the whole of [s] is matched exactly when [s] has no
    newline and ends with a digit. *)
Definition re_fullmatch_any_digits (s : string) : bool :=
  no_newline s && last_is_digit s.

Section Engine.

Context `{GrubEnv}.

(** ** The world *)

Record World := {
  fs : node;
  disks : gmap string Disk;
  (** The calls of [Grub.makeCoreImage] made so far. *)
  image_calls : list (MkImageCall PlatformType)
}.

Definition on_fs {A} (m : M node A) : M World A :=
  fun w => let '(r, n) := m (fs w) in
           (r, {| fs := n; disks := disks w; image_calls := image_calls w |}).

Definition log_image_call (c : MkImageCall PlatformType) : M World unit :=
  fun w => (Ok tt, {| fs := fs w; disks := disks w;
                      image_calls := image_calls w ++ [c] |}).

(** [open(dev, "rb")] and the bytes of the device from its start;
    [dev] is [None] where the caller passes Python's [None]. *)
Definition open_rb (dev : option string) (w : World) : Res (list byte) :=
  match dev with
  | None => Raise TypeError
  | Some d => match disks w !! d with
              | Some dk => Ok (dk_bytes dk)
              | None => Raise FileNotFoundError
              end
  end.

(** [open(dev, "wb")] on a block device and the write of [data] at its
    start: the bytes after [data] stay. *)
Definition write_dev (dev : string) (data : list byte) : M World unit :=
  fun w => match disks w !! dev with
           | Some dk =>
               let dk' := {| dk_bytes := data ++ drop (length data) (dk_bytes dk);
                             dk_type := dk_type dk;
                             dk_primaries := dk_primaries dk;
                             dk_sectorSize := dk_sectorSize dk |} in
               (Ok tt, {| fs := fs w; disks := <[dev := dk']> (disks w);
                          image_calls := image_calls w |})
           | None => (Raise FileNotFoundError, w)
           end.

Definition coreImgFile : path := ["grub"; "core.img"].
Definition bootImgFile : path := ["grub"; "boot.img"].

(** ** class [_Bios] *)

Definition _getMbrGapSizeThreshold : Z := 512 * 1024.

Definition _isValidDisk (dev : string) : M World bool :=
  fun w =>
  if negb (re_fullmatch_any_digits dev) then (Ok false, w)
  else match disks w !! dev with
       | None => (Raise (ExternalError "parted.getDevice"), w)
       | Some pDev =>
           match dk_type pDev with
           | None => (Raise (ExternalError "parted.newDisk"), w)
           | Some ty =>
               if negb (String.eqb ty "msdos") then (Ok false, w)
               else
                 let pPartiList := dk_primaries pDev in
                 if (0 <? length pPartiList)%nat then (Ok false, w)
                 else match pPartiList !! 0%nat with
                      | None => (Raise IndexError, w)
                      | Some start =>
                          if (start * dk_sectorSize pDev
                                <? _getMbrGapSizeThreshold)%Z
                          then (Ok false, w)
                          else (Ok true, w)
                      end
           end
       end.

(** The outcome of one pass through the body of [while True:]. *)
Inductive Iter :=
| IterBreak (bAllowFloppy : option bool)
| IterEnd (bAllowFloppy : option bool)
| IterRaise (e : Exc).

Definition Bios_check_iteration (dev : option string)
    (bAllowFloppy : option bool) (w : World) : Iter :=
  if negb (os_path_exists bootImgFile (fs w)) then IterBreak bAllowFloppy else
  match read_bytes bootImgFile (fs w) with
  | Raise e => IterRaise e
  | Ok bootBuf =>
  if negb (length bootBuf =? DISK_SECTOR_SIZE)%nat then IterBreak bAllowFloppy else
  if negb (os_path_exists coreImgFile (fs w)) then IterBreak bAllowFloppy else
  match read_bytes coreImgFile (fs w) with
  | Raise e => IterRaise e
  | Ok coreBuf =>
  if negb ((Z.of_nat DISK_SECTOR_SIZE <=? Z.of_nat (length coreBuf))%Z
           && (Z.of_nat (length coreBuf) <=? _getMbrGapSizeThreshold)%Z)
  then IterBreak bAllowFloppy else
  match open_rb dev w with
  | Raise e => IterRaise e
  | Ok f =>
  let tmpBuf := take DISK_SECTOR_SIZE f in
  let '(s1, e1) := (BOOT_MACHINE_BPB_START, BOOT_MACHINE_BPB_END) in
  if negb (bool_decide (take s1 tmpBuf = take s1 bootBuf))
  then IterBreak bAllowFloppy else
  let '(s2, e2) := (BOOT_MACHINE_DRIVE_CHECK, BOOT_MACHINE_DRIVE_CHECK + 2) in
  if negb (bool_decide (slice e1 s2 tmpBuf = slice e1 s2 bootBuf))
  then IterBreak bAllowFloppy else
  let drive_check :=
    if bool_decide (slice s2 e2 tmpBuf = [x90; x90]) then Some (Some false)
    else if negb (bool_decide (slice s2 e2 tmpBuf = slice s2 e2 bootBuf))
         then None
         else Some (Some true) in
  match drive_check with
  | None => IterBreak bAllowFloppy
  | Some bAllowFloppy =>
  let '(s3, e3) := (BOOT_MACHINE_WINDOWS_NT_MAGIC, BOOT_MACHINE_PART_END) in
  if negb (bool_decide (slice e2 s3 tmpBuf = slice e2 s3 bootBuf))
  then IterBreak bAllowFloppy else
  if negb (bool_decide (drop e3 tmpBuf = drop e3 bootBuf))
  then IterBreak bAllowFloppy else
  if negb (bool_decide (coreBuf
                        = take (length coreBuf) (drop DISK_SECTOR_SIZE f)))
  then IterBreak bAllowFloppy else
  IterEnd bAllowFloppy
  end end end end.

(** [while True:] with [fuel] passes allowed; [None] when they are used up.
    The body ends in [bOk = True] and falls through to the next pass: only
    [break] and an exception leave the loop. A pass reads and does not
    write, so every pass sees the same world. *)
Fixpoint Bios_check_loop (fuel : nat) (dev : option string) (w : World)
    (bOk : bool) (bAllowFloppy : option bool)
    : option (Res (bool * option bool)) :=
  match fuel with
  | O => None
  | S fuel' =>
      match Bios_check_iteration dev bAllowFloppy w with
      | IterBreak bAllowFloppy' => Some (Ok (bOk, bAllowFloppy'))
      | IterRaise e => Some (Raise e)
      | IterEnd bAllowFloppy' => Bios_check_loop fuel' dev w true bAllowFloppy'
      end
  end.

Definition Bios_check_and_fill_platform_install_info (fuel : nat)
    (platform_type : PlatformType) (platform_install_info : PlatformInstallInfo)
    (target_type : TargetType) (dev : option string) (w : World)
    : option (Res PlatformInstallInfo) :=
  if negb (bool_decide (status platform_install_info = Some BOOTABLE))
  then Some (Raise AssertionError)
  else
    match Bios_check_loop fuel dev w false None with
    | None => None
    | Some (Raise e) => Some (Raise e)
    | Some (Ok (bOk, bAllowFloppy)) =>
        if bOk
        then Some (Ok (set_bios_attrs true bAllowFloppy false
                         platform_install_info))
        else Some (Ok (set_status EXIST platform_install_info))
    end.

(** The block under [if bInstallMbr:]. The texts of the exceptions are
    shortened. *)
Definition Bios_install_mbr (dev : string)
    (bFloppyOrHdd bAllowFloppy bAddRsCodes : bool) : M World unit :=
  do bootBuf <~ on_fs (do n <~ get; lift (read_bytes bootImgFile n));
  if negb (length bootBuf =? DISK_SECTOR_SIZE)%nat
  then raise (PyException "the size of boot.img is not DISK_SECTOR_SIZE") else
  do coreBuf <~ on_fs (do n <~ get; lift (read_bytes coreImgFile n));
  if (Z.of_nat (length coreBuf) <? Z.of_nat DISK_SECTOR_SIZE)%Z
  then raise (PyException "the size of core.img is too small") else
  if (_getMbrGapSizeThreshold <? Z.of_nat (length coreBuf))%Z
  then raise (PyException "the size of core.img is too large") else
  do w <~ get;
  do f <~ lift (open_rb (Some dev) w);
  let tmpBuf := take DISK_SECTOR_SIZE f in
  (* Copy the possible DOS BPB. *)
  let '(s, e) := (BOOT_MACHINE_BPB_START, BOOT_MACHINE_BPB_END) in
  let bootBuf := slice_assign s e (slice s e tmpBuf) bootBuf in
  (* Replace the jmp (2 bytes) with double nop's. *)
  do bootBuf <~
    (if negb bAllowFloppy && negb bFloppyOrHdd then
       do b <~ lift (index_assign BOOT_MACHINE_DRIVE_CHECK x90 bootBuf);
       lift (index_assign (BOOT_MACHINE_DRIVE_CHECK + 1) x90 b)
     else ret bootBuf);
  (* Copy the partition table. *)
  let bootBuf :=
    if negb bAllowFloppy && negb bFloppyOrHdd then
      let '(s, e) := (BOOT_MACHINE_WINDOWS_NT_MAGIC, BOOT_MACHINE_PART_END) in
      slice_assign s e (slice s e tmpBuf) bootBuf
    else bootBuf in
  do w <~ get;
  run lift (open_rb (Some dev) w);
  if bAddRsCodes then raise AssertionError
  else write_dev dev (bootBuf ++ coreBuf).

(** [install_platform] from the point where [_Bios._isValidDisk(dev)] has
    returned [valid]. *)
Definition Bios_install_platform_from (valid : bool)
    (platform_type : PlatformType)
    (platform_install_info : PlatformInstallInfo) (source : Source)
    (dev : string) (bInstallMbr bFloppyOrHdd bAllowFloppy bAddRsCodes : bool)
    : M World PlatformInstallInfo :=
  run assert_ valid;
  run assert_ (negb bFloppyOrHdd && negb bAllowFloppy && negb bAddRsCodes);
  (* copy boot.img file *)
  run on_fs (shutil_copy_to
               (match source_boot_img source platform_type with
                | Some c => Ok c
                | None => Raise FileNotFoundError
                end) "boot.img" bootImgFile);
  (* install into device bios mbr *)
  run (if bInstallMbr
       then Bios_install_mbr dev bFloppyOrHdd bAllowFloppy bAddRsCodes
       else ret tt);
  (* fill custom attributes *)
  ret (set_bios_attrs bInstallMbr (Some bAllowFloppy) bAddRsCodes
         platform_install_info).

Definition Bios_install_platform (platform_type : PlatformType)
    (platform_install_info : PlatformInstallInfo) (source : Source)
    (dev : string) (bInstallMbr bFloppyOrHdd bAllowFloppy bAddRsCodes : bool)
    : M World PlatformInstallInfo :=
  do valid <~ _isValidDisk dev;
  Bios_install_platform_from valid platform_type platform_install_info source
    dev bInstallMbr bFloppyOrHdd bAllowFloppy bAddRsCodes.

Definition Bios_remove_platform (platform_type : PlatformType)
    (bootDir : string) : M World unit :=
  ret tt.

(** ** class [_Efi] *)

Definition efiDir : path := ["EFI"].
Definition efiDirLv2 : path := ["EFI"; "BOOT"].

Definition Efi_check_and_fill_platform_install_info
    (platform_type : PlatformType) (platform_install_info : PlatformInstallInfo)
    (target_type : TargetType) (n : node) : Res PlatformInstallInfo :=
  if negb (bool_decide (status platform_install_info = Some BOOTABLE))
  then Raise AssertionError
  else
    let coreFullfn := ["grub"; value platform_type;
                       fst getCoreImgNameAndTarget] in
    let efiFullfn := efiDirLv2 ++ [getStandardEfiFilename platform_type] in
    (* check *)
    let bOk := true in
    let bOk := if bOk && negb (os_path_exists efiFullfn n) then false else bOk in
    match (if bOk then
             match compare_files coreFullfn efiFullfn n with
             | Ok same => Ok (if negb same then false else bOk)
             | Raise e => Raise e
             end
           else Ok bOk) with
    | Raise e => Raise e
    | Ok bOk =>
        if bOk
        then Ok (set_efi_attrs true false platform_install_info)
        else Ok (set_status EXIST platform_install_info)
    end.

Definition Efi_install_platform (platform_type : PlatformType)
    (platform_install_info : PlatformInstallInfo) (source : Source)
    : M node PlatformInstallInfo :=
  let grubPlatDir := ["grub"; value platform_type] in
  let efiFn := getStandardEfiFilename platform_type in
  (* create efi dir *)
  run force_mkdir efiDir;
  (* create level 2 efi dir *)
  run force_mkdir efiDirLv2;
  (* copy efi file *)
  let coreName := fst getCoreImgNameAndTarget in
  do n <~ get;
  run shutil_copy_to (read_bytes (grubPlatDir ++ [coreName]) n) coreName
        (efiDirLv2 ++ [efiFn]);
  (* fill custom attributes *)
  ret (set_efi_attrs true false platform_install_info).

Definition Efi_remove_platform (platform_type : PlatformType) : M node unit :=
  let efiFn := getStandardEfiFilename platform_type in
  (* remove efi file *)
  run force_rm (efiDirLv2 ++ [efiFn]);
  (* remove empty level 2 efi dir *)
  run rmdir_if_empty efiDirLv2;
  (* remove empty efi dir *)
  rmdir_if_empty efiDir.

Definition Efi_remove_remaining_crufts : M node unit :=
  force_rm efiDir.

(** ** The target object and class [_Common] *)

(** [_bootDir] and [_dev] are [None] where [__init__] does not set the
    attribute. The tree [fs] of the world is the one at [_bootDir]. *)
Record Target := {
  _targetType : TargetType;
  _mode : TargetAccessMode;
  _bootDir : option string;
  _dev : option string;
  _platforms : gmap PlatformType PlatformInstallInfo
}.

Definition set_platforms (m : gmap PlatformType PlatformInstallInfo)
    (t : Target) : Target :=
  {| _targetType := _targetType t; _mode := _mode t; _bootDir := _bootDir t;
     _dev := _dev t; _platforms := m |}.

Definition grubDir : path := ["grub"].

(** [_Common.init_platforms]: the inner loops, for one directory entry and
    for all of them. *)
Definition init_platforms_entry (fn : string)
    (m : gmap PlatformType PlatformInstallInfo)
    : gmap PlatformType PlatformInstallInfo :=
  foldl (fun acc pt =>
           if decide (fn = value pt)
           then <[pt := set_status BOOTABLE PlatformInstallInfo_new]> acc
           else acc)
        m (enum PlatformType).

Definition Common_init_platforms (n : node)
    (m : gmap PlatformType PlatformInstallInfo)
    : Res (gmap PlatformType PlatformInstallInfo) :=
  if os_path_isdir grubDir n then
    match os_listdir grubDir n with
    | Ok l => Ok (foldl (fun acc fn => init_platforms_entry fn acc) m l)
    | Raise e => Raise e
    end
  else Ok m.

Inductive DiskModule := biosdisk | native.

Definition disk_module (platform_type : PlatformType) : option DiskModule :=
  if decide (platform_type = I386_PC) then Some biosdisk
  else if decide (platform_type = I386_MULTIBOOT) then Some native
  else if isPlatformCoreboot platform_type then Some native
  else if isPlatformQemu platform_type then Some native
  else if decide (platform_type = MIPSEL_LOONGSON) then Some native
  else None.

Definition disk_modules (platform_type : PlatformType) : list string :=
  match disk_module platform_type with
  | None => []
  | Some biosdisk => [] ++ ["biosdisk"]
  | Some native => (([] ++ ["pata"]) ++ ["ahci"])
                     ++ ["ohci"; "uhci"; "ehci"; "ubms"]
  end.

Definition load_cfg_text (uuid relGrubDir : string) : string :=
  ("search.fs_uuid " +:+ uuid +:+ " root " +:+ "" +:+ String "010" "")
  +:+ ("set prefix=($root)'" +:+ relGrubDir +:+ "'" +:+ String "010" "").

Definition Common_install_platform (p : Target)
    (platform_type : PlatformType) (source : Source) : M World unit :=
  do bootDir <~ lift (match _bootDir p with
                      | Some d => Ok d
                      | None => Raise AttributeError
                      end);
  do mnt <~ lift (probeMnt bootDir);
  match fs_uuid mnt with
  | None => raise (PyException "")
  | Some uuid =>
  let relGrubDir := str_remove_all (mnt_pt mnt) (os_path_join bootDir "grub") in
  (* disk module *)
  let moduleList := disk_modules platform_type in
  (* fs module *)
  if isPlatformEfi platform_type && negb (String.eqb (mnt_fs mnt) "vfat")
  then raise (PyException "doesn't look like an EFI partition") else
  do fsName <~ lift (getGrubFsName (mnt_fs mnt));
  let moduleList := moduleList ++ [fsName] in
  (* install files *)
  run on_fs (copyPlatformFiles platform_type source grubDir);
  (* generate load.cfg for core.img *)
  let loadCfgFile := grubDir ++ [value platform_type; "load.cfg"] in
  let moduleList := moduleList ++ ["search_fs_uuid"] in
  run on_fs (write_file loadCfgFile
               (list_byte_of_string (load_cfg_text uuid relGrubDir)));
  (* make core.img *)
  let '(coreName, mkimageTarget) := getCoreImgNameAndTarget in
  let coreImg := grubDir ++ [value platform_type; coreName] in
  run log_image_call (Build_MkImageCall platform_type loadCfgFile
                        mkimageTarget moduleList coreImg);
  on_fs (makeCoreImage source platform_type loadCfgFile mkimageTarget
           moduleList coreImg)
  end.

Definition Common_remove_platform (platform_type : PlatformType)
    : M node unit :=
  force_rm (grubDir ++ [value platform_type]).

Definition Common_remove_remaining_crufts : M node unit :=
  force_rm grubDir.

Definition Common_check (p : Target) (auto_fix : bool) : M node unit :=
  do n <~ get;
  if os_path_isdir grubDir n then
    run lift (os_listdir grubDir n);
    ret tt
  else if (0 <? size (_platforms p))%nat then raise (PyException "")
  else ret tt.

Definition Common_check_with_source (p : Target) (source : Source)
    (auto_fix : bool) : M node unit :=
  ret tt.

(** ** class [Target] *)

(** The keyword arguments of [__init__] that the code looks at. *)
Record InitKwargs := {
  kw_rootfs_dir : option string;
  kw_boot_dir : option string;
  kw_dev : option string;
  kw_dir : option string
}.

(** The part of [__init__] under "target specific variables". *)
Definition Target_init_attrs (target_type : TargetType)
    (target_access_mode : TargetAccessMode) (kwargs : InitKwargs)
    : Res Target :=
  match target_type with
  | MOUNTED_HDD_DEV =>
      (* the default of [kwargs.get("boot_dir", ...)] is evaluated first *)
      match kw_rootfs_dir kwargs with
      | None => Raise TypeError
      | Some rootfsDir =>
          let bootDir := default (os_path_join rootfsDir "boot")
                                 (kw_boot_dir kwargs) in
          match kw_dev kwargs with
          | None => Raise KeyError
          | Some dev =>
              Ok {| _targetType := target_type; _mode := target_access_mode;
                    _bootDir := Some bootDir; _dev := Some dev;
                    _platforms := ∅ |}
          end
      end
  | PYCDLIB_OBJ =>
      if bool_decide (target_access_mode ∈ [R; W])
      then Raise TypeError            (* kwargs.get["obj"] *)
      else Raise AssertionError
  | ISO_DIR =>
      match kw_dir kwargs with
      | None => Raise KeyError
      | Some dir =>
          Ok {| _targetType := target_type; _mode := target_access_mode;
                _bootDir := Some (os_path_join dir "boot"); _dev := None;
                _platforms := ∅ |}
      end
  end.

(** The loop [for k, v in self._platforms.items()], over the items in
    the order of [map_to_list]; [dev] is what the call passes for [dev]. *)
Fixpoint Target_init_check (fuel : nat) (target_type : TargetType)
    (dev : option string) (w : World)
    (items : list (PlatformType * PlatformInstallInfo))
    (m : gmap PlatformType PlatformInstallInfo)
    : option (Res (gmap PlatformType PlatformInstallInfo)) :=
  match items with
  | [] => Some (Ok m)
  | (k, v) :: items' =>
      let checked :=
        if decide (k = I386_PC) then
          Bios_check_and_fill_platform_install_info fuel k v target_type dev w
        else if isPlatformEfi k then
          Some (Efi_check_and_fill_platform_install_info k v target_type (fs w))
        else Some (Raise AssertionError) in
      match checked with
      | None => None
      | Some (Raise e) => Some (Raise e)
      | Some (Ok v') =>
          Target_init_check fuel target_type dev w items' (<[k := v']> m)
      end
  end.

(** [Target.__init__]; [None] when [fuel] passes of a loop were not enough. *)
Definition Target_init (fuel : nat) (target_type : TargetType)
    (target_access_mode : TargetAccessMode) (kwargs : InitKwargs) (w : World)
    : option (Res Target) :=
  match Target_init_attrs target_type target_access_mode kwargs with
  | Raise e => Some (Raise e)
  | Ok t =>
      if bool_decide (target_access_mode ∈ [R; RW]) then
        match target_type with
        | MOUNTED_HDD_DEV | ISO_DIR =>
            match Common_init_platforms (fs w) (_platforms t) with
            | Raise e => Some (Raise e)
            | Ok m =>
                let dev := match target_type with
                           | MOUNTED_HDD_DEV => _dev t
                           | _ => None
                           end in
                match Target_init_check fuel target_type dev w
                        (map_to_list m) m with
                | None => None
                | Some (Raise e) => Some (Raise e)
                | Some (Ok m') => Some (Ok (set_platforms m' t))
                end
            end
        | PYCDLIB_OBJ => Some (Raise AssertionError)
        end
      else Some (Ok t)
  end.

Definition platforms (t : Target) : gset PlatformType := dom (_platforms t).

Definition bootable_platforms (t : Target) : list PlatformType :=
  (map_to_list (filter (fun kv => status kv.2 = Some BOOTABLE)
                       (_platforms t))).*1.

Definition get_platform_install_info (t : Target)
    (platform_type : PlatformType) : Res PlatformInstallInfo :=
  match _platforms t !! platform_type with
  | Some info => Ok info
  | None =>
      let ret := PlatformInstallInfo_new in
      let ret := set_status NOT_EXIST ret in
      Ok ret
  end.

(** A completed change of the platform map; the session keeps their list
    as a history, which no code reads. *)
Inductive Event :=
| Installed (platform_type : PlatformType)
| Removed (platform_type : PlatformType).

Record Session := {
  target : Target;
  world : World;
  completed : list Event
}.

Definition in_world {A} (m : M World A) : M Session A :=
  fun s => let '(r, w) := m (world s) in
           (r, {| target := target s; world := w; completed := completed s |}).

Definition in_fs {A} (m : M node A) : M Session A := in_world (on_fs m).

Definition self : M Session Target := fun s => (Ok (target s), s).

Definition update_platforms
    (f : gmap PlatformType PlatformInstallInfo
         -> gmap PlatformType PlatformInstallInfo) : M Session unit :=
  fun s => (Ok tt, {| target := set_platforms (f (_platforms (target s)))
                                              (target s);
                      world := world s; completed := completed s |}).

Definition log_event (e : Event) : M Session unit :=
  fun s => (Ok tt, {| target := target s; world := world s;
                      completed := completed s ++ [e] |}).

(** The keyword arguments of [install_platform]. *)
Record InstallKwargs := {
  kw_allow_floppy : option bool;
  kw_rs_codes : option bool
}.

Definition attr {A} (a : option A) : M Session A :=
  match a with Some x => ret x | None => raise AttributeError end.

Definition Target_install_platform (platform_type : PlatformType)
    (source : Source) (kwargs : InstallKwargs) : M Session unit :=
  do t <~ self;
  run assert_ (bool_decide (_mode t ∈ [RW; W]));
  do info <~ lift (get_platform_install_info t platform_type);
  run assert_ (negb (bool_decide (status info = Some BOOTABLE)));
  let ret_ := PlatformInstallInfo_new in
  let ret_ := set_status BOOTABLE ret_ in
  do ret_ <~
    match _targetType t with
    | MOUNTED_HDD_DEV =>
        run in_world (Common_install_platform t platform_type source);
        if decide (platform_type = I386_PC) then
          do dev <~ attr (_dev t);
          in_world (Bios_install_platform platform_type ret_ source dev
                      true                                  (* bInstallMbr *)
                      false                                 (* bFloppyOrHdd *)
                      (default false (kw_allow_floppy kwargs))
                      (default true (kw_rs_codes kwargs)))
        else if isPlatformEfi platform_type then
          in_fs (Efi_install_platform platform_type ret_ source)
        else raise AssertionError
    | PYCDLIB_OBJ => raise AssertionError
    | ISO_DIR =>
        run in_world (Common_install_platform t platform_type source);
        if decide (platform_type = I386_PC) then
          do dev <~ attr (_dev t);
          in_world (Bios_install_platform platform_type ret_ source dev
                      false                                 (* bInstallMbr *)
                      false                                 (* bFloppyOrHdd *)
                      (default false (kw_allow_floppy kwargs))
                      (default true (kw_rs_codes kwargs)))
        else if isPlatformEfi platform_type then
          in_fs (Efi_install_platform platform_type ret_ source)
        else raise AssertionError
    end;
  run update_platforms (fun m => <[platform_type := ret_]> m);
  log_event (Installed platform_type).

Definition Target_remove_platform (platform_type : PlatformType)
    : M Session unit :=
  do t <~ self;
  run assert_ (bool_decide (_mode t ∈ [RW; W]));
  run match _targetType t with
      | MOUNTED_HDD_DEV =>
          run (if decide (platform_type = I386_PC) then
                 do dev <~ attr (_dev t);
                 in_world (Bios_remove_platform platform_type dev)
               else if isPlatformEfi platform_type then
                 in_fs (Efi_remove_platform platform_type)
               else raise AssertionError);
          in_fs (Common_remove_platform platform_type)
      | PYCDLIB_OBJ => raise AssertionError
      | ISO_DIR => in_fs (Common_remove_platform platform_type)
      end;
  run update_platforms (fun m =>
        if bool_decide (platform_type ∈ dom m) then delete platform_type m
        else m);
  log_event (Removed platform_type).

Fixpoint for_each {S A} (l : list A) (body : A -> M S unit) : M S unit :=
  match l with
  | [] => ret tt
  | x :: l' => run body x; for_each l' body
  end.

Definition Target_install_data (source : Source)
    (locales fonts themes : option (list string)) : M Session unit :=
  do t <~ self;
  run assert_ (bool_decide (_mode t ∈ [RW; W]));
  run in_fs (force_mkdir grubDir);
  run match locales with
      | Some l => in_fs (copyLocaleFiles source grubDir l)
      | None => ret tt
      end;
  run match fonts with
      | Some l => in_fs (copyFontFiles source grubDir l)
      | None => ret tt
      end;
  match themes with
  | Some l => in_fs (copyThemeFiles source grubDir l)
  | None => ret tt
  end.

Definition Target_remove_data : M Session unit :=
  do t <~ self;
  run assert_ (bool_decide (_mode t ∈ [RW; W]));
  run in_fs (force_rm (grubDir ++ ["locale"]));
  run in_fs (force_rm (grubDir ++ ["fonts"]));
  in_fs (force_rm (grubDir ++ ["themes"])).

Definition grubEnvFile : path := ["grub"; "grubenv"].

Definition Target_touch_env_file : M Session unit :=
  do t <~ self;
  run assert_ (bool_decide (_mode t ∈ [RW; W]));
  do s <~ get;
  if negb (os_path_exists grubEnvFile (fs (world s)))
  then in_fs (createEnvBlkFile grubEnvFile)
  else ret tt.

Definition Target_remove_env_file : M Session unit :=
  do t <~ self;
  run assert_ (bool_decide (_mode t ∈ [RW; W]));
  in_fs (force_rm grubEnvFile).

Definition Target_remove_all : M Session unit :=
  do t <~ self;
  run assert_ (bool_decide (_mode t ∈ [RW; W]));
  (* remove platforms, some platform needs special processing *)
  run for_each (map_to_list (_platforms t)).*1 Target_remove_platform;
  (* remove remaining files *)
  run in_fs Efi_remove_remaining_crufts;
  in_fs Common_remove_remaining_crufts.

Definition Target_check (auto_fix : bool) : M Session unit :=
  do t <~ self;
  run assert_ (bool_decide (_mode t ∈ [R; RW]));
  match _targetType t with
  | MOUNTED_HDD_DEV => in_fs (Common_check t auto_fix)
  | PYCDLIB_OBJ => raise AssertionError
  | ISO_DIR => in_fs (Common_check t auto_fix)
  end.

Definition Target_check_with_source (source : Source) (auto_fix : bool)
    : M Session unit :=
  do t <~ self;
  run assert_ (bool_decide (_mode t ∈ [R; RW]));
  match _targetType t with
  | MOUNTED_HDD_DEV => in_fs (Common_check_with_source t source auto_fix)
  | PYCDLIB_OBJ => raise AssertionError
  | ISO_DIR => in_fs (Common_check_with_source t source auto_fix)
  end.

(** ** Sequences of operations on one target *)

Inductive Op :=
| OpInstallPlatform (platform_type : PlatformType) (source : Source)
    (kwargs : InstallKwargs)
| OpRemovePlatform (platform_type : PlatformType)
| OpInstallData (source : Source) (locales fonts themes : option (list string))
| OpRemoveData
| OpTouchEnvFile
| OpRemoveEnvFile
| OpRemoveAll
| OpCheck (auto_fix : bool)
| OpCheckWithSource (source : Source) (auto_fix : bool).

Definition run_op (op : Op) : M Session unit :=
  match op with
  | OpInstallPlatform pt source kwargs =>
      Target_install_platform pt source kwargs
  | OpRemovePlatform pt => Target_remove_platform pt
  | OpInstallData source locales fonts themes =>
      Target_install_data source locales fonts themes
  | OpRemoveData => Target_remove_data
  | OpTouchEnvFile => Target_touch_env_file
  | OpRemoveEnvFile => Target_remove_env_file
  | OpRemoveAll => Target_remove_all
  | OpCheck auto_fix => Target_check auto_fix
  | OpCheckWithSource source auto_fix =>
      Target_check_with_source source auto_fix
  end.

(** The caller runs the operations one after the other and goes on after
    an exception. *)
Definition run_ops (ops : list Op) (s : Session) : Session :=
  foldl (fun s op => (run_op op s).2) s ops.

(** The session right after [Target.__init__] returned [t]. *)
Definition new_session (t : Target) (w : World) : Session :=
  {| target := t; world := w; completed := [] |}.

(** The platforms that the scan of [__init__] finds: those whose name is
    an entry of the directory [<boot>/grub]. *)
Definition found_by_scan (mode : TargetAccessMode) (n : node)
    (pt : PlatformType) : Prop :=
  mode ∈ [R; RW] ∧
  ∃ entries, fs_lookup grubDir n = Some (Dir entries)
             ∧ is_Some (entries !! value pt).

(** The last completed change of the entry of [pt], if any. *)
Definition concerns (pt : PlatformType) (e : Event) : Prop :=
  match e with Installed q | Removed q => q = pt end.

#[global] Instance concerns_dec pt e : Decision (concerns pt e).
Proof. destruct e; simpl; apply _. Defined.

Definition last_change (pt : PlatformType) (es : list Event) : option Event :=
  last (filter (concerns pt) es).

(** The keys of the map are the platforms whose entry was last installed,
    and those found at first (the predicate [found]) whose entry has not
    changed since. *)
Definition keys_inv (found : PlatformType → Prop) (s : Session) : Prop :=
  ∀ pt, pt ∈ platforms (target s)
        ↔ last_change pt (completed s) = Some (Installed pt)
          ∨ (last_change pt (completed s) = None ∧ found pt).

(** The attributes as [__init__] leaves them. *)
Definition initialised (t : Target) : Prop :=
  match _targetType t with
  | MOUNTED_HDD_DEV => is_Some (_bootDir t) ∧ is_Some (_dev t)
  | PYCDLIB_OBJ => False
  | ISO_DIR => is_Some (_bootDir t) ∧ _dev t = None
  end.

(** Nothing of platform [pt] is on disk: neither its directory under
    [grub] nor its file under [EFI/BOOT]. *)
Definition no_artifacts (pt : PlatformType) (n : node) : Prop :=
  fs_lookup (grubDir ++ [value pt]) n = None
  ∧ fs_lookup (efiDirLv2 ++ [getStandardEfiFilename pt]) n = None.

(** The devices that the BIOS installation is to reject. A path that ends
    in a partition number names a partition. *)
Definition is_partition_path (dev : string) : Prop :=
  re_fullmatch_any_digits dev = true.

Definition lacks_msdos_table (dev : string) (w : World) : Prop :=
  ∀ dk, disks w !! dev = Some dk → dk_type dk ≠ Some "msdos".

Definition has_primary_partitions (dev : string) (w : World) : Prop :=
  ∃ dk, disks w !! dev = Some dk ∧ dk_primaries dk ≠ [].

Definition mbr_gap_too_small (dev : string) (w : World) : Prop :=
  ∃ dk start, disks w !! dev = Some dk
              ∧ dk_primaries dk !! 0%nat = Some start
              ∧ (start * dk_sectorSize dk < 512 * 1024)%Z.

(** The image sizes that the BIOS installation is to reject. *)
Definition bad_boot_img_size (bootBuf : list byte) : Prop :=
  length bootBuf ≠ DISK_SECTOR_SIZE.

Definition bad_core_img_size (coreBuf : list byte) : Prop :=
  (Z.of_nat (length coreBuf) < Z.of_nat DISK_SECTOR_SIZE
   ∨ 512 * 1024 < Z.of_nat (length coreBuf))%Z.

(** All the checks of the BIOS verification hold in [w]: [boot.img] is one
    sector, [core.img] is in range, and the device carries both, the drive
    check being either the no-op pair or that of [boot.img]. *)
Definition verification_passes (dev : option string) (w : World) : Prop :=
  ∃ bootBuf coreBuf f,
    fs_lookup bootImgFile (fs w) = Some (File bootBuf)
    ∧ length bootBuf = DISK_SECTOR_SIZE
    ∧ fs_lookup coreImgFile (fs w) = Some (File coreBuf)
    ∧ (Z.of_nat DISK_SECTOR_SIZE ≤ Z.of_nat (length coreBuf) ≤ 512 * 1024)%Z
    ∧ open_rb dev w = Ok f
    ∧ take BOOT_MACHINE_BPB_START (take DISK_SECTOR_SIZE f)
      = take BOOT_MACHINE_BPB_START bootBuf
    ∧ slice BOOT_MACHINE_BPB_END BOOT_MACHINE_DRIVE_CHECK
        (take DISK_SECTOR_SIZE f)
      = slice BOOT_MACHINE_BPB_END BOOT_MACHINE_DRIVE_CHECK bootBuf
    ∧ (slice BOOT_MACHINE_DRIVE_CHECK (BOOT_MACHINE_DRIVE_CHECK + 2)
         (take DISK_SECTOR_SIZE f) = [x90; x90]
       ∨ slice BOOT_MACHINE_DRIVE_CHECK (BOOT_MACHINE_DRIVE_CHECK + 2)
           (take DISK_SECTOR_SIZE f)
         = slice BOOT_MACHINE_DRIVE_CHECK (BOOT_MACHINE_DRIVE_CHECK + 2)
             bootBuf)
    ∧ slice (BOOT_MACHINE_DRIVE_CHECK + 2) BOOT_MACHINE_WINDOWS_NT_MAGIC
        (take DISK_SECTOR_SIZE f)
      = slice (BOOT_MACHINE_DRIVE_CHECK + 2) BOOT_MACHINE_WINDOWS_NT_MAGIC
          bootBuf
    ∧ drop BOOT_MACHINE_PART_END (take DISK_SECTOR_SIZE f)
      = drop BOOT_MACHINE_PART_END bootBuf
    ∧ coreBuf = take (length coreBuf) (drop DISK_SECTOR_SIZE f).

End Engine.

(** ** The rest of [_util.py] *)

Definition truncate_dir (p : path) : M node unit :=
  do n <~ get;
  do l <~ lift (os_listdir p n);
  for_each l (fun fn => force_rm (p ++ [fn])).

(** The loop of [compare_directories] over the names of the first
    directory. *)
Fixpoint compare_entries (d1 d2 : path) (l : list string) (n : node)
    : Res bool :=
  match l with
  | [] => Ok true
  | fn :: l' =>
      match compare_files (d1 ++ [fn]) (d2 ++ [fn]) n with
      | Raise e => Raise e
      | Ok same => if negb same then Ok false else compare_entries d1 d2 l' n
      end
  end.

Definition compare_directories (dirpath1 dirpath2 : path) (n : node)
    : Res bool :=
  match os_listdir dirpath1 n with
  | Raise e => Raise e
  | Ok ret1 =>
      match os_listdir dirpath2 n with
      | Raise e => Raise e
      | Ok ret2 =>
          if negb (bool_decide (ret1 = ret2)) then Ok false
          else compare_entries dirpath1 dirpath2 ret1 n
      end
  end.

Fixpoint is_buffer_all_zero (buf : list byte) : bool :=
  match buf with
  | [] => true
  | b :: buf' =>
      if negb (bool_decide (b = x00)) then false else is_buffer_all_zero buf'
  end.

(** A computation on the tree that leaves alone whatever is not below
    [pre/x]. *)
Definition below {A} (pre : path) (x : string) (m : M node A) : Prop :=
  ∀ n r n' y r', m n = (r, n') → x ≠ y →
    fs_lookup (pre ++ y :: r') n' = fs_lookup (pre ++ y :: r') n.

(** ** What the constructor leaves in the map *)

Section Scan.

Context `{GrubEnv}.

(** The record that the constructor leaves for a platform. *)
Definition scanned_entry (pt : PlatformType) (v : PlatformInstallInfo) : Prop :=
  (pt = I386_PC ∧ v = set_status EXIST (set_status BOOTABLE PlatformInstallInfo_new))
  ∨ (pt ≠ I386_PC ∧ isPlatformEfi pt = true
     ∧ (v = set_status EXIST (set_status BOOTABLE PlatformInstallInfo_new)
        ∨ v = set_efi_attrs true false
                (set_status BOOTABLE PlatformInstallInfo_new))).

End Scan.

(** ** The layout of the boot sector *)

Section Layout.

Context `{GrubEnv}.

(** The order of the offsets in the boot sector: the BPB, the drive check
    and the partition table follow one another inside the sector. GRUB's
    values are 3, 90, 102, 440, 510 and 512. *)
Definition sector_layout : Prop :=
  (BOOT_MACHINE_BPB_START ≤ BOOT_MACHINE_BPB_END)%nat
  ∧ (BOOT_MACHINE_BPB_END ≤ BOOT_MACHINE_DRIVE_CHECK)%nat
  ∧ (BOOT_MACHINE_DRIVE_CHECK + 2 ≤ BOOT_MACHINE_WINDOWS_NT_MAGIC)%nat
  ∧ (BOOT_MACHINE_WINDOWS_NT_MAGIC ≤ BOOT_MACHINE_PART_END)%nat
  ∧ (BOOT_MACHINE_PART_END ≤ DISK_SECTOR_SIZE)%nat.

End Layout.

(** ** A GRUB environment to run the model on *)

Module Sample.

Inductive GrubPlatform :=
| i386_pc
| i386_efi
| x86_64_efi
| i386_multiboot
| i386_coreboot
| i386_qemu
| mipsel_loongson
| powerpc_ieee1275.

#[global] Instance GrubPlatform_eq_dec : EqDecision GrubPlatform.
Proof. solve_decision. Defined.

Definition GrubPlatform_all : list GrubPlatform :=
  [i386_pc; i386_efi; x86_64_efi; i386_multiboot; i386_coreboot; i386_qemu;
   mipsel_loongson; powerpc_ieee1275].

#[global, refine] Instance GrubPlatform_finite : Finite GrubPlatform :=
  {| enum := GrubPlatform_all |}.
Proof.
  - apply (bool_decide_unpack _). vm_compute. exact I.
  - intros []; apply (bool_decide_unpack _); vm_compute; exact I.
Defined.

Definition platform_name (pt : GrubPlatform) : string :=
  match pt with
  | i386_pc => "i386-pc"
  | i386_efi => "i386-efi"
  | x86_64_efi => "x86_64-efi"
  | i386_multiboot => "i386-multiboot"
  | i386_coreboot => "i386-coreboot"
  | i386_qemu => "i386-qemu"
  | mipsel_loongson => "mipsel-loongson"
  | powerpc_ieee1275 => "powerpc-ieee1275"
  end.

Definition is_efi (pt : GrubPlatform) : bool :=
  match pt with i386_efi | x86_64_efi => true | _ => false end.

Definition efi_filename (pt : GrubPlatform) : string :=
  match pt with
  | i386_efi => "BOOTIA32.EFI"
  | x86_64_efi => "BOOTX64.EFI"
  | _ => ""
  end.

(** A [boot.img]: one sector of bytes that differ from region to region. *)
Definition boot_img : list byte :=
  map (fun i => default x00 (Byte.of_nat (i mod 251))) (seq 0 512).

Definition core_img : list byte :=
  map (fun i => default x00 (Byte.of_nat ((7 * i + 3) mod 256))) (seq 0 1024).

Definition copy_platform_files (pt : GrubPlatform) (src : unit) (dir : path)
    : M node unit :=
  do n <~ get;
  run (if os_path_isdir dir n then ret tt else os_mkdir dir);
  force_mkdir (dir ++ [platform_name pt]).

Definition make_core_image (src : unit) (pt : GrubPlatform) (cfg : path)
    (tgt : string) (modules : list string) (out : path) : M node unit :=
  write_file out core_img.

(** Modelled from the spec: [_const.py], [_handy.py] and [_source.py] are
    not part of the sources at hand. The platforms are GRUB's, the sector
    size is the spec's disk sector, the offsets are those of GRUB's
    [boot.h]; the helpers do the least that the spec's interface asks. *)
#[global] Instance grub : GrubEnv := {|
  PlatformType := GrubPlatform;
  value := platform_name;
  I386_PC := i386_pc;
  I386_MULTIBOOT := i386_multiboot;
  MIPSEL_LOONGSON := mipsel_loongson;
  isPlatformEfi := is_efi;
  isPlatformCoreboot := fun pt => bool_decide (pt = i386_coreboot);
  isPlatformQemu := fun pt => bool_decide (pt = i386_qemu);
  getStandardEfiFilename := efi_filename;
  DISK_SECTOR_SIZE := 512;
  BOOT_MACHINE_BPB_START := 3;
  BOOT_MACHINE_BPB_END := 90;
  BOOT_MACHINE_DRIVE_CHECK := 102;
  BOOT_MACHINE_WINDOWS_NT_MAGIC := 440;
  BOOT_MACHINE_PART_END := 510;
  Source := unit;
  source_boot_img := fun _ pt =>
    match pt with i386_pc => Some boot_img | _ => None end;
  getCoreImgNameAndTarget := ("core.img", "i386-pc");
  getGrubFsName := fun fs => Ok (if String.eqb fs "vfat" then "fat" else fs);
  probeMnt := fun bootDir =>
    Ok {| fs_uuid := Some "ABCD-1234"; mnt_fs := "vfat"; mnt_pt := "/mnt" |};
  copyPlatformFiles := copy_platform_files;
  makeCoreImage := make_core_image;
  copyLocaleFiles := fun _ _ _ => ret tt;
  copyFontFiles := fun _ _ _ => ret tt;
  copyThemeFiles := fun _ _ _ => ret tt;
  createEnvBlkFile := fun p => write_file p (replicate 1024 x23)
|}.

(** The first sector as [install_platform] would leave it: [boot.img] with
    the drive check replaced by two no-ops. *)
Definition patched_sector : list byte :=
  <[103 := x90]> (<[102 := x90]> boot_img).

Definition disk_of (bytes : list byte) : Disk :=
  {| dk_bytes := bytes; dk_type := Some "msdos"; dk_primaries := [];
     dk_sectorSize := 512 |}.

Definition grub_tree : node :=
  Dir {[ "grub" := Dir {[ "boot.img" := File boot_img;
                          "core.img" := File core_img;
                          "i386-pc" := Dir ∅ ]} ]}.

Definition world_of (n : node) (first_sectors : list byte) : World :=
  {| fs := n;
     disks := {[ "/dev/sda" := disk_of (first_sectors ++ replicate 64 x00) ]};
     image_calls := [] |}.

(** A disk whose boot sector carries the no-op patch, and one that
    carries [boot.img] as it is. *)
Definition world_patched : World := world_of grub_tree (patched_sector ++ core_img).
Definition world_unpatched : World := world_of grub_tree (boot_img ++ core_img).

Definition bootable : PlatformInstallInfo :=
  set_status BOOTABLE PlatformInstallInfo_new.

(** A mounted-device target and a staging-directory target, open for
    writing, as [__init__] leaves them. *)
Definition mounted_target (mode : TargetAccessMode) : Target :=
  {| _targetType := MOUNTED_HDD_DEV; _mode := mode;
     _bootDir := Some "/mnt/boot"; _dev := Some "/dev/sda";
     _platforms := ∅ |}.

Definition iso_target (mode : TargetAccessMode) : Target :=
  {| _targetType := ISO_DIR; _mode := mode;
     _bootDir := Some "/tmp/iso/boot"; _dev := None; _platforms := ∅ |}.

(** An EFI system partition with the x86_64 loader in place. *)
Definition efi_core : list byte := [x4d; x5a; x90; x00; x03; x00].

Definition efi_tree (installed : list byte) : node :=
  Dir {[ "grub" := Dir {[ "x86_64-efi" := Dir {[ "core.img" := File efi_core ]} ]};
         "EFI" := Dir {[ "BOOT" := Dir {[ "BOOTX64.EFI" := File installed ]} ]} ]}.

(** A staging directory in which the scan finds [grub/x86_64-efi]. *)
Definition world_staged : World :=
  world_of (Dir {[ "grub" := Dir {[ "x86_64-efi" := Dir ∅ ]} ]}) [].

Definition iso_kwargs : InitKwargs :=
  {| kw_rootfs_dir := None; kw_boot_dir := None; kw_dev := None;
     kw_dir := Some "/tmp/iso" |}.

(** An empty boot directory. *)
Definition world_empty : World := world_of (Dir ∅) (boot_img ++ core_img).

(** A disk with one primary partition that starts at sector 63. *)
Definition world_partitioned : World :=
  {| fs := grub_tree;
     disks := {[ "/dev/sdb" :=
                   {| dk_bytes := replicate 2048 x00; dk_type := Some "msdos";
                      dk_primaries := [63%Z]; dk_sectorSize := 512 |} ]};
     image_calls := [] |}.

(** A boot directory whose [core.img] is shorter than a sector. *)
Definition world_short_core : World :=
  world_of (Dir {[ "grub" := Dir {[ "core.img" := File (take 100 core_img) ]} ]})
           (replicate 2048 x00).

(** The same environment with the boot directory on ext4. *)
Definition grub_ext4 : GrubEnv := {|
  PlatformType := GrubPlatform;
  value := platform_name;
  I386_PC := i386_pc;
  I386_MULTIBOOT := i386_multiboot;
  MIPSEL_LOONGSON := mipsel_loongson;
  isPlatformEfi := is_efi;
  isPlatformCoreboot := fun pt => bool_decide (pt = i386_coreboot);
  isPlatformQemu := fun pt => bool_decide (pt = i386_qemu);
  getStandardEfiFilename := efi_filename;
  DISK_SECTOR_SIZE := 512;
  BOOT_MACHINE_BPB_START := 3;
  BOOT_MACHINE_BPB_END := 90;
  BOOT_MACHINE_DRIVE_CHECK := 102;
  BOOT_MACHINE_WINDOWS_NT_MAGIC := 440;
  BOOT_MACHINE_PART_END := 510;
  Source := unit;
  source_boot_img := fun _ pt =>
    match pt with i386_pc => Some boot_img | _ => None end;
  getCoreImgNameAndTarget := ("core.img", "i386-pc");
  getGrubFsName := fun fs => Ok fs;
  probeMnt := fun bootDir =>
    Ok {| fs_uuid := Some "ABCD-1234"; mnt_fs := "ext4"; mnt_pt := "/mnt" |};
  copyPlatformFiles := copy_platform_files;
  makeCoreImage := make_core_image;
  copyLocaleFiles := fun _ _ _ => ret tt;
  copyFontFiles := fun _ _ _ => ret tt;
  copyThemeFiles := fun _ _ _ => ret tt;
  createEnvBlkFile := fun p => write_file p (replicate 1024 x23)
|}.

End Sample.


(** * Properties *)

(** ** BIOS verification *)

Section BiosCheck.

Context `{GrubEnv}.

(** Whether a pass reaches [bOk = True] does not depend on the value that
    [bAllowFloppy] had when the pass began. *)
Lemma Bios_check_iteration_end dev b b' w :
  Bios_check_iteration dev b w = IterEnd b' →
  ∀ b2, Bios_check_iteration dev b2 w = IterEnd b'.
Proof.
  unfold Bios_check_iteration. intros Hit b2.
  repeat (case_match; try discriminate; simplify_eq); done.
Qed.

(** A pass that reaches [bOk = True] is followed by another such pass. *)
Lemma Bios_check_loop_spins dev w b b' :
  Bios_check_iteration dev b w = IterEnd b' →
  ∀ fuel bOk b0, Bios_check_loop fuel dev w bOk b0 = None.
Proof.
  intros Hit fuel. induction fuel as [|fuel IH]; intros bOk b0; [done|].
  simpl. by rewrite (Bios_check_iteration_end _ _ _ _ Hit b0).
Qed.

(** The loop is never left with [bOk] set. *)
Lemma Bios_check_loop_exit fuel dev w b bOk b' :
  Bios_check_loop fuel dev w false b = Some (Ok (bOk, b')) → bOk = false.
Proof.
  destruct fuel as [|fuel]; [done|]. simpl.
  destruct (Bios_check_iteration dev b w) eqn:Hit; [congruence| |done].
  by rewrite (Bios_check_loop_spins _ _ _ _ Hit).
Qed.

(** Whenever the verification returns, it has downgraded the status. *)
Lemma Bios_check_returns_EXIST fuel pt info tt dev w info' :
  Bios_check_and_fill_platform_install_info fuel pt info tt dev w
    = Some (Ok info') →
  info' = set_status EXIST info.
Proof.
  unfold Bios_check_and_fill_platform_install_info.
  case_match; [done|].
  destruct (Bios_check_loop fuel dev w false None) as [[[bOk b']|e]|] eqn:Hl;
    [|done..].
  apply Bios_check_loop_exit in Hl as ->. congruence.
Qed.

Lemma verification_passes_iteration dev w b :
  verification_passes dev w →
  ∃ b', Bios_check_iteration dev b w = IterEnd (Some b').
Proof.
  intros (bootBuf & coreBuf & f & Hb & Hbl & Hc & [Hc1 Hc2] & Hf
          & H1 & H2 & H3 & H4 & H5 & H6).
  unfold Bios_check_iteration, os_path_exists, read_bytes.
  rewrite Hb, Hc, Hf, Hbl, Nat.eqb_refl. unfold _getMbrGapSizeThreshold.
  destruct (Z.leb_spec (Z.of_nat DISK_SECTOR_SIZE) (Z.of_nat (length coreBuf)));
    [|lia].
  destruct (Z.leb_spec (Z.of_nat (length coreBuf)) (512 * 1024)); [|lia].
  destruct H3 as [H3|H3];
    repeat (case_bool_decide; simpl; try done); eauto.
  all: match goal with Hn : ¬ is_Some _ |- _ => destruct Hn; eauto end.
Qed.

(** A third byte pair in the drive-check region: the pass ends in [break]
    before [bAllowFloppy] is assigned. *)
Lemma Bios_check_third_pattern fuel pt info tt dev w bootBuf coreBuf f :
  status info = Some BOOTABLE →
  fs_lookup bootImgFile (fs w) = Some (File bootBuf) →
  fs_lookup coreImgFile (fs w) = Some (File coreBuf) →
  open_rb dev w = Ok f →
  slice BOOT_MACHINE_DRIVE_CHECK (BOOT_MACHINE_DRIVE_CHECK + 2)
    (take DISK_SECTOR_SIZE f) ≠ [x90; x90] →
  slice BOOT_MACHINE_DRIVE_CHECK (BOOT_MACHINE_DRIVE_CHECK + 2)
    (take DISK_SECTOR_SIZE f)
  ≠ slice BOOT_MACHINE_DRIVE_CHECK (BOOT_MACHINE_DRIVE_CHECK + 2) bootBuf →
  Bios_check_and_fill_platform_install_info (S fuel) pt info tt dev w
  = Some (Ok (set_status EXIST info)).
Proof.
  intros Hst Hb Hc Hf Hnop Hne.
  unfold Bios_check_and_fill_platform_install_info.
  rewrite (bool_decide_eq_true_2 _ Hst). simpl.
  assert (Bios_check_iteration dev None w = IterBreak None) as ->; [|done].
  unfold Bios_check_iteration, os_path_exists, read_bytes.
  rewrite Hb, Hc, Hf. simpl.
  rewrite (bool_decide_eq_false_2 _ Hnop), (bool_decide_eq_false_2 _ Hne).
  simpl. repeat case_match; done.
Qed.

End BiosCheck.

Import Sample.

(** C1 (the code departs from the claim). On a disk whose first sector
    carries the no-op pair [0x90 0x90] in the drive-check region and
    otherwise agrees with [boot.img] and [core.img], a pass of the
    verification loop assigns [bAllowFloppy = False] and reaches
    [bOk = True]; but the loop is not left there, and whatever the number of
    passes allowed, [check_and_fill_platform_install_info] has not
    returned: [allow_floppy] is never recorded. *)
Theorem Bios_check_nop_patch_not_recorded :
  Bios_check_iteration (Some "/dev/sda") None world_patched
  = IterEnd (Some false)
  ∧ ∀ fuel,
      Bios_check_and_fill_platform_install_info fuel i386_pc bootable
        MOUNTED_HDD_DEV (Some "/dev/sda") world_patched = None.
Proof.
  assert (Bios_check_iteration (Some "/dev/sda") None world_patched
          = IterEnd (Some false)) as Hit by (vm_compute; reflexivity).
  split; [exact Hit|]. intros fuel.
  unfold Bios_check_and_fill_platform_install_info. simpl.
  by rewrite (Bios_check_loop_spins _ _ _ _ Hit).
Qed.

(** C7 (the code departs from the claim). When all the checks of the BIOS
    verification pass, [check_and_fill_platform_install_info] does not
    terminate: no number of passes through [while True:] is enough for it to
    return, so [mbr_installed], [allow_floppy] and [rs_codes] are never
    recorded. *)
Theorem Bios_check_diverges_when_checks_pass
    `{GrubEnv} pt info tt dev w :
  status info = Some BOOTABLE →
  verification_passes dev w →
  ∀ fuel,
    Bios_check_and_fill_platform_install_info fuel pt info tt dev w = None.
Proof.
  intros Hst Hpass fuel.
  destruct (verification_passes_iteration dev w None Hpass) as [b' Hit].
  unfold Bios_check_and_fill_platform_install_info.
  rewrite (bool_decide_eq_true_2 _ Hst). simpl.
  by rewrite (Bios_check_loop_spins _ _ _ _ Hit).
Qed.

Lemma Bios_check_diverges_when_checks_pass_witness :
  status bootable = Some BOOTABLE
  ∧ verification_passes (Some "/dev/sda") world_unpatched
  ∧ Bios_check_and_fill_platform_install_info 1000 i386_pc bootable
      MOUNTED_HDD_DEV (Some "/dev/sda") world_unpatched = None.
Proof.
  assert (verification_passes (Some "/dev/sda") world_unpatched) as Hpass.
  { exists boot_img, core_img, (boot_img ++ core_img ++ replicate 64 x00).
    repeat split; try (vm_compute; reflexivity); try (vm_compute; congruence).
    right. vm_compute. reflexivity. }
  split; [reflexivity|]. split; [exact Hpass|].
  apply (Bios_check_diverges_when_checks_pass (H := grub) i386_pc bootable
           MOUNTED_HDD_DEV (Some "/dev/sda") world_unpatched);
    [reflexivity | exact Hpass].
Defined.

(** ** The directory tree *)

Lemma fs_put_lookup_same p v n n' :
  fs_put p (Some v) n = Some n' → fs_lookup p n' = Some v.
Proof.
  revert n n'. induction p as [|x p IH]; intros n n'; [done|].
  simpl. destruct n as [|m]; [done|]. destruct p as [|y p].
  - intros [= <-]. simpl. by rewrite lookup_insert_eq.
  - destruct (m !! x) as [c|]; [|done].
    destruct (fs_put (y :: p) (Some v) c) as [c'|] eqn:Hput; [|done].
    intros [= <-]. cbn [fs_lookup]. rewrite lookup_insert_eq. by apply (IH c).
Qed.

(** A change below [pre/x] is not seen below [pre/y]. *)
Lemma fs_put_lookup_diverge pre x y r r' v n n' :
  fs_put (pre ++ x :: r) v n = Some n' → x ≠ y →
  fs_lookup (pre ++ y :: r') n' = fs_lookup (pre ++ y :: r') n.
Proof.
  intros Hput Hne. revert n n' Hput.
  induction pre as [|z pre IH]; intros n n'.
  - simpl. destruct n as [|m]; [done|]. destruct r as [|r0 r].
    + intros [= <-]. destruct v; simpl.
      * by rewrite lookup_insert_ne.
      * by rewrite lookup_delete_ne.
    + destruct (m !! x) as [c|]; [|done].
      destruct (fs_put (r0 :: r) v c) as [c'|]; [|done].
      intros [= <-]. simpl. by rewrite lookup_insert_ne.
  - cbn [app fs_put]. destruct n as [|m]; [done|].
    destruct (pre ++ x :: r) as [|q0 q] eqn:Hq.
    { by destruct pre. }
    destruct (m !! z) as [c|] eqn:Hz; [|done].
    destruct (fs_put (q0 :: q) v c) as [c'|] eqn:Hput; [|done].
    intros [= <-]. cbn [fs_lookup]. rewrite lookup_insert_eq, Hz.
    by apply (IH c).
Qed.

Lemma fs_store_inv p v e n r n' :
  fs_store p v e n = (r, n') →
  (r = Ok tt ∧ fs_put p v n = Some n') ∨ (r = Raise e ∧ n' = n).
Proof.
  unfold fs_store. destruct (fs_put p v n); intros [= <- <-]; eauto.
Qed.

Lemma write_file_inv p c n r n' :
  write_file p c n = (r, n') →
  (r = Ok tt ∧ fs_put p (Some (File c)) n = Some n') ∨ (is_Raise r ∧ n' = n).
Proof.
  unfold write_file. intros Hw.
  destruct (fs_lookup p n) as [[|m]|].
  - apply fs_store_inv in Hw as [[-> ?]|[-> ->]]; [by left|by right].
  - injection Hw as <- <-. by right.
  - apply fs_store_inv in Hw as [[-> ?]|[-> ->]]; [by left|by right].
Qed.

Lemma fs_put_parent_dir p x v n n' :
  fs_put (p ++ [x]) v n = Some n' → ∃ m, fs_lookup p n' = Some (Dir m).
Proof.
  revert n n'. induction p as [|z p IH]; intros n n'.
  - simpl. destruct n as [|m]; [done|]. intros [= <-]. eauto.
  - cbn [app fs_put]. destruct n as [|m]; [done|].
    destruct (p ++ [x]) as [|q0 q] eqn:Hq.
    { by destruct p. }
    destruct (m !! z) as [c|]; [|done].
    destruct (fs_put (q0 :: q) v c) as [c'|] eqn:Hput; [|done].
    intros [= <-]. cbn [fs_lookup]. rewrite lookup_insert_eq.
    by apply (IH c).
Qed.

(** [shutil.copy] of the source's [boot.img] to [<boot>/grub/boot.img]. *)
Lemma copy_boot_img_inv src n r n' :
  shutil_copy_to src "boot.img" ["grub"; "boot.img"] n = (r, n') →
  (is_Raise r ∧ n' = n)
  ∨ (r = Ok tt
     ∧ (∃ c, src = Ok c
             ∧ (fs_lookup ["grub"; "boot.img"] n' = Some (File c)
                ∨ ∃ m, fs_lookup ["grub"; "boot.img"] n' = Some (Dir m)))
     ∧ fs_lookup ["grub"; "core.img"] n' = fs_lookup ["grub"; "core.img"] n).
Proof.
  unfold shutil_copy_to, bind, lift, get.
  destruct src as [c|e]; [|intros [= <- <-]; by left].
  destruct (os_path_isdir ["grub"; "boot.img"] n); intros Hw;
    apply write_file_inv in Hw as [[-> Hput]|[? ->]]; [|by left| |by left];
    right; (split; [done|]); split.
  - exists c. split; [done|]. right.
    by apply (fs_put_parent_dir ["grub"; "boot.img"] "boot.img") in Hput.
  - by apply (fs_put_lookup_diverge ["grub"] "boot.img" "core.img"
                ["boot.img"] []) in Hput.
  - exists c. split; [done|]. left. by apply fs_put_lookup_same in Hput.
  - by apply (fs_put_lookup_diverge ["grub"] "boot.img" "core.img" [] [])
      in Hput.
Qed.

(** ** BIOS installation *)

Section BiosInstall.

Context `{GrubEnv}.

(** [_isValidDisk] returns [False] or raises: with no primary partition
    it indexes an empty list, with one it answers [False]. *)
Lemma isValidDisk_never_True dev w :
  (∃ e, _isValidDisk dev w = (Raise e, w)) ∨ _isValidDisk dev w = (Ok false, w).
Proof.
  unfold _isValidDisk.
  repeat (case_match; eauto).
  destruct (dk_primaries _); simplify_eq/=.
Qed.

Lemma Bios_install_platform_raises pt info source dev mbr fl af rs w :
  ∃ e, Bios_install_platform pt info source dev mbr fl af rs w = (Raise e, w).
Proof.
  unfold Bios_install_platform, bind.
  destruct (isValidDisk_never_True dev w) as [[e ->]| ->]; eauto.
Qed.

(** The installer's second assertion. *)
Lemma Bios_install_platform_from_rs_codes valid pt info source dev mbr fl af w :
  Bios_install_platform_from valid pt info source dev mbr fl af true w
  = (Raise AssertionError, w).
Proof.
  unfold Bios_install_platform_from, bind.
  destruct valid; simpl; [|done].
  by rewrite !andb_false_r.
Qed.

(** The block under [if bInstallMbr:] raises before it opens the device
    for writing, unless [boot.img] is one sector and [core.img] is in
    range. *)
Lemma Bios_install_mbr_rejects dev fl af rs w :
  (∀ b, fs_lookup bootImgFile (fs w) = Some (File b) → bad_boot_img_size b)
  ∨ (∃ c, fs_lookup coreImgFile (fs w) = Some (File c) ∧ bad_core_img_size c) →
  ∃ e, Bios_install_mbr dev fl af rs w = (Raise e, w).
Proof.
  intros Hbad. destruct w as [n d ic]. cbn [fs] in Hbad.
  unfold Bios_install_mbr, bind, on_fs, get, lift, read_bytes, raise.
  cbn [fs disks image_calls].
  destruct (fs_lookup bootImgFile n) as [[b|?]|] eqn:Hb; eauto.
  destruct (Nat.eqb_spec (length b) DISK_SECTOR_SIZE) as [Hlen|Hlen];
    cbn [negb]; eauto.
  destruct Hbad as [Hbad|(c & Hc & Hbad)]; [by destruct (Hbad b)|].
  cbn [fs]. rewrite Hc. unfold bad_core_img_size, _getMbrGapSizeThreshold in *.
  destruct (Z.ltb_spec (Z.of_nat (length c)) (Z.of_nat DISK_SECTOR_SIZE));
    eauto.
  destruct (Z.ltb_spec (512 * 1024) (Z.of_nat (length c))); eauto. lia.
Qed.

Lemma Bios_install_platform_from_bad_sizes valid pt info source dev fl af rs w :
  (∃ b, source_boot_img source pt = Some b ∧ bad_boot_img_size b)
  ∨ (∃ c, fs_lookup coreImgFile (fs w) = Some (File c) ∧ bad_core_img_size c) →
  ∃ e w', Bios_install_platform_from valid pt info source dev true fl af rs w
          = (Raise e, w')
          ∧ disks w' = disks w.
Proof.
  intros Hbad. unfold Bios_install_platform_from, bind at 1 2.
  destruct valid; cbn [assert_ ret raise]; [|by eauto].
  destruct (negb fl && negb af && negb rs); cbn [assert_ ret raise];
    [|by eauto].
  unfold bind at 1, on_fs.
  destruct (shutil_copy_to _ "boot.img" bootImgFile (fs w)) as [r n1] eqn:Hcp.
  apply copy_boot_img_inv in Hcp as [[Hr ->]|(-> & (c & Hsrc & Hboot) & Hcore)].
  { destruct r; [done|]. eauto. }
  set (w1 := {| fs := n1; disks := disks w; image_calls := image_calls w |}).
  destruct (Bios_install_mbr_rejects dev fl af rs w1) as [e He].
  { destruct Hbad as [(b & Hb & Hbad)|(c' & Hc & Hbad)].
    - left. intros b' Hb'. cbn [fs w1] in Hb'.
      rewrite Hb in Hsrc. injection Hsrc as <-.
      destruct Hboot as [Hboot|[m Hboot]];
        unfold bootImgFile in Hb'; rewrite Hboot in Hb'; by simplify_eq.
    - right. exists c'. split; [|done]. cbn [fs w1].
      unfold coreImgFile in *. by rewrite Hcore. }
  unfold bind. rewrite He. eauto.
Qed.

End BiosInstall.

(** C2. A device path that names a partition, a device without an msdos
    partition table, a device that already has primary partitions and a
    device whose MBR gap is under 512 KiB do not pass [_isValidDisk]; the
    BIOS [install_platform] with [bInstallMbr] then raises at its first
    assertion, and the world, hence every byte of every device, is as it
    was. *)
Theorem Bios_install_rejects_invalid_device
    `{GrubEnv} pt info source dev bFloppyOrHdd bAllowFloppy bAddRsCodes w :
  is_partition_path dev ∨ lacks_msdos_table dev w
  ∨ has_primary_partitions dev w ∨ mbr_gap_too_small dev w →
  (_isValidDisk dev w).1 ≠ Ok true
  ∧ ∃ e, Bios_install_platform pt info source dev true
           bFloppyOrHdd bAllowFloppy bAddRsCodes w = (Raise e, w).
Proof.
  intros _. split.
  - by destruct (isValidDisk_never_True dev w) as [[e ->]| ->].
  - apply Bios_install_platform_raises.
Qed.

Lemma Bios_install_rejects_invalid_device_witness :
  has_primary_partitions "/dev/sdb" world_partitioned
  ∧ mbr_gap_too_small "/dev/sdb" world_partitioned
  ∧ (_isValidDisk "/dev/sdb" world_partitioned).1 ≠ Ok true
  ∧ ∃ e, Bios_install_platform i386_pc bootable tt "/dev/sdb" true
           false false false world_partitioned
         = (Raise e, world_partitioned).
Proof.
  assert (has_primary_partitions "/dev/sdb" world_partitioned) as Hp.
  { eexists. split; [by vm_compute|]. done. }
  split; [exact Hp|]. split.
  { eexists _, 63%Z. split; [by vm_compute|]. split; [done|]. by vm_compute. }
  apply (Bios_install_rejects_invalid_device (H := grub)).
  right. right. left. exact Hp.
Defined.

(** C3. With [bInstallMbr], a [boot.img] that is not exactly one sector
    and a [core.img] below one sector or above 512 KiB make the BIOS
    [install_platform] raise before the device is opened for writing:
    the block under [if bInstallMbr:] raises and leaves the world as it
    was, and the whole function, whatever [_isValidDisk] answered, raises
    and leaves the content of every device as it was. *)
Theorem Bios_install_rejects_bad_sizes
    `{GrubEnv} pt info source dev bFloppyOrHdd bAllowFloppy bAddRsCodes w :
  ((∃ b, fs_lookup bootImgFile (fs w) = Some (File b) ∧ bad_boot_img_size b)
   ∨ (∃ c, fs_lookup coreImgFile (fs w) = Some (File c)
           ∧ bad_core_img_size c) →
   ∃ e, Bios_install_mbr dev bFloppyOrHdd bAllowFloppy bAddRsCodes w
        = (Raise e, w))
  ∧ ((∃ b, source_boot_img source pt = Some b ∧ bad_boot_img_size b)
     ∨ (∃ c, fs_lookup coreImgFile (fs w) = Some (File c)
             ∧ bad_core_img_size c) →
     (∀ valid, ∃ e w',
        Bios_install_platform_from valid pt info source dev true
          bFloppyOrHdd bAllowFloppy bAddRsCodes w = (Raise e, w')
        ∧ disks w' = disks w)
     ∧ ∃ e w',
         Bios_install_platform pt info source dev true
           bFloppyOrHdd bAllowFloppy bAddRsCodes w = (Raise e, w')
         ∧ disks w' = disks w).
Proof.
  split.
  - intros [(b & Hb & Hbad)|Hbad]; apply Bios_install_mbr_rejects; [|by right].
    left. intros b' Hb'. by simplify_eq.
  - intros Hbad. split.
    + intros valid. by apply Bios_install_platform_from_bad_sizes.
    + destruct (Bios_install_platform_raises pt info source dev true
                  bFloppyOrHdd bAllowFloppy bAddRsCodes w) as [e ->].
      eauto.
Qed.

Lemma Bios_install_rejects_bad_sizes_witness :
  (∃ c, fs_lookup coreImgFile (fs world_short_core) = Some (File c)
        ∧ bad_core_img_size c)
  ∧ (∃ e, Bios_install_mbr "/dev/sda" false false false world_short_core
          = (Raise e, world_short_core))
  ∧ ∃ e w',
      Bios_install_platform_from true i386_pc bootable tt "/dev/sda" true
        false false false world_short_core = (Raise e, w')
      ∧ disks w' = disks world_short_core.
Proof.
  assert (∃ c, fs_lookup coreImgFile (fs world_short_core) = Some (File c)
               ∧ bad_core_img_size c) as Hc.
  { exists (take 100 core_img). split; [by vm_compute|].
    left. by vm_compute. }
  destruct (Bios_install_rejects_bad_sizes (H := grub) i386_pc bootable tt
              "/dev/sda" false false false world_short_core) as [Hmbr Hall].
  split; [exact Hc|]. split.
  - apply Hmbr. right. exact Hc.
  - apply Hall. right. exact Hc.
Defined.


(** ** Lookup in the platform map *)

(** C4. For a platform with no entry in the platform map,
    [get_platform_install_info] returns, without raising, a fresh record
    whose status is NOT_EXIST. *)
Theorem get_platform_install_info_absent `{GrubEnv} (t : Target) pt :
  _platforms t !! pt = None →
  ∃ info, get_platform_install_info t pt = Ok info
          ∧ status info = Some NOT_EXIST.
Proof.
  intros Habs. unfold get_platform_install_info. rewrite Habs. by eexists.
Qed.

Lemma get_platform_install_info_absent_witness :
  _platforms (mounted_target R) !! x86_64_efi = None
  ∧ ∃ info, get_platform_install_info (mounted_target R) x86_64_efi = Ok info
            ∧ status info = Some NOT_EXIST.
Proof.
  split; [reflexivity|].
  apply (get_platform_install_info_absent (H := grub)). reflexivity.
Defined.

(** ** EFI verification *)

(** C8. When the installed file at [EFI/BOOT] and the platform's core
    image both exist, the EFI verification downgrades the status to EXIST
    as soon as the two contents differ, be it in a single byte, and
    otherwise keeps BOOTABLE and records [removable = True] and
    [nvram = False]. *)
Theorem Efi_check_compares_contents `{GrubEnv} pt info tt n installed core :
  status info = Some BOOTABLE →
  fs_lookup (efiDirLv2 ++ [getStandardEfiFilename pt]) n
    = Some (File installed) →
  fs_lookup ["grub"; value pt; getCoreImgNameAndTarget.1] n
    = Some (File core) →
  (installed ≠ core →
   Efi_check_and_fill_platform_install_info pt info tt n
   = Ok (set_status EXIST info))
  ∧ (∀ i x y, core !! i = Some y → x ≠ y → installed = <[i := x]> core →
     Efi_check_and_fill_platform_install_info pt info tt n
     = Ok (set_status EXIST info))
  ∧ (installed = core →
     ∃ info', Efi_check_and_fill_platform_install_info pt info tt n = Ok info'
              ∧ status info' = Some BOOTABLE
              ∧ removable info' = Some true
              ∧ nvram info' = Some false).
Proof.
  intros Hst Hefi Hcore.
  assert (∀ same, bool_decide (core = installed) = same →
          Efi_check_and_fill_platform_install_info pt info tt n
          = Ok (if same then set_efi_attrs true false info
                else set_status EXIST info)) as Hcheck.
  { intros same Hsame. unfold Efi_check_and_fill_platform_install_info.
    rewrite (bool_decide_eq_true_2 _ Hst). cbn [negb].
    unfold os_path_exists, compare_files. rewrite Hefi, Hcore.
    rewrite bool_decide_eq_true_2 by eauto. cbn [negb andb].
    rewrite Hsame. by destruct same. }
  split; [|split].
  - intros Hne. apply (Hcheck false). by apply bool_decide_eq_false_2.
  - intros i x y Hy Hxy ->. apply (Hcheck false).
    apply bool_decide_eq_false_2. intros Heq.
    apply (f_equal (.!! i)) in Heq.
    rewrite list_lookup_insert_eq in Heq by by eapply lookup_lt_Some.
    congruence.
  - intros ->. eexists. split.
    + apply (Hcheck true). by apply bool_decide_eq_true_2.
    + by rewrite <- Hst.
Qed.

Lemma Efi_check_compares_contents_witness :
  (Efi_check_and_fill_platform_install_info x86_64_efi bootable
     MOUNTED_HDD_DEV (efi_tree (<[2 := x00]> efi_core))
   = Ok (set_status EXIST bootable))
  ∧ ∃ info', Efi_check_and_fill_platform_install_info x86_64_efi bootable
               MOUNTED_HDD_DEV (efi_tree efi_core) = Ok info'
             ∧ status info' = Some BOOTABLE
             ∧ removable info' = Some true
             ∧ nvram info' = Some false.
Proof.
  split.
  - refine (proj1 (proj2 (Efi_check_compares_contents (H := grub)
             x86_64_efi bootable MOUNTED_HDD_DEV
             (efi_tree (<[2 := x00]> efi_core)) (<[2 := x00]> efi_core)
             efi_core _ _ _)) 2 x00 x90 _ _ _);
      first [ reflexivity | discriminate ].
  - refine (proj2 (proj2 (Efi_check_compares_contents (H := grub)
             x86_64_efi bootable MOUNTED_HDD_DEV (efi_tree efi_core)
             efi_core efi_core _ _ _)) _);
      reflexivity.
Defined.

(** ** Module-list derivation *)

Lemma on_fs_image_calls `{GrubEnv} {A} (m : M node A) w :
  image_calls (on_fs m w).2 = image_calls w ∧ disks (on_fs m w).2 = disks w.
Proof. unfold on_fs. by destruct (m (fs w)). Qed.

(** C6. Whenever [_Common.install_platform] gets as far as the image
    maker, the module list it passes is the disk modules of the platform,
    then the filesystem module, then [search_fs_uuid]; the disk modules are
    [biosdisk] alone for the BIOS platform, and [pata, ahci, ohci, uhci,
    ehci, ubms] in this order for a platform with native disk access. An
    installation that completes has called the image maker. *)
Theorem module_list_derivation `{GrubEnv} p pt source w r w' :
  Common_install_platform p pt source w = (r, w') →
  (is_Ok r → image_calls w' ≠ image_calls w)
  ∧ (image_calls w' = image_calls w
     ∨ ∃ c bootDir mnt fsName,
         image_calls w' = image_calls w ++ [c]
         ∧ mk_platform c = pt
         ∧ _bootDir p = Some bootDir
         ∧ probeMnt bootDir = Ok mnt
         ∧ getGrubFsName (mnt_fs mnt) = Ok fsName
         ∧ mk_moduleList c = disk_modules pt ++ [fsName; "search_fs_uuid"]
         ∧ last (mk_moduleList c) = Some "search_fs_uuid"
         ∧ (pt = I386_PC →
            mk_moduleList c = ["biosdisk"; fsName; "search_fs_uuid"])
         ∧ (disk_module pt = Some native →
            mk_moduleList c = ["pata"; "ahci"; "ohci"; "uhci"; "ehci"; "ubms";
                               fsName; "search_fs_uuid"])).
Proof.
  unfold Common_install_platform, bind at 1 2, lift.
  destruct (_bootDir p) as [bootDir|]; [|intros [= <- <-]; by auto].
  destruct (probeMnt bootDir) as [mnt|] eqn:Hmnt; [|intros [= <- <-]; by auto].
  destruct (fs_uuid mnt) as [uuid|]; [|intros [= <- <-]; by auto].
  case_match; [intros [= <- <-]; by auto|].
  unfold bind at 1, lift.
  destruct (getGrubFsName (mnt_fs mnt)) as [fsName|] eqn:Hfs;
    [|intros [= <- <-]; by auto].
  unfold bind at 1.
  pose proof (on_fs_image_calls (copyPlatformFiles pt source grubDir) w) as Hcp.
  destruct (on_fs (copyPlatformFiles pt source grubDir) w) as [[[]|e] w1];
    cbn [snd] in Hcp; [|intros [= <- <-]; by destruct Hcp; auto].
  unfold bind at 1.
  match goal with |- context [on_fs (write_file ?f ?c) w1] =>
    pose proof (on_fs_image_calls (write_file f c) w1) as Hwr;
    destruct (on_fs (write_file f c) w1) as [[[]|e] w2]
  end; cbn [snd] in Hwr;
    [|intros [= <- <-]; destruct Hcp, Hwr; split; [done|left; congruence]].
  destruct getCoreImgNameAndTarget as [coreName mkimageTarget].
  unfold bind, log_image_call.
  match goal with |- context [on_fs ?m ?w3] =>
    pose proof (on_fs_image_calls m w3) as Hmk;
    destruct (on_fs m w3) as [r3 w4]
  end. cbn [snd image_calls] in Hmk.
  intros Hres.
  assert (image_calls w' = image_calls w ++
            [Build_MkImageCall pt (grubDir ++ [value pt; "load.cfg"])
               mkimageTarget
               ((disk_modules pt ++ [fsName]) ++ ["search_fs_uuid"])
               (grubDir ++ [value pt; coreName])]) as Hcalls.
  { destruct Hcp as [Hcp _], Hwr as [Hwr _], Hmk as [Hmk _].
    destruct r3 as [[]|]; injection Hres as <- <-; congruence. }
  split.
  - intros _. rewrite Hcalls. intros Heq.
    apply (f_equal length) in Heq. rewrite length_app in Heq. simpl in Heq.
    lia.
  - right. eexists _, bootDir, mnt, fsName.
    split; [exact Hcalls|]. cbn [mk_platform mk_moduleList].
    rewrite <- (assoc_L app). cbn [app].
    repeat split; try done.
    + rewrite (assoc_L app _ [fsName] ["search_fs_uuid"]). by rewrite last_snoc.
    + intros ->. unfold disk_modules, disk_module. by rewrite decide_True.
    + intros Hn. unfold disk_modules. by rewrite Hn.
Qed.

Lemma module_list_derivation_witness :
  ∃ r w' c,
    Common_install_platform (mounted_target W) i386_multiboot tt world_empty
    = (r, w')
    ∧ is_Ok r
    ∧ image_calls w' = image_calls world_empty ++ [c]
    ∧ mk_moduleList c = ["pata"; "ahci"; "ohci"; "uhci"; "ehci"; "ubms";
                         "fat"; "search_fs_uuid"].
Proof.
  destruct (Common_install_platform (mounted_target W) i386_multiboot tt
              world_empty) as [r w'] eqn:Hrun.
  exists r, w'.
  assert (is_Ok r) as Hok.
  { apply (f_equal fst) in Hrun. vm_compute in Hrun. by subst r. }
  destruct (module_list_derivation (H := grub) _ _ _ _ _ _ Hrun)
    as [Hcalled [Hnone|(c & bootDir & mnt & fsName & Hcalls & _ & Hb & Hm
                        & Hf & _ & _ & _ & Hnative)]].
  { destruct (Hcalled Hok Hnone). }
  exists c. split; [done|]. split; [done|]. split; [done|].
  injection Hb as <-. injection Hm as <-. injection Hf as <-.
  apply Hnative. reflexivity.
Defined.

(** ** Operations on the target *)

Lemma in_world_inv `{GrubEnv} {A} (m : M World A) s r s' :
  in_world m s = (r, s') →
  target s' = target s ∧ completed s' = completed s
  ∧ m (world s) = (r, world s').
Proof.
  unfold in_world. destruct (m (world s)) as [r0 w0]. by intros [= <- <-].
Qed.

(** Take a method of [Target] apart, branch by branch; what the helpers
    did to the world is kept as equations. *)
Ltac run_target :=
  unfold bind, self, assert_, lift, attr, ret, raise, update_platforms,
    log_event, in_fs;
  intros; repeat (case_match; simplify_eq);
  repeat match goal with
         | Hw : in_world _ _ = _ |- _ =>
             apply in_world_inv in Hw as (? & ? & ?)
         end.

Section TargetOps.

Context `{GrubEnv}.

(** [install_platform] either completes, and then has put the new record
    under its key, or raises, and then has left the map alone. *)
Lemma Target_install_platform_spec pt source kwargs s r s' :
  Target_install_platform pt source kwargs s = (r, s') →
  (r = Ok tt
   ∧ (∃ info, _platforms (target s') = <[pt := info]> (_platforms (target s)))
   ∧ completed s' = completed s ++ [Installed pt])
  ∨ (is_Raise r ∧ target s' = target s ∧ completed s' = completed s).
Proof.
  unfold Target_install_platform. run_target;
    first [ by right; simpl; eauto using eq_trans
          | left; simpl; split; [done|];
            split; [eexists; f_equal; congruence|f_equal; congruence] ].
Qed.

(** [remove_platform] either completes, and then has deleted the key, or
    raises, and then has left the map alone. *)
Lemma Target_remove_platform_spec pt s r s' :
  Target_remove_platform pt s = (r, s') →
  (r = Ok tt
   ∧ _platforms (target s') = delete pt (_platforms (target s))
   ∧ completed s' = completed s ++ [Removed pt])
  ∨ (is_Raise r ∧ target s' = target s ∧ completed s' = completed s).
Proof.
  unfold Target_remove_platform, Bios_remove_platform. run_target;
    first [ by right; simpl; eauto using eq_trans
          | left; simpl; split; [done|]; split; [|f_equal; congruence] ].
  all: match goal with
       | Hd : bool_decide (_ ∈ dom (_platforms (target ?s1))) = _
         |- _ = delete _ (_platforms (target ?s0)) =>
           let Heq := fresh in
           assert (target s1 = target s0) as Heq by congruence;
           rewrite Heq in *; clear Heq
       end.
  all: try done.
  all: symmetry; apply delete_id, not_elem_of_dom.
  all: by eapply bool_decide_eq_false_1.
Qed.

(** The operations that are not an installation or a removal of a platform
    leave the target object and the history as they are. *)
Lemma other_ops_frame op s :
  match op with
  | OpInstallPlatform _ _ _ | OpRemovePlatform _ | OpRemoveAll => True
  | _ => target (run_op op s).2 = target s
         ∧ completed (run_op op s).2 = completed s
  end.
Proof.
  destruct op; [done|done| | | | |done| |]; simpl;
    [ unfold Target_install_data | unfold Target_remove_data
    | unfold Target_touch_env_file, get | unfold Target_remove_env_file
    | unfold Target_check | unfold Target_check_with_source ];
    match goal with |- context [?m s] =>
      destruct (m s) as [r s'] eqn:Hrun; revert Hrun end;
    run_target; simpl; split; congruence.
Qed.

(** A BIOS installation on a mounted device raises. *)
Lemma Target_install_platform_bios_raises source kwargs s :
  _targetType (target s) = MOUNTED_HDD_DEV →
  is_Raise (Target_install_platform I386_PC source kwargs s).1.
Proof.
  intros Htype.
  destruct (Target_install_platform I386_PC source kwargs s) as [r s'] eqn:Hrun.
  revert Hrun. unfold Target_install_platform.
  run_target; simpl; try done; try congruence.
  all: match goal with Hb : Bios_install_platform ?a ?b ?c ?d ?e ?f ?g ?h ?w = _ |- _ =>
    destruct (Bios_install_platform_raises a b c d e f g h w) as [e' He'];
    congruence
  end.
Qed.

End TargetOps.

(** C10. On a mounted-device target open for writing, [install_platform]
    for the BIOS platform raises whenever [rs_codes=False] is not passed,
    and leaves the platform map as it was: [rs_codes] then defaults to
    [True], and the BIOS installer, whatever its other arguments and
    whatever [_isValidDisk] answered, fails an assertion before it touches
    anything. *)
Theorem default_bios_install_raises `{GrubEnv} source kwargs s :
  _targetType (target s) = MOUNTED_HDD_DEV →
  _mode (target s) ∈ [RW; W] →
  kw_rs_codes kwargs ≠ Some false →
  (∃ e s', Target_install_platform I386_PC source kwargs s = (Raise e, s')
           ∧ target s' = target s ∧ completed s' = completed s)
  ∧ default true (kw_rs_codes kwargs) = true
  ∧ ∀ valid pt info dev bInstallMbr bFloppyOrHdd bAllowFloppy w,
      Bios_install_platform_from valid pt info source dev bInstallMbr
        bFloppyOrHdd bAllowFloppy (default true (kw_rs_codes kwargs)) w
      = (Raise AssertionError, w).
Proof.
  intros Htype _ Hrs.
  assert (default true (kw_rs_codes kwargs) = true) as Hdef.
  { by destruct (kw_rs_codes kwargs) as [[]|]. }
  split; [|split; [done|]].
  - pose proof (Target_install_platform_bios_raises source kwargs s Htype)
      as Hraise.
    destruct (Target_install_platform I386_PC source kwargs s)
      as [r s'] eqn:Hrun.
    destruct (Target_install_platform_spec _ _ _ _ _ _ Hrun)
      as [(-> & _)|(_ & Ht & Hc)]; [done|].
    destruct r as [|e]; [done|]. by exists e, s'.
  - intros. rewrite Hdef. apply Bios_install_platform_from_rs_codes.
Qed.

Lemma default_bios_install_raises_witness :
  ∃ e s',
    Target_install_platform i386_pc tt
      {| kw_allow_floppy := None; kw_rs_codes := None |}
      (new_session (mounted_target W) world_unpatched) = (Raise e, s')
    ∧ target s' = mounted_target W ∧ completed s' = [].
Proof.
  apply (default_bios_install_raises (H := grub) tt
           {| kw_allow_floppy := None; kw_rs_codes := None |}
           (new_session (mounted_target W) world_unpatched));
    [reflexivity | repeat constructor | done].
Defined.

(** ** Removal of a platform that is not there *)

Lemma force_rm_absent p n : fs_lookup p n = None → force_rm p n = (Ok tt, n).
Proof.
  intros Hp. unfold force_rm, bind, get, os_path_isfile, os_path_isdir.
  by rewrite Hp.
Qed.

Lemma rmdir_if_empty_nonempty p n m :
  fs_lookup p n = Some (Dir m) → m ≠ ∅ → rmdir_if_empty p n = (Ok tt, n).
Proof.
  intros Hp Hm. unfold rmdir_if_empty, bind, get, lift, os_listdir.
  rewrite Hp. case_decide as Hlen; [|done].
  rewrite length_fmap in Hlen. apply nil_length_inv in Hlen.
  by apply map_to_list_empty_iff in Hlen.
Qed.

Lemma rmdir_if_empty_missing p n :
  fs_lookup p n = None → rmdir_if_empty p n = (Raise FileNotFoundError, n).
Proof.
  intros Hp. unfold rmdir_if_empty, bind, get, lift, os_listdir.
  by rewrite Hp.
Qed.

Lemma fs_lookup_parent_nonempty x y n c :
  fs_lookup [x; y] n = Some c →
  ∃ m, fs_lookup [x] n = Some (Dir m) ∧ m ≠ ∅.
Proof.
  simpl. destruct n as [|root]; [done|].
  destruct (root !! x) as [[|m]|]; [done| |done].
  destruct (m !! y) eqn:Hy; [|done]. intros _. exists m. split; [done|].
  intros ->. by rewrite lookup_empty in Hy.
Qed.

Section Removal.

Context `{GrubEnv}.

Lemma Efi_remove_platform_noop pt n m :
  fs_lookup (efiDirLv2 ++ [getStandardEfiFilename pt]) n = None →
  fs_lookup efiDirLv2 n = Some (Dir m) → m ≠ ∅ →
  Efi_remove_platform pt n = (Ok tt, n).
Proof.
  intros Hfile Hlv2 Hm. unfold Efi_remove_platform, bind.
  rewrite (force_rm_absent _ _ Hfile).
  rewrite (rmdir_if_empty_nonempty _ _ _ Hlv2 Hm).
  destruct (fs_lookup_parent_nonempty _ _ _ _ Hlv2) as (m' & Hefi & Hm').
  by rewrite (rmdir_if_empty_nonempty efiDir _ _ Hefi Hm').
Qed.

Lemma in_fs_noop {A} (m : M node A) s a :
  m (fs (world s)) = (Ok a, fs (world s)) → in_fs m s = (Ok a, s).
Proof.
  destruct s as [t [n d ic] c]. unfold in_fs, in_world, on_fs. simpl.
  by intros ->.
Qed.

(** The end of [remove_platform], for a key that is not in the map. *)
Lemma remove_platform_tail pt s :
  _platforms (target s) !! pt = None →
  ∃ s', bind (update_platforms (fun m =>
                if bool_decide (pt ∈ dom m) then delete pt m else m))
             (fun _ => log_event (Removed pt)) s = (Ok tt, s')
        ∧ target s' = target s ∧ world s' = world s.
Proof.
  intros Habs. unfold bind, update_platforms, log_event. eexists.
  split; [done|]. simpl. split; [|done].
  rewrite bool_decide_eq_false_2 by by apply not_elem_of_dom.
  by destruct (target s).
Qed.

Lemma Target_remove_platform_absent pt s :
  _mode (target s) ∈ [RW; W] →
  initialised (target s) →
  _platforms (target s) !! pt = None →
  no_artifacts pt (fs (world s)) →
  (_targetType (target s) = ISO_DIR
   ∨ _targetType (target s) = MOUNTED_HDD_DEV ∧ pt = I386_PC
   ∨ _targetType (target s) = MOUNTED_HDD_DEV ∧ pt ≠ I386_PC
     ∧ isPlatformEfi pt = true
     ∧ ∃ m, fs_lookup efiDirLv2 (fs (world s)) = Some (Dir m) ∧ m ≠ ∅) →
  ∃ s', Target_remove_platform pt s = (Ok tt, s')
        ∧ target s' = target s ∧ world s' = world s.
Proof.
  intros Hmode Hinit Habs [Hgrub Hefi] Hcase.
  destruct (remove_platform_tail pt s Habs) as (s' & Htail & Ht & Hw).
  exists s'. split; [|done].
  pose proof (in_fs_noop (Common_remove_platform pt) s tt
                (force_rm_absent _ _ Hgrub)) as Hcommon.
  unfold Target_remove_platform, bind at 1, self.
  unfold bind at 1. rewrite (bool_decide_eq_true_2 _ Hmode).
  cbn [assert_ ret]. unfold bind at 1.
  unfold initialised in Hinit.
  destruct Hcase as [Htype|[[Htype ->]|(Htype & Hne & Hisefi & m & Hlv2 & Hm)]];
    rewrite Htype in *.
  - by rewrite Hcommon.
  - rewrite decide_True by done. destruct Hinit as [_ [dev Hdev]].
    rewrite Hdev. unfold bind at 1 2. cbn [attr ret].
    unfold Bios_remove_platform, in_world at 1, ret.
    destruct s as [t w c]. cbn [world target completed] in *.
    by rewrite Hcommon.
  - rewrite decide_False by done. rewrite Hisefi. unfold bind at 1 2.
    rewrite (in_fs_noop (Efi_remove_platform pt) s tt
               (Efi_remove_platform_noop _ _ _ Hefi Hlv2 Hm)).
    by rewrite Hcommon.
Qed.

Lemma Target_remove_platform_unsupported pt s :
  _mode (target s) ∈ [RW; W] →
  _targetType (target s) = MOUNTED_HDD_DEV →
  pt ≠ I386_PC → isPlatformEfi pt = false →
  Target_remove_platform pt s = (Raise AssertionError, s).
Proof.
  intros Hmode Htype Hne Hefi.
  unfold Target_remove_platform, bind, self.
  rewrite (bool_decide_eq_true_2 _ Hmode), Htype. cbn [assert_ ret].
  rewrite decide_False by done. by rewrite Hefi.
Qed.

End Removal.

(** C5, as stated, fails: on a mounted-device target open for writing,
    with an empty map and an empty boot directory, [remove_platform] of the
    multiboot platform, which is neither the BIOS platform nor an EFI
    one, does not complete: it raises an assertion error. *)
Lemma remove_absent_platform_unsupported_raises :
  let s := new_session (mounted_target W) world_empty in
  _mode (target s) ∈ [RW; W]
  ∧ _platforms (target s) !! i386_multiboot = None
  ∧ no_artifacts i386_multiboot (fs (world s))
  ∧ Target_remove_platform i386_multiboot s = (Raise AssertionError, s)
  ∧ ¬ is_Ok (Target_remove_platform i386_multiboot s).1.
Proof.
  intros s.
  assert (_mode (target s) ∈ [RW; W]) as Hmode by repeat constructor.
  assert (Target_remove_platform i386_multiboot s = (Raise AssertionError, s))
    as Hrun.
  { apply (Target_remove_platform_unsupported (H := grub));
      [exact Hmode | reflexivity | discriminate | reflexivity]. }
  split; [exact Hmode|]. split; [reflexivity|].
  split; [split; vm_compute; reflexivity|]. split; [exact Hrun|].
  rewrite Hrun. exact (fun x => x).
Qed.

(** On the same target, [remove_platform] of an EFI platform fails in
    [rmdir_if_empty], which lists a directory that is not there. *)
Lemma remove_absent_efi_platform_raises :
  (Target_remove_platform x86_64_efi
     (new_session (mounted_target W) world_empty)).1
  = Raise FileNotFoundError.
Proof. vm_compute. reflexivity. Qed.

(** C5, amended. For a target open for writing and a platform with no
    entry in the map and nothing on disk, [remove_platform] completes and
    leaves the map and the world as they are on a staging-directory target,
    on a mounted-device target for the BIOS platform, and on a
    mounted-device target for an EFI platform when [EFI/BOOT] is a directory
    with entries; for a platform that is neither the BIOS platform nor an
    EFI one, on a mounted-device target, it raises an assertion error and
    changes nothing. *)
Theorem remove_absent_platform `{GrubEnv} pt s :
  _mode (target s) ∈ [RW; W] →
  initialised (target s) →
  _platforms (target s) !! pt = None →
  no_artifacts pt (fs (world s)) →
  ((_targetType (target s) = ISO_DIR
    ∨ _targetType (target s) = MOUNTED_HDD_DEV ∧ pt = I386_PC
    ∨ _targetType (target s) = MOUNTED_HDD_DEV ∧ pt ≠ I386_PC
      ∧ isPlatformEfi pt = true
      ∧ ∃ m, fs_lookup efiDirLv2 (fs (world s)) = Some (Dir m) ∧ m ≠ ∅) →
   ∃ s', Target_remove_platform pt s = (Ok tt, s')
         ∧ target s' = target s ∧ world s' = world s)
  ∧ (_targetType (target s) = MOUNTED_HDD_DEV →
     pt ≠ I386_PC → isPlatformEfi pt = false →
     Target_remove_platform pt s = (Raise AssertionError, s)).
Proof.
  intros Hmode Hinit Habs Hno. split.
  - by apply Target_remove_platform_absent.
  - by apply Target_remove_platform_unsupported.
Qed.

Lemma remove_absent_platform_witness :
  let s := new_session (iso_target W) world_empty in
  ∃ s', Target_remove_platform x86_64_efi s = (Ok tt, s')
        ∧ target s' = target s ∧ world s' = world s.
Proof.
  intros s.
  apply (remove_absent_platform (H := grub) x86_64_efi s).
  - repeat constructor.
  - split; [eexists|]; reflexivity.
  - reflexivity.
  - split; vm_compute; reflexivity.
  - left. reflexivity.
Defined.

(** ** The keys of the platform map *)

Section PlatformMap.

Context `{GrubEnv}.

Implicit Types (m : gmap PlatformType PlatformInstallInfo) (pt : PlatformType).

Lemma init_platforms_entry_dom fn m pt :
  pt ∈ dom (init_platforms_entry fn m) ↔ pt ∈ dom m ∨ fn = value pt.
Proof.
  unfold init_platforms_entry.
  assert (∀ l m, pt ∈ dom (foldl (fun acc q =>
                     if decide (fn = value q)
                     then <[q := set_status BOOTABLE PlatformInstallInfo_new]> acc
                     else acc) m l)
                 ↔ pt ∈ dom m ∨ (pt ∈ l ∧ fn = value pt)) as Hfold.
  { induction l as [|q l IH]; intros m0; simpl.
    - set_solver.
    - rewrite IH. case_decide as Hq.
      + rewrite dom_insert. set_solver.
      + set_solver. }
  rewrite Hfold. pose proof (elem_of_enum pt). tauto.
Qed.

Lemma init_platforms_dom (l : list string) m pt :
  pt ∈ dom (foldl (fun acc fn => init_platforms_entry fn acc) m l)
  ↔ pt ∈ dom m ∨ value pt ∈ l.
Proof.
  revert m. induction l as [|fn l IH]; intros m; simpl.
  - set_solver.
  - rewrite IH, init_platforms_entry_dom. set_solver.
Qed.

Lemma elem_of_listing (entries : gmap string node) (x : string) :
  x ∈ (map_to_list entries).*1 ↔ is_Some (entries !! x).
Proof.
  rewrite list_elem_of_fmap. split.
  - intros ([k v] & -> & Hkv). apply elem_of_map_to_list in Hkv. by eexists.
  - intros [v Hv]. exists (x, v). split; [done|].
    by apply elem_of_map_to_list.
Qed.

(** [_Common.init_platforms] on an empty map: the keys are the platforms
    whose name is an entry of [<boot>/grub]. *)
Lemma Common_init_platforms_dom n m pt :
  Common_init_platforms n ∅ = Ok m →
  pt ∈ dom m ↔ ∃ entries, fs_lookup grubDir n = Some (Dir entries)
                          ∧ is_Some (entries !! value pt).
Proof.
  unfold Common_init_platforms, os_path_isdir, os_listdir.
  destruct (fs_lookup grubDir n) as [[c|entries]|] eqn:Hg.
  - intros [= <-]. rewrite dom_empty. split; [set_solver|].
    by intros (? & ? & _).
  - intros [= <-]. rewrite init_platforms_dom, dom_empty, elem_of_listing.
    split.
    + intros [?|?]; [set_solver|]. by exists entries.
    + intros (? & [= <-] & ?). by right.
  - intros [= <-]. rewrite dom_empty. split; [set_solver|].
    by intros (? & ? & _).
Qed.

(** The verification pass of [__init__] changes records, not keys. *)
Lemma Target_init_check_dom fuel tt dev w items m m' :
  Target_init_check fuel tt dev w items m = Some (Ok m') →
  (∀ k v, (k, v) ∈ items → k ∈ dom m) →
  dom m' = dom m.
Proof.
  revert m. induction items as [|[k v] items IH]; intros m; simpl.
  - by intros [= <-].
  - intros Hrun Hin.
    match type of Hrun with
    | match ?c with _ => _ end = _ => destruct c as [[v'|e]|]; [|done..]
    end.
    apply IH in Hrun.
    + rewrite Hrun, dom_insert_L.
      assert (k ∈ dom m) by (eapply Hin; left). set_solver.
    + intros k' v0 Hk'. rewrite dom_insert_L.
      assert (k' ∈ dom m) by (eapply Hin; by right). set_solver.
Qed.

Lemma Target_init_keys fuel tt mode kwargs w t pt :
  Target_init fuel tt mode kwargs w = Some (Ok t) →
  pt ∈ platforms t ↔ found_by_scan mode (fs w) pt.
Proof.
  unfold Target_init, found_by_scan, platforms.
  destruct (Target_init_attrs tt mode kwargs) as [t0|e] eqn:Hattrs; [|done].
  assert (_platforms t0 = ∅) as Hempty.
  { revert Hattrs. unfold Target_init_attrs.
    repeat case_match; intros; by simplify_eq. }
  case_bool_decide as Hmode.
  - destruct tt; [|done|];
      (rewrite Hempty;
       destruct (Common_init_platforms (fs w) ∅) as [m|] eqn:Hscan; [|done];
       match goal with
       | |- match ?c with _ => _ end = _ → _ =>
           destruct c as [[m'|]|] eqn:Hcheck; [|done..]
       end;
       intros [= <-]; simpl;
       apply Target_init_check_dom in Hcheck;
       [|by intros k v ?%elem_of_map_to_list%elem_of_dom_2];
       rewrite Hcheck, (Common_init_platforms_dom _ _ pt Hscan); tauto).
  - intros [= <-]. rewrite Hempty, dom_empty. set_solver.
Qed.

Lemma Target_init_initialised fuel tt mode kwargs w t :
  Target_init fuel tt mode kwargs w = Some (Ok t) → initialised t.
Proof.
  unfold Target_init.
  destruct (Target_init_attrs tt mode kwargs) as [t0|e] eqn:Hattrs; [|done].
  assert (initialised t0) as Hinit.
  { revert Hattrs. unfold Target_init_attrs, initialised.
    repeat case_match; intros; simplify_eq; simpl; eauto. }
  intros Hrun.
  assert (t = t0 ∨ ∃ m, t = set_platforms m t0) as [->|[m ->]];
    [|done|done].
  revert Hrun. repeat case_match; intros; simplify_eq; eauto.
Qed.

End PlatformMap.

Section KeysInvariant.

Context `{GrubEnv}.
Variable found : PlatformType → Prop.

Lemma last_change_snoc pt es e :
  last_change pt (es ++ [e])
  = if decide (concerns pt e) then Some e else last_change pt es.
Proof.
  unfold last_change. rewrite filter_app, filter_cons, filter_nil.
  case_decide.
  - by rewrite last_snoc.
  - by rewrite app_nil_r.
Qed.

Lemma keys_inv_installed s s' pt0 info :
  keys_inv found s →
  _platforms (target s') = <[pt0 := info]> (_platforms (target s)) →
  completed s' = completed s ++ [Installed pt0] →
  keys_inv found s'.
Proof.
  intros Hinv Hp Hc pt. unfold platforms. specialize (Hinv pt).
  unfold platforms in Hinv.
  rewrite Hp, Hc, last_change_snoc, dom_insert, elem_of_union,
    elem_of_singleton.
  case_decide as Hpt; simpl in Hpt.
  - subst. naive_solver.
  - rewrite Hinv. naive_solver.
Qed.

Lemma keys_inv_removed s s' pt0 :
  keys_inv found s →
  _platforms (target s') = delete pt0 (_platforms (target s)) →
  completed s' = completed s ++ [Removed pt0] →
  keys_inv found s'.
Proof.
  intros Hinv Hp Hc pt. unfold platforms. specialize (Hinv pt).
  unfold platforms in Hinv.
  rewrite Hp, Hc, last_change_snoc, dom_delete, elem_of_difference,
    elem_of_singleton.
  case_decide as Hpt; simpl in Hpt.
  - subst. naive_solver.
  - rewrite Hinv. naive_solver.
Qed.

Lemma keys_inv_frame s s' :
  keys_inv found s → target s' = target s → completed s' = completed s →
  keys_inv found s'.
Proof. intros Hinv Ht Hc pt. rewrite Ht, Hc. apply Hinv. Qed.

Lemma Target_install_platform_inv pt source kwargs s :
  keys_inv found s →
  keys_inv found (Target_install_platform pt source kwargs s).2.
Proof.
  intros Hinv.
  destruct (Target_install_platform pt source kwargs s) as [r s'] eqn:Hrun.
  apply Target_install_platform_spec in Hrun
    as [(_ & [info Hp] & Hc)|(_ & Ht & Hc)]; simpl.
  - by eapply keys_inv_installed.
  - by eapply keys_inv_frame.
Qed.

Lemma Target_remove_platform_inv pt s :
  keys_inv found s → keys_inv found (Target_remove_platform pt s).2.
Proof.
  intros Hinv.
  destruct (Target_remove_platform pt s) as [r s'] eqn:Hrun.
  apply Target_remove_platform_spec in Hrun
    as [(_ & Hp & Hc)|(_ & Ht & Hc)]; simpl.
  - by eapply keys_inv_removed.
  - by eapply keys_inv_frame.
Qed.

Lemma for_each_remove_platform_inv l s :
  keys_inv found s →
  keys_inv found (for_each l Target_remove_platform s).2.
Proof.
  revert s. induction l as [|pt l IH]; intros s Hinv; [done|].
  simpl. unfold bind.
  pose proof (Target_remove_platform_inv pt s Hinv) as Hstep.
  destruct (Target_remove_platform pt s) as [[[]|e] s1]; simpl in *.
  - by apply IH.
  - done.
Qed.

Lemma Target_remove_all_inv s :
  keys_inv found s → keys_inv found (Target_remove_all s).2.
Proof.
  intros Hinv. unfold Target_remove_all, bind at 1 2, self, assert_.
  case_bool_decide; cbn [ret raise]; [|done].
  unfold bind at 1.
  pose proof (for_each_remove_platform_inv
                (map_to_list (_platforms (target s))).*1 s Hinv) as Hloop.
  destruct (for_each _ Target_remove_platform s) as [[[]|e] s1];
    cbn [snd] in *; [|done].
  destruct (bind (in_fs Efi_remove_remaining_crufts)
                 (fun _ => in_fs Common_remove_remaining_crufts) s1)
    as [r s2] eqn:Hrest.
  revert Hrest. run_target; simpl;
    (eapply keys_inv_frame; [exact Hloop|congruence..]).
Qed.

Lemma run_op_inv op s : keys_inv found s → keys_inv found (run_op op s).2.
Proof.
  intros Hinv. pose proof (other_ops_frame op s) as Hframe.
  destruct op;
    [ by apply Target_install_platform_inv
    | by apply Target_remove_platform_inv
    | | | |
    | by apply Target_remove_all_inv
    | | ];
    destruct Hframe as [Ht Hc]; by eapply keys_inv_frame.
Qed.

Lemma run_ops_inv ops s : keys_inv found s → keys_inv found (run_ops ops s).
Proof.
  revert s. induction ops as [|op ops IH]; intros s Hinv; [done|].
  simpl. apply IH. by apply run_op_inv.
Qed.

End KeysInvariant.

(** C9, as stated, fails: a staging directory in which the scan finds
    [grub/x86_64-efi] gives a target with that key; after
    [remove_platform] of it the key is gone, though the directory was found
    by the scan. *)
Lemma platform_map_key_gone_after_remove :
  let w := world_staged in
  let t := set_platforms {[ x86_64_efi := set_status EXIST bootable ]}
             (iso_target RW) in
  let s := run_ops [OpRemovePlatform x86_64_efi] (new_session t w) in
  Target_init 1 ISO_DIR RW iso_kwargs w = Some (Ok t)
  ∧ found_by_scan RW (fs w) x86_64_efi
  ∧ _platforms (target s) !! x86_64_efi = None
  ∧ ¬ (x86_64_efi ∈ platforms (target s)
       ↔ found_by_scan RW (fs w) x86_64_efi
         ∨ Installed x86_64_efi ∈ completed s).
Proof.
  intros w t s.
  assert (found_by_scan RW (fs w) x86_64_efi) as Hfound.
  { split; [repeat constructor|].
    exists {[ "x86_64-efi" := Dir ∅ ]}.
    split; [|exists (Dir ∅)]; vm_compute; reflexivity. }
  assert (_platforms (target s) !! x86_64_efi = None) as Hgone
    by (vm_compute; reflexivity).
  split; [reflexivity|]. split; [exact Hfound|].
  split; [exact Hgone|].
  intros [_ Hiff]. apply not_elem_of_dom in Hgone. apply Hgone, Hiff.
  by left.
Qed.

(** C9, amended. After [__init__], the keys of the platform map are the
    platforms whose name the scan found as an entry of the directory
    [<boot>/grub] (none in write mode, where there is no scan). After any sequence of
    operations, a platform has an entry exactly when the last
    [install_platform] or [remove_platform] of it that ran to completion was
    an installation, or none has run to completion and the scan had found
    its directory. A completed installation or removal is what the history
    records, and nothing else. *)
Theorem platform_map_keys `{GrubEnv} fuel tt mode kwargs w t ops pt :
  Target_init fuel tt mode kwargs w = Some (Ok t) →
  (pt ∈ platforms t ↔ found_by_scan mode (fs w) pt)
  ∧ (let s := run_ops ops (new_session t w) in
     pt ∈ platforms (target s)
     ↔ last_change pt (completed s) = Some (Installed pt)
       ∨ (last_change pt (completed s) = None
          ∧ found_by_scan mode (fs w) pt))
  ∧ (∀ s q source kw,
       let '(r, s') := Target_install_platform q source kw s in
       completed s' = completed s ++ match r with
                                     | Ok _ => [Installed q]
                                     | Raise _ => []
                                     end)
  ∧ (∀ s q,
       let '(r, s') := Target_remove_platform q s in
       completed s' = completed s ++ match r with
                                     | Ok _ => [Removed q]
                                     | Raise _ => []
                                     end).
Proof.
  intros Hinit. split; [by eapply Target_init_keys|]. split; [|split].
  - apply (run_ops_inv (found_by_scan mode (fs w))).
    intros q. simpl. unfold last_change. simpl.
    rewrite (Target_init_keys _ _ _ _ _ _ q Hinit). naive_solver.
  - intros s q source kw.
    destruct (Target_install_platform q source kw s) as [r s'] eqn:Hrun.
    apply Target_install_platform_spec in Hrun
      as [(-> & _ & ->)|(Hr & _ & ->)]; [done|].
    destruct r; [done|]. by rewrite app_nil_r.
  - intros s q.
    destruct (Target_remove_platform q s) as [r s'] eqn:Hrun.
    apply Target_remove_platform_spec in Hrun
      as [(-> & _ & ->)|(Hr & _ & ->)]; [done|].
    destruct r; [done|]. by rewrite app_nil_r.
Qed.

Lemma platform_map_keys_witness :
  let w := world_staged in
  let t := set_platforms {[ x86_64_efi := set_status EXIST bootable ]}
             (iso_target RW) in
  let s := run_ops [OpRemovePlatform x86_64_efi; OpCheck false]
             (new_session t w) in
  Target_init 1 ISO_DIR RW iso_kwargs w = Some (Ok t)
  ∧ (x86_64_efi ∈ platforms t ↔ found_by_scan RW (fs w) x86_64_efi)
  ∧ (x86_64_efi ∈ platforms (target s)
     ↔ last_change x86_64_efi (completed s) = Some (Installed x86_64_efi)
       ∨ (last_change x86_64_efi (completed s) = None
          ∧ found_by_scan RW (fs w) x86_64_efi)).
Proof.
  intros w t s.
  assert (Target_init 1 ISO_DIR RW iso_kwargs w = Some (Ok t)) as Hinit
    by reflexivity.
  split; [exact Hinit|].
  destruct (platform_map_keys (H := grub) 1 ISO_DIR RW iso_kwargs w t
              [OpRemovePlatform (H := grub) x86_64_efi; OpCheck false]
              x86_64_efi Hinit)
    as (Hscan & Hkeys & _).
  split; [exact Hscan|exact Hkeys].
Defined.

(** * More about the code *)

(** ** The directory tree, continued *)

Lemma fs_lookup_snoc p x n m :
  fs_lookup p n = Some (Dir m) → fs_lookup (p ++ [x]) n = m !! x.
Proof.
  revert n. induction p as [|z p IH]; intros n.
  - simpl. intros [= ->]. by destruct (m !! x).
  - simpl. destruct n as [|m0]; [done|].
    destruct (m0 !! z) as [c|]; [|done]. apply IH.
Qed.

(** Storing at [p/x], where [p] is a directory, is storing in the map of
    that directory. *)
Lemma fs_put_child p x v n m :
  fs_lookup p n = Some (Dir m) →
  ∃ n', fs_put (p ++ [x]) v n = Some n'
        ∧ fs_lookup p n'
          = Some (Dir (match v with
                       | Some c => <[x := c]> m
                       | None => delete x m
                       end)).
Proof.
  revert n. induction p as [|z p IH]; intros n.
  - simpl. intros [= ->]. eauto.
  - cbn [app fs_lookup fs_put]. destruct n as [|m0]; [done|].
    destruct (m0 !! z) as [c|] eqn:Hz; [|done]. intros Hp.
    destruct (IH c Hp) as (c' & Hput & Hlook).
    destruct (p ++ [x]) as [|q0 q] eqn:Hq; [by destruct p|].
    rewrite Hput. eexists. split; [done|].
    cbn [fs_lookup]. by rewrite lookup_insert_eq.
Qed.

(** What exists has a directory above it. *)
Lemma fs_lookup_parent p x n c :
  fs_lookup (p ++ [x]) n = Some c →
  ∃ m, fs_lookup p n = Some (Dir m) ∧ m !! x = Some c.
Proof.
  revert n. induction p as [|z p IH]; intros n.
  - simpl. destruct n as [|m]; [done|].
    destruct (m !! x) eqn:Hx; [|done]. intros [= ->]. eauto.
  - simpl. destruct n as [|m0]; [done|].
    destruct (m0 !! z) as [c0|]; [|done]. apply IH.
Qed.

Lemma path_snoc (p : path) : p ≠ [] → ∃ q x, p = q ++ [x].
Proof.
  intros Hp. destruct (decide (p = [])) as [|_]; [done|].
  induction p as [|z p IH] using rev_ind; [done|]. eauto.
Qed.

Lemma below_ret {A} pre x (a : A) : below pre x (ret a).
Proof. by intros n r n' y r' [= <- <-]. Qed.

Lemma below_raise {A} pre x e : below (A := A) pre x (raise e).
Proof. by intros n r n' y r' [= <- <-]. Qed.

Lemma below_lift {A} pre x (r0 : Res A) : below pre x (lift r0).
Proof. by intros n r n' y r' [= <- <-]. Qed.

Lemma below_get pre x : below pre x get.
Proof. by intros n r n' y r' [= <- <-]. Qed.

Lemma below_bind {A B} pre x (m : M node A) (k : A → M node B) :
  below pre x m → (∀ a, below pre x (k a)) → below pre x (bind m k).
Proof.
  intros Hm Hk n r n' y r' Hrun Hxy. unfold bind in Hrun.
  destruct (m n) as [[a|e] n1] eqn:Hmn.
  - rewrite (Hk a _ _ _ _ _ Hrun Hxy). by eapply Hm.
  - injection Hrun as <- <-. by eapply Hm.
Qed.

Lemma below_fs_store pre x r v e : below pre x (fs_store (pre ++ x :: r) v e).
Proof.
  intros n r0 n' y r' Hrun Hxy.
  apply fs_store_inv in Hrun as [[_ Hput]|[_ ->]]; [|done].
  by eapply fs_put_lookup_diverge.
Qed.

Lemma below_if {A} pre x (b : bool) (m1 m2 : M node A) :
  below pre x m1 → below pre x m2 → below pre x (if b then m1 else m2).
Proof. by destruct b. Qed.

Lemma below_os_remove pre x r : below pre x (os_remove (pre ++ x :: r)).
Proof.
  intros n r0 n' y r' Hrun Hxy. unfold os_remove in Hrun.
  destruct (fs_lookup (pre ++ x :: r) n) as [[|]|];
    try (by injection Hrun as <- <-).
  by eapply below_fs_store.
Qed.

Lemma below_shutil_rmtree pre x r : below pre x (shutil_rmtree (pre ++ x :: r)).
Proof.
  intros n r0 n' y r' Hrun Hxy. unfold shutil_rmtree in Hrun.
  destruct (fs_lookup (pre ++ x :: r) n) as [[|]|];
    try (by injection Hrun as <- <-).
  by eapply below_fs_store.
Qed.

Lemma below_os_mkdir pre x r : below pre x (os_mkdir (pre ++ x :: r)).
Proof.
  intros n r0 n' y r' Hrun Hxy. unfold os_mkdir in Hrun.
  destruct (fs_lookup (pre ++ x :: r) n) as [[|]|];
    try (by injection Hrun as <- <-).
  by eapply below_fs_store.
Qed.

Lemma below_os_rmdir pre x r : below pre x (os_rmdir (pre ++ x :: r)).
Proof.
  intros n r0 n' y r' Hrun Hxy. unfold os_rmdir in Hrun.
  destruct (fs_lookup (pre ++ x :: r) n) as [[|m]|];
    try (by injection Hrun as <- <-).
  case_decide; [|by injection Hrun as <- <-].
  by eapply below_fs_store.
Qed.

Lemma below_write_file pre x r c : below pre x (write_file (pre ++ x :: r) c).
Proof.
  intros n r0 n' y r' Hrun Hxy. unfold write_file in Hrun.
  destruct (fs_lookup (pre ++ x :: r) n) as [[|]|];
    try (by injection Hrun as <- <-); by eapply below_fs_store.
Qed.

Lemma below_force_rm pre x r : below pre x (force_rm (pre ++ x :: r)).
Proof.
  unfold force_rm. apply below_bind; [apply below_get|]. intros n.
  repeat apply below_if;
    auto using below_os_remove, below_shutil_rmtree, below_ret.
Qed.

Lemma below_force_mkdir pre x r : below pre x (force_mkdir (pre ++ x :: r)).
Proof.
  unfold force_mkdir. apply below_bind; [apply below_get|]. intros n.
  repeat apply below_if; try apply below_bind;
    auto using below_os_remove, below_shutil_rmtree, below_os_mkdir.
Qed.

Lemma below_rmdir_if_empty pre x r : below pre x (rmdir_if_empty (pre ++ x :: r)).
Proof.
  unfold rmdir_if_empty. apply below_bind; [apply below_get|]. intros n.
  apply below_bind; [apply below_lift|]. intros l.
  case_decide; auto using below_os_rmdir, below_ret.
Qed.

(** ** [_util.py] *)

Lemma os_remove_child p x n m c :
  fs_lookup p n = Some (Dir m) → m !! x = Some (File c) →
  ∃ n', os_remove (p ++ [x]) n = (Ok tt, n')
        ∧ fs_lookup p n' = Some (Dir (delete x m)).
Proof.
  intros Hp Hx. unfold os_remove, fs_store.
  rewrite (fs_lookup_snoc _ _ _ _ Hp), Hx.
  destruct (fs_put_child p x None n m Hp) as (n' & -> & Hn'). eauto.
Qed.

Lemma shutil_rmtree_child p x n m m' :
  fs_lookup p n = Some (Dir m) → m !! x = Some (Dir m') →
  ∃ n', shutil_rmtree (p ++ [x]) n = (Ok tt, n')
        ∧ fs_lookup p n' = Some (Dir (delete x m)).
Proof.
  intros Hp Hx. unfold shutil_rmtree, fs_store.
  rewrite (fs_lookup_snoc _ _ _ _ Hp), Hx.
  destruct (fs_put_child p x None n m Hp) as (n' & -> & Hn'). eauto.
Qed.

Lemma os_mkdir_child p x n m :
  fs_lookup p n = Some (Dir m) → m !! x = None →
  ∃ n', os_mkdir (p ++ [x]) n = (Ok tt, n')
        ∧ fs_lookup p n' = Some (Dir (<[x := Dir ∅]> m)).
Proof.
  intros Hp Hx. unfold os_mkdir, fs_store.
  rewrite (fs_lookup_snoc _ _ _ _ Hp), Hx.
  destruct (fs_put_child p x (Some (Dir ∅)) n m Hp) as (n' & -> & Hn'). eauto.
Qed.

Lemma os_rmdir_child p x n m :
  fs_lookup p n = Some (Dir m) → m !! x = Some (Dir ∅) →
  ∃ n', os_rmdir (p ++ [x]) n = (Ok tt, n')
        ∧ fs_lookup p n' = Some (Dir (delete x m)).
Proof.
  intros Hp Hx. unfold os_rmdir, fs_store.
  rewrite (fs_lookup_snoc _ _ _ _ Hp), Hx. rewrite decide_True by done.
  destruct (fs_put_child p x None n m Hp) as (n' & -> & Hn'). eauto.
Qed.

Lemma write_file_child p x n m c :
  fs_lookup p n = Some (Dir m) → (∀ m', m !! x ≠ Some (Dir m')) →
  ∃ n', write_file (p ++ [x]) c n = (Ok tt, n')
        ∧ fs_lookup p n' = Some (Dir (<[x := File c]> m)).
Proof.
  intros Hp Hx. unfold write_file, fs_store.
  rewrite (fs_lookup_snoc _ _ _ _ Hp).
  destruct (fs_put_child p x (Some (File c)) n m Hp) as (n' & Hput & Hn').
  destruct (m !! x) as [[|m']|] eqn:Hmx; rewrite ?Hput; eauto.
  by destruct (Hx m').
Qed.

Lemma force_rm_child p x n m :
  fs_lookup p n = Some (Dir m) →
  ∃ n', force_rm (p ++ [x]) n = (Ok tt, n')
        ∧ fs_lookup p n' = Some (Dir (delete x m)).
Proof.
  intros Hp. unfold force_rm, bind, get, os_path_isfile, os_path_isdir.
  rewrite (fs_lookup_snoc _ _ _ _ Hp).
  destruct (m !! x) as [[c|m']|] eqn:Hx.
  - by eapply os_remove_child.
  - by eapply shutil_rmtree_child.
  - exists n. split; [done|]. by rewrite delete_id.
Qed.

Lemma force_mkdir_child p x n m :
  fs_lookup p n = Some (Dir m) →
  ∃ n', force_mkdir (p ++ [x]) n = (Ok tt, n')
        ∧ fs_lookup p n' = Some (Dir (<[x := Dir ∅]> m)).
Proof.
  intros Hp. unfold force_mkdir, bind at 1, get, os_path_isfile, os_path_isdir.
  rewrite (fs_lookup_snoc _ _ _ _ Hp).
  destruct (m !! x) as [[c|m']|] eqn:Hx.
  - destruct (os_remove_child _ _ _ _ _ Hp Hx) as (n1 & Hrm & Hn1).
    unfold bind. rewrite Hrm.
    destruct (os_mkdir_child p x n1 _ Hn1 (lookup_delete_eq m x))
      as (n' & -> & Hn').
    exists n'. by rewrite insert_delete_eq in Hn'.
  - destruct (shutil_rmtree_child _ _ _ _ _ Hp Hx) as (n1 & Hrm & Hn1).
    unfold bind. rewrite Hrm.
    destruct (os_mkdir_child p x n1 _ Hn1 (lookup_delete_eq m x))
      as (n' & -> & Hn').
    exists n'. by rewrite insert_delete_eq in Hn'.
  - by apply os_mkdir_child.
Qed.

Lemma force_rm_gone p n :
  p ≠ [] →
  ∃ n', force_rm p n = (Ok tt, n')
        ∧ fs_lookup p n' = None
        ∧ (fs_lookup p n = None → n' = n).
Proof.
  intros Hp. destruct (path_snoc p Hp) as (q & x & ->).
  destruct (fs_lookup (q ++ [x]) n) as [c|] eqn:Hc.
  - apply fs_lookup_parent in Hc as (m & Hq & _).
    destruct (force_rm_child q x n m Hq) as (n' & Hrun & Hn').
    exists n'. split; [done|]. split; [|done].
    by rewrite (fs_lookup_snoc _ _ _ _ Hn'), lookup_delete_eq.
  - exists n. by rewrite (force_rm_absent _ _ Hc).
Qed.

(** X1. [force_rm] of a path other than the root never raises; afterwards
    nothing is at the path, whatever was there, a file or a whole directory
    tree; nothing beside the path has changed; and when nothing was there,
    nothing has changed at all. *)
Theorem force_rm_removes p n :
  p ≠ [] →
  ∃ n', force_rm p n = (Ok tt, n')
        ∧ fs_lookup p n' = None
        ∧ (fs_lookup p n = None → n' = n)
        ∧ ∀ pre x r y r', p = pre ++ x :: r → x ≠ y →
            fs_lookup (pre ++ y :: r') n' = fs_lookup (pre ++ y :: r') n.
Proof.
  intros Hp. destruct (force_rm_gone p n Hp) as (n' & Hrun & Hgone & Hsame).
  exists n'. repeat split; try done.
  intros pre x0 r y r' Heq Hxy. rewrite Heq in Hrun.
  by eapply below_force_rm.
Qed.

Lemma force_rm_removes_witness :
  ∃ n', force_rm ["grub"; "i386-pc"] grub_tree = (Ok tt, n')
        ∧ fs_lookup ["grub"; "i386-pc"] n' = None
        ∧ fs_lookup ["grub"; "core.img"] n' = Some (File core_img).
Proof.
  destruct (force_rm_removes ["grub"; "i386-pc"] grub_tree)
    as (n' & Hrun & Hgone & _ & Hframe); [discriminate|].
  exists n'. split; [exact Hrun|]. split; [exact Hgone|].
  etransitivity;
    [exact (Hframe ["grub"] "i386-pc" [] "core.img" [] eq_refl
              ltac:(discriminate))|reflexivity].
Defined.

(** X2. [force_mkdir] of [p/x], where [p] is a directory, never raises and
    leaves an empty directory at [p/x]: a file there is replaced, and a
    directory there loses all its entries. The other entries of [p] are as
    they were. *)
Theorem force_mkdir_empties p x n m :
  fs_lookup p n = Some (Dir m) →
  ∃ n', force_mkdir (p ++ [x]) n = (Ok tt, n')
        ∧ fs_lookup (p ++ [x]) n' = Some (Dir ∅)
        ∧ ∀ y, y ≠ x → fs_lookup (p ++ [y]) n' = fs_lookup (p ++ [y]) n.
Proof.
  intros Hp. destruct (force_mkdir_child p x n m Hp) as (n' & Hrun & Hn').
  exists n'. split; [done|]. split.
  - by rewrite (fs_lookup_snoc _ _ _ _ Hn'), lookup_insert_eq.
  - intros y Hy.
    rewrite (fs_lookup_snoc _ _ _ _ Hn'), (fs_lookup_snoc _ _ _ _ Hp).
    by rewrite lookup_insert_ne.
Qed.

Lemma force_mkdir_empties_witness :
  ∃ n', force_mkdir ([] ++ ["grub"]) grub_tree = (Ok tt, n')
        ∧ fs_lookup ([] ++ ["grub"]) n' = Some (Dir ∅).
Proof.
  destruct (force_mkdir_empties [] "grub" grub_tree
              {[ "grub" := Dir {[ "boot.img" := File boot_img;
                                  "core.img" := File core_img;
                                  "i386-pc" := Dir ∅ ]} ]})
    as (n' & Hrun & Hempty & _); [reflexivity|].
  exists n'. split; [exact Hrun|exact Hempty].
Defined.

Lemma rmdir_if_empty_empty_child p x n m0 :
  fs_lookup p n = Some (Dir m0) → m0 !! x = Some (Dir ∅) →
  ∃ n', rmdir_if_empty (p ++ [x]) n = (Ok tt, n')
        ∧ fs_lookup p n' = Some (Dir (delete x m0)).
Proof.
  intros Hp Hx. unfold rmdir_if_empty, bind, get, lift, os_listdir.
  rewrite (fs_lookup_snoc _ _ _ _ Hp), Hx, map_to_list_empty. simpl.
  by apply os_rmdir_child.
Qed.

(** X3. [rmdir_if_empty] of [p/x], where [p] is a directory: an empty
    directory is removed; a directory with entries is left alone, without
    an error; a path that does not exist raises FileNotFoundError and a
    regular file raises NotADirectoryError, nothing being changed. *)
Theorem rmdir_if_empty_outcomes p x n m0 :
  fs_lookup p n = Some (Dir m0) →
  match m0 !! x with
  | Some (Dir m) =>
      if decide (m = ∅)
      then ∃ n', rmdir_if_empty (p ++ [x]) n = (Ok tt, n')
                 ∧ fs_lookup p n' = Some (Dir (delete x m0))
      else rmdir_if_empty (p ++ [x]) n = (Ok tt, n)
  | Some (File _) => rmdir_if_empty (p ++ [x]) n = (Raise NotADirectoryError, n)
  | None => rmdir_if_empty (p ++ [x]) n = (Raise FileNotFoundError, n)
  end.
Proof.
  intros Hp. pose proof (fs_lookup_snoc p x n m0 Hp) as Hx.
  destruct (m0 !! x) as [[c|m]|] eqn:Hm0.
  - unfold rmdir_if_empty, bind, get, lift, os_listdir. by rewrite Hx.
  - case_decide as Hm.
    + subst m. by apply rmdir_if_empty_empty_child.
    + by apply (rmdir_if_empty_nonempty _ _ m).
  - by apply rmdir_if_empty_missing.
Qed.

Lemma rmdir_if_empty_outcomes_witness :
  ∃ n', rmdir_if_empty (["grub"] ++ ["i386-pc"]) grub_tree = (Ok tt, n')
        ∧ fs_lookup (["grub"] ++ ["i386-pc"]) n' = None.
Proof.
  pose proof (rmdir_if_empty_outcomes ["grub"] "i386-pc" grub_tree
                {[ "boot.img" := File boot_img; "core.img" := File core_img;
                   "i386-pc" := Dir ∅ ]} eq_refl) as Hout.
  change (∃ n', rmdir_if_empty (["grub"] ++ ["i386-pc"]) grub_tree = (Ok tt, n')
                ∧ fs_lookup ["grub"] n'
                  = Some (Dir (delete "i386-pc"
                                 {[ "boot.img" := File boot_img;
                                    "core.img" := File core_img;
                                    "i386-pc" := Dir ∅ ]}))) in Hout.
  destruct Hout as (n' & Hrun & Hn'). exists n'. split; [exact Hrun|].
  by rewrite (fs_lookup_snoc _ _ _ _ Hn'), lookup_delete_eq.
Defined.

Lemma lookup_foldl_delete `{Countable K} {V} (l : list K) (m : gmap K V) k :
  foldl (fun acc x => delete x acc) m l !! k
  = if decide (k ∈ l) then None else m !! k.
Proof.
  revert m. induction l as [|x l IH]; intros m; cbn [foldl].
  - case_decide; [set_solver|done].
  - rewrite IH. destruct (decide (k = x)) as [->|Hne].
    + rewrite lookup_delete_eq. repeat case_decide; set_solver.
    + rewrite lookup_delete_ne by done.
      repeat case_decide; set_solver.
Qed.

Lemma for_each_force_rm_children p l n m :
  fs_lookup p n = Some (Dir m) →
  ∃ n', for_each l (fun fn => force_rm (p ++ [fn])) n = (Ok tt, n')
        ∧ fs_lookup p n' = Some (Dir (foldl (fun acc x => delete x acc) m l)).
Proof.
  revert n m. induction l as [|x l IH]; intros n m Hp; simpl.
  - by exists n.
  - destruct (force_rm_child p x n m Hp) as (n1 & Hrm & Hn1).
    unfold bind. rewrite Hrm. by apply IH.
Qed.

(** X4. [truncate_dir] of a directory never raises and leaves the
    directory in place and empty, whatever its entries were, files or
    directory trees. *)
Theorem truncate_dir_empties p n m :
  fs_lookup p n = Some (Dir m) →
  ∃ n', truncate_dir p n = (Ok tt, n') ∧ fs_lookup p n' = Some (Dir ∅).
Proof.
  intros Hp. unfold truncate_dir, bind, get, lift, os_listdir. rewrite Hp.
  destruct (for_each_force_rm_children p (map_to_list m).*1 n m Hp)
    as (n' & Hrun & Hn').
  exists n'. split; [done|]. rewrite Hn'. do 2 f_equal.
  apply map_eq. intros k. rewrite lookup_foldl_delete, lookup_empty.
  case_decide as Hk; [done|].
  destruct (m !! k) eqn:Hmk; [|done]. destruct Hk.
  apply elem_of_listing. by eexists.
Qed.

Lemma truncate_dir_empties_witness :
  ∃ n', truncate_dir ["grub"] grub_tree = (Ok tt, n')
        ∧ fs_lookup ["grub"] n' = Some (Dir ∅).
Proof.
  apply (truncate_dir_empties ["grub"] grub_tree
           {[ "boot.img" := File boot_img; "core.img" := File core_img;
              "i386-pc" := Dir ∅ ]}).
  reflexivity.
Defined.

(** X5. [is_buffer_all_zero] answers [True] exactly for the buffers
    whose bytes are all zero, the empty buffer among them. *)
Theorem is_buffer_all_zero_spec buf :
  is_buffer_all_zero buf = true ↔ buf = replicate (length buf) x00.
Proof.
  induction buf as [|b buf IH]; simpl; [done|].
  case_bool_decide as Hb; simpl.
  - subst b. rewrite IH. split; [by intros <-|by intros [= ?]].
  - split; [done|]. intros [= ? _]. done.
Qed.

(** ** Comparison of directories *)

Lemma compare_entries_true d1 d2 l n m1 m2 :
  fs_lookup d1 n = Some (Dir m1) → fs_lookup d2 n = Some (Dir m2) →
  compare_entries d1 d2 l n = Ok true →
  ∀ x, x ∈ l → ∃ c, m1 !! x = Some (File c) ∧ m2 !! x = Some (File c).
Proof.
  intros H1 H2. induction l as [|fn l IH]; simpl; [set_solver|].
  unfold compare_files.
  rewrite (fs_lookup_snoc _ fn _ _ H1), (fs_lookup_snoc _ fn _ _ H2).
  destruct (m1 !! fn) as [[a|?]|] eqn:Hfn1; destruct (m2 !! fn) as [[b|?]|] eqn:Hfn2;
    try done.
  case_bool_decide as Hab; simpl; [|done]. subst b.
  intros Hrest x [->|Hx]%elem_of_cons; eauto.
Qed.

(** A directory entry that is not a regular file makes the comparison of
    a directory with itself answer [False]. *)
Lemma compare_entries_self_subdir d l n m x m' :
  fs_lookup d n = Some (Dir m) → (∀ y, y ∈ l → is_Some (m !! y)) →
  x ∈ l → m !! x = Some (Dir m') →
  compare_entries d d l n = Ok false.
Proof.
  intros Hd. induction l as [|fn l IH]; simpl; [set_solver|].
  intros Hall Hx Hsub. unfold compare_files.
  rewrite (fs_lookup_snoc _ fn _ _ Hd).
  destruct (Hall fn) as [c Hc]; [set_solver|]. rewrite Hc.
  destruct c as [a|?]; [|done].
  rewrite bool_decide_eq_true_2 by done. simpl.
  apply IH; [set_solver| |done].
  apply elem_of_cons in Hx as [->|Hx]; [congruence|done].
Qed.

(** X6. [compare_directories] answers [True] only for two directories
    with the same entries, all of them regular files, equal in content
    name by name. A directory that has a subdirectory does not compare
    equal to itself: the answer is [False]. *)
Theorem compare_directories_true d1 d2 n :
  (compare_directories d1 d2 n = Ok true →
   ∃ m, fs_lookup d1 n = Some (Dir m) ∧ fs_lookup d2 n = Some (Dir m)
        ∧ ∀ x c, m !! x = Some c → ∃ a, c = File a)
  ∧ (∀ m x m', fs_lookup d1 n = Some (Dir m) → m !! x = Some (Dir m') →
     compare_directories d1 d1 n = Ok false).
Proof.
  split.
  - unfold compare_directories, os_listdir.
    destruct (fs_lookup d1 n) as [[?|m1]|] eqn:H1; try done.
    destruct (fs_lookup d2 n) as [[?|m2]|] eqn:H2; try done.
    case_bool_decide as Hl; simpl; [|done]. intros Hcmp.
    pose proof (compare_entries_true _ _ _ _ _ _ H1 H2 Hcmp) as Hfiles.
    assert (m1 = m2) as <-.
    { apply map_eq. intros x. destruct (m1 !! x) as [c|] eqn:Hx.
      - destruct (Hfiles x) as (a & Ha1 & Ha2).
        { apply elem_of_listing. by eexists. }
        congruence.
      - destruct (m2 !! x) as [c|] eqn:Hx2; [|done].
        destruct (Hfiles x) as (a & Ha1 & Ha2); [|congruence].
        rewrite Hl. apply elem_of_listing. by eexists. }
    exists m1. split; [done|]. split; [done|].
    intros x c Hx. destruct (Hfiles x) as (a & Ha1 & _).
    { apply elem_of_listing. by eexists. }
    exists a. congruence.
  - intros m x m' Hd Hx. unfold compare_directories, os_listdir. rewrite Hd.
    rewrite bool_decide_eq_true_2 by done. simpl.
    eapply compare_entries_self_subdir; eauto.
    + intros y. apply elem_of_listing.
    + apply elem_of_listing. by eexists.
Qed.

Lemma compare_directories_true_witness :
  compare_directories ["grub"] ["grub"] grub_tree = Ok false.
Proof.
  apply (proj2 (compare_directories_true ["grub"] ["grub"] grub_tree)
           {[ "boot.img" := File boot_img; "core.img" := File core_img;
              "i386-pc" := Dir ∅ ]} "i386-pc" ∅);
    reflexivity.
Defined.

(** ** EFI installation and removal *)

(** The directory [p] after a change at or below [p/x]. *)
Lemma parent_after p x n n' m c' :
  fs_lookup p n = Some (Dir m) →
  fs_lookup (p ++ [x]) n' = Some c' →
  (∀ z, x ≠ z → fs_lookup (p ++ [z]) n' = fs_lookup (p ++ [z]) n) →
  fs_lookup p n' = Some (Dir (<[x := c']> m)).
Proof.
  intros Hp Hx Hframe.
  destruct (fs_lookup_parent _ _ _ _ Hx) as (m' & Hp' & Hm'x).
  rewrite Hp'. do 2 f_equal. apply map_eq. intros z.
  destruct (decide (x = z)) as [<-|Hne].
  - by rewrite lookup_insert_eq.
  - rewrite lookup_insert_ne by done.
    rewrite <- (fs_lookup_snoc _ z _ _ Hp'), <- (fs_lookup_snoc _ z _ _ Hp).
    by apply Hframe.
Qed.

Section Efi.

Context `{GrubEnv}.

Lemma below_Efi_install_platform pt info source :
  below [] "EFI" (Efi_install_platform pt info source).
Proof.
  unfold Efi_install_platform.
  apply below_bind; [exact (below_force_mkdir [] "EFI" [])|intros _].
  apply below_bind; [exact (below_force_mkdir [] "EFI" ["BOOT"])|intros _].
  apply below_bind; [apply below_get|intros n].
  apply below_bind; [|intros; apply below_ret].
  unfold shutil_copy_to.
  apply below_bind; [apply below_lift|intros c].
  apply below_bind; [apply below_get|intros n0].
  apply below_if.
  - exact (below_write_file [] "EFI"
             ["BOOT"; getStandardEfiFilename pt; getCoreImgNameAndTarget.1] c).
  - exact (below_write_file [] "EFI" ["BOOT"; getStandardEfiFilename pt] c).
Qed.

Lemma below_Efi_remove_platform pt : below [] "EFI" (Efi_remove_platform pt).
Proof.
  unfold Efi_remove_platform.
  apply below_bind;
    [exact (below_force_rm [] "EFI" ["BOOT"; getStandardEfiFilename pt])
    |intros _].
  apply below_bind; [exact (below_rmdir_if_empty [] "EFI" ["BOOT"])|intros _].
  exact (below_rmdir_if_empty [] "EFI" []).
Qed.

(** The two [force_mkdir] of [install_platform]. *)
Lemma Efi_install_mkdirs root :
  ∃ n2, bind (force_mkdir efiDir) (fun _ => force_mkdir efiDirLv2) (Dir root)
        = (Ok tt, n2)
        ∧ fs_lookup efiDir n2 = Some (Dir {[ "BOOT" := Dir ∅ ]})
        ∧ fs_lookup efiDirLv2 n2 = Some (Dir ∅).
Proof.
  destruct (force_mkdir_child [] "EFI" (Dir root) root eq_refl)
    as (n1 & Hrun1 & Hn1).
  assert (fs_lookup ["EFI"] n1 = Some (Dir ∅)) as Hefi1.
  { etransitivity; [exact (fs_lookup_snoc [] "EFI" _ _ Hn1)|].
    by rewrite lookup_insert_eq. }
  destruct (force_mkdir_child ["EFI"] "BOOT" n1 ∅ Hefi1) as (n2 & Hrun2 & Hn2).
  exists n2. unfold bind, efiDir, efiDirLv2.
  change (force_mkdir ["EFI"]) with (force_mkdir ([] ++ ["EFI"])).
  rewrite Hrun1.
  change (force_mkdir ["EFI"; "BOOT"]) with (force_mkdir (["EFI"] ++ ["BOOT"])).
  rewrite Hrun2. split; [done|]. split; [by rewrite Hn2|].
  etransitivity; [exact (fs_lookup_snoc ["EFI"] "BOOT" _ _ Hn2)|].
  by rewrite lookup_insert_eq.
Qed.

Lemma Efi_install_platform_done pt info source root c :
  fs_lookup ["grub"; value pt; getCoreImgNameAndTarget.1] (Dir root)
    = Some (File c) →
  ∃ n', Efi_install_platform pt info source (Dir root)
        = (Ok (set_efi_attrs true false info), n')
        ∧ fs_lookup efiDir n'
          = Some (Dir {[ "BOOT" :=
                           Dir {[ getStandardEfiFilename pt := File c ]} ]})
        ∧ fs_lookup efiDirLv2 n'
          = Some (Dir {[ getStandardEfiFilename pt := File c ]}).
Proof.
  intros Hcore.
  destruct (Efi_install_mkdirs root) as (n2 & Hmk & Hefi2 & Hboot2).
  assert (fs_lookup ["grub"; value pt; getCoreImgNameAndTarget.1] n2
          = Some (File c)) as Hcore2.
  { rewrite <- Hcore.
    assert (below [] "EFI"
              (bind (force_mkdir efiDir) (fun _ => force_mkdir efiDirLv2)))
      as Hbelow.
    { apply below_bind; [|intros];
        [apply (below_force_mkdir [] "EFI" [])
        |apply (below_force_mkdir [] "EFI" ["BOOT"])]. }
    by apply (Hbelow _ _ _ "grub" _ Hmk). }
  destruct (write_file_child efiDirLv2 (getStandardEfiFilename pt) n2 ∅ c Hboot2)
    as (n3 & Hwr & Hboot3).
  { intros m'. by rewrite lookup_empty. }
  exists n3.
  assert (fs_lookup efiDirLv2 n3
          = Some (Dir {[ getStandardEfiFilename pt := File c ]})) as Hb3
    by by rewrite Hboot3, insert_empty.
  split; [|split; [|done]].
  - unfold Efi_install_platform.
    unfold bind in Hmk. unfold bind at 1 2.
    destruct (force_mkdir efiDir (Dir root)) as [[[]|e] n1]; [|done].
    rewrite Hmk. unfold bind at 1, get. unfold bind at 1.
    unfold shutil_copy_to, read_bytes.
    change (["grub"; value pt] ++ [getCoreImgNameAndTarget.1])
      with ["grub"; value pt; getCoreImgNameAndTarget.1].
    rewrite Hcore2. unfold bind, lift, get, os_path_isdir.
    rewrite (fs_lookup_snoc _ (getStandardEfiFilename pt) _ _ Hboot2).
    rewrite lookup_empty. by rewrite Hwr.
  - etransitivity;
      [apply (parent_after ["EFI"] "BOOT" n2 n3 {[ "BOOT" := Dir ∅ ]}
                (Dir {[ getStandardEfiFilename pt := File c ]}) Hefi2 Hb3)
      |by rewrite insert_singleton_eq].
    intros z Hz.
    by apply (below_write_file ["EFI"] "BOOT" [getStandardEfiFilename pt] c
                n2 (Ok tt) n3 z []).
Qed.

Lemma Efi_check_same pt info tt n c :
  status info = Some BOOTABLE →
  fs_lookup efiDirLv2 n = Some (Dir {[ getStandardEfiFilename pt := File c ]}) →
  fs_lookup ["grub"; value pt; getCoreImgNameAndTarget.1] n = Some (File c) →
  Efi_check_and_fill_platform_install_info pt info tt n
  = Ok (set_efi_attrs true false info).
Proof.
  intros Hst Hboot Hcore. unfold Efi_check_and_fill_platform_install_info.
  rewrite (bool_decide_eq_true_2 _ Hst). cbn [negb].
  unfold os_path_exists, compare_files.
  rewrite (fs_lookup_snoc _ (getStandardEfiFilename pt) _ _ Hboot).
  rewrite lookup_singleton_eq, Hcore.
  rewrite bool_decide_eq_true_2 by eauto. cbn [negb andb].
  by rewrite bool_decide_eq_true_2.
Qed.

Lemma Efi_remove_platform_after_install pt n c :
  fs_lookup efiDir n
  = Some (Dir {[ "BOOT" := Dir {[ getStandardEfiFilename pt := File c ]} ]}) →
  ∃ n', Efi_remove_platform pt n = (Ok tt, n') ∧ fs_lookup efiDir n' = None.
Proof.
  intros Hefi.
  assert (fs_lookup efiDirLv2 n
          = Some (Dir {[ getStandardEfiFilename pt := File c ]})) as Hboot.
  { etransitivity; [exact (fs_lookup_snoc ["EFI"] "BOOT" _ _ Hefi)|].
    by rewrite lookup_singleton_eq. }
  destruct (force_rm_child efiDirLv2 (getStandardEfiFilename pt) n _ Hboot)
    as (n1 & Hrm & Hboot1).
  rewrite delete_singleton_eq in Hboot1.
  assert (fs_lookup efiDir n1 = Some (Dir {[ "BOOT" := Dir ∅ ]})) as Hefi1.
  { etransitivity;
      [apply (parent_after ["EFI"] "BOOT" n n1 _ (Dir ∅) Hefi Hboot1)
      |by rewrite insert_singleton_eq].
    intros z Hz.
    by apply (below_force_rm ["EFI"] "BOOT" [getStandardEfiFilename pt]
                n (Ok tt) n1 z []). }
  destruct (rmdir_if_empty_empty_child ["EFI"] "BOOT" n1 _ Hefi1)
    as (n2 & Hrd & Hefi2); [by rewrite lookup_singleton_eq|].
  rewrite delete_singleton_eq in Hefi2.
  destruct (fs_lookup_parent [] "EFI" n2 _ Hefi2) as (root2 & Hroot2 & Hr2).
  destruct (rmdir_if_empty_empty_child [] "EFI" n2 _ Hroot2 Hr2)
    as (n3 & Hrd3 & Hroot3).
  exists n3. split.
  - unfold Efi_remove_platform, bind. rewrite Hrm.
    change (rmdir_if_empty efiDirLv2) with (rmdir_if_empty (["EFI"] ++ ["BOOT"])).
    rewrite Hrd.
    change (rmdir_if_empty efiDir) with (rmdir_if_empty ([] ++ ["EFI"])).
    by rewrite Hrd3.
  - etransitivity; [exact (fs_lookup_snoc [] "EFI" _ _ Hroot3)|].
    by rewrite lookup_delete_eq.
Qed.

End Efi.

(** X7. On a boot directory in which the platform's core image is a regular
    file, the EFI [install_platform] completes and records
    [removable = True], [nvram = False]; afterwards [EFI] holds the
    directory [BOOT] and nothing else, [EFI/BOOT] holds the platform's
    standard file, with the content of the core image, and nothing else
    (what [EFI] held before, another platform's loader too, is gone), and
    nothing outside [EFI] has changed. *)
Theorem Efi_install_platform_places_loader `{GrubEnv} pt info source root c :
  fs_lookup ["grub"; value pt; getCoreImgNameAndTarget.1] (Dir root)
    = Some (File c) →
  ∃ info' n',
    Efi_install_platform pt info source (Dir root) = (Ok info', n')
    ∧ removable info' = Some true ∧ nvram info' = Some false
    ∧ status info' = status info
    ∧ fs_lookup efiDir n'
      = Some (Dir {[ "BOOT" :=
                       Dir {[ getStandardEfiFilename pt := File c ]} ]})
    ∧ ∀ y r', "EFI" ≠ y → fs_lookup (y :: r') n' = fs_lookup (y :: r') (Dir root).
Proof.
  intros Hcore.
  destruct (Efi_install_platform_done pt info source root c Hcore)
    as (n' & Hrun & Hefi & _).
  eexists _, n'. split; [exact Hrun|]. repeat split; try done.
  intros y r' Hy.
  by apply (below_Efi_install_platform pt info source _ _ _ y r' Hrun).
Qed.

Lemma Efi_install_platform_places_loader_witness :
  ∃ info' n',
    Efi_install_platform x86_64_efi bootable tt
      (efi_tree [x00]) = (Ok info', n')
    ∧ removable info' = Some true
    ∧ fs_lookup ["EFI"] n'
      = Some (Dir {[ "BOOT" := Dir {[ "BOOTX64.EFI" := File efi_core ]} ]}).
Proof.
  destruct (Efi_install_platform_places_loader (H := grub) x86_64_efi bootable
              tt _ efi_core (eq_refl : fs_lookup _ (efi_tree [x00]) = _))
    as (info' & n' & Hrun & Hrem & _ & _ & Hefi & _).
  exists info', n'. split; [exact Hrun|]. split; [exact Hrem|exact Hefi].
Defined.

(** X8. Round trip: after an EFI [install_platform] that found the core
    image, the EFI verification of a provisional BOOTABLE record keeps
    BOOTABLE and records [removable = True], [nvram = False]. *)
Theorem Efi_install_then_check `{GrubEnv} pt info source tt root c v :
  fs_lookup ["grub"; value pt; getCoreImgNameAndTarget.1] (Dir root)
    = Some (File c) →
  status v = Some BOOTABLE →
  ∃ info' n',
    Efi_install_platform pt info source (Dir root) = (Ok info', n')
    ∧ Efi_check_and_fill_platform_install_info pt v tt n'
      = Ok (set_efi_attrs true false v)
    ∧ status (set_efi_attrs true false v) = Some BOOTABLE.
Proof.
  intros Hcore Hst.
  destruct (Efi_install_platform_done pt info source root c Hcore)
    as (n' & Hrun & _ & Hboot).
  eexists _, n'. split; [exact Hrun|]. split; [|done].
  apply (Efi_check_same pt v tt n' c Hst Hboot).
  rewrite <- Hcore.
  by apply (below_Efi_install_platform pt info source _ _ _ "grub" _ Hrun).
Qed.

Lemma Efi_install_then_check_witness :
  ∃ info' n',
    Efi_install_platform x86_64_efi bootable tt (efi_tree [x00]) = (Ok info', n')
    ∧ Efi_check_and_fill_platform_install_info x86_64_efi bootable
        MOUNTED_HDD_DEV n' = Ok (set_efi_attrs true false bootable).
Proof.
  destruct (Efi_install_then_check (H := grub) x86_64_efi bootable tt
              MOUNTED_HDD_DEV _ efi_core bootable
              (eq_refl : fs_lookup _ (efi_tree [x00]) = _) eq_refl)
    as (info' & n' & Hrun & Hcheck & _).
  by exists info', n'.
Defined.

(** X9. Round trip: an EFI [remove_platform] right after an EFI
    [install_platform] that found the core image completes and leaves no
    [EFI] directory at all; nothing outside [EFI] differs from what was
    there before the installation. *)
Theorem Efi_install_then_remove `{GrubEnv} pt info source root c :
  fs_lookup ["grub"; value pt; getCoreImgNameAndTarget.1] (Dir root)
    = Some (File c) →
  ∃ info' n' n'',
    Efi_install_platform pt info source (Dir root) = (Ok info', n')
    ∧ Efi_remove_platform pt n' = (Ok tt, n'')
    ∧ fs_lookup efiDir n'' = None
    ∧ ∀ y r', "EFI" ≠ y →
        fs_lookup (y :: r') n'' = fs_lookup (y :: r') (Dir root).
Proof.
  intros Hcore.
  destruct (Efi_install_platform_done pt info source root c Hcore)
    as (n' & Hrun & Hefi & _).
  destruct (Efi_remove_platform_after_install pt n' c Hefi)
    as (n'' & Hrm & Hgone).
  eexists _, n', n''. split; [exact Hrun|]. split; [exact Hrm|].
  split; [exact Hgone|]. intros y r' Hy.
  etransitivity; [exact (below_Efi_remove_platform pt _ _ _ y r' Hrm Hy)|].
  by apply (below_Efi_install_platform pt info source _ _ _ y r' Hrun).
Qed.

Lemma Efi_install_then_remove_witness :
  ∃ info' n' n'',
    Efi_install_platform x86_64_efi bootable tt (efi_tree [x00]) = (Ok info', n')
    ∧ Efi_remove_platform x86_64_efi n' = (Ok tt, n'')
    ∧ fs_lookup ["EFI"] n'' = None.
Proof.
  destruct (Efi_install_then_remove (H := grub) x86_64_efi bootable tt
              _ efi_core (eq_refl : fs_lookup _ (efi_tree [x00]) = _))
    as (info' & n' & n'' & Hrun & Hrm & Hgone & _).
  by exists info', n', n''.
Defined.



(** X11. The EFI [remove_platform] where [EFI/BOOT] holds another entry
    beside the platform's file: the platform's file is removed, the other
    entries stay, and [EFI/BOOT] and [EFI] are kept. *)
Theorem Efi_remove_platform_keeps_others `{GrubEnv} pt n mB y :
  fs_lookup efiDirLv2 n = Some (Dir mB) →
  y ≠ getStandardEfiFilename pt → is_Some (mB !! y) →
  ∃ n', Efi_remove_platform pt n = (Ok tt, n')
        ∧ fs_lookup efiDirLv2 n'
          = Some (Dir (delete (getStandardEfiFilename pt) mB)).
Proof.
  intros Hboot Hy [c Hc].
  destruct (force_rm_child efiDirLv2 (getStandardEfiFilename pt) n _ Hboot)
    as (n1 & Hrm & Hboot1).
  assert (delete (getStandardEfiFilename pt) mB ≠ ∅) as Hne.
  { intros Hempty. apply (f_equal (.!! y)) in Hempty.
    rewrite lookup_delete_ne, lookup_empty in Hempty by done. congruence. }
  exists n1. split; [|done].
  unfold Efi_remove_platform, bind. rewrite Hrm.
  rewrite (rmdir_if_empty_nonempty _ _ _ Hboot1 Hne).
  destruct (fs_lookup_parent_nonempty "EFI" "BOOT" n1 _ Hboot1)
    as (mE & HmE & HmEne).
  by rewrite (rmdir_if_empty_nonempty efiDir _ _ HmE HmEne).
Qed.

Lemma Efi_remove_platform_keeps_others_witness :
  ∃ n', Efi_remove_platform i386_efi
          (Dir {[ "EFI" := Dir {[ "BOOT" :=
                    Dir {[ "BOOTX64.EFI" := File efi_core;
                           "BOOTIA32.EFI" := File efi_core ]} ]} ]})
        = (Ok tt, n')
        ∧ fs_lookup ["EFI"; "BOOT"; "BOOTX64.EFI"] n' = Some (File efi_core).
Proof.
  destruct (Efi_remove_platform_keeps_others (H := grub) i386_efi
              (Dir {[ "EFI" := Dir {[ "BOOT" :=
                        Dir {[ "BOOTX64.EFI" := File efi_core;
                               "BOOTIA32.EFI" := File efi_core ]} ]} ]})
              {[ "BOOTX64.EFI" := File efi_core;
                 "BOOTIA32.EFI" := File efi_core ]} "BOOTX64.EFI")
    as (n' & Hrun & Hboot);
    [reflexivity | discriminate | by eexists |].
  exists n'. split; [exact Hrun|].
  etransitivity; [exact (fs_lookup_snoc ["EFI"; "BOOT"] "BOOTX64.EFI" _ _ Hboot)|].
  reflexivity.
Defined.

(** ** Operations on the target, continued *)

Lemma on_fs_inv `{GrubEnv} {A} (m : M node A) w r w' :
  on_fs m w = (r, w') →
  m (fs w) = (r, fs w') ∧ disks w' = disks w ∧ image_calls w' = image_calls w.
Proof.
  unfold on_fs. destruct (m (fs w)) as [r0 n0]. by intros [= <- <-].
Qed.

Lemma in_world_pure `{GrubEnv} {A} (m : M World A) s r :
  m (world s) = (r, world s) → in_world m s = (r, s).
Proof. destruct s as [t w c]. unfold in_world. simpl. by intros ->. Qed.

Lemma in_fs_pure `{GrubEnv} {A} (m : M node A) s r :
  m (fs (world s)) = (r, fs (world s)) → in_fs m s = (r, s).
Proof.
  intros Hm. apply in_world_pure. destruct (world s) as [n d ic].
  unfold on_fs. simpl in *. by rewrite Hm.
Qed.

Section TargetMore.

Context `{GrubEnv}.

Lemma Efi_install_platform_result pt info source n v n' :
  Efi_install_platform pt info source n = (Ok v, n') →
  v = set_efi_attrs true false info.
Proof.
  unfold Efi_install_platform, bind, ret.
  repeat case_match; intros; by simplify_eq.
Qed.

End TargetMore.

(** X12. An [install_platform] that completes was one of an EFI platform,
    on a target open for writing: for the BIOS platform and for every
    platform that is neither the BIOS platform nor an EFI one it raises.
    What it puts in the map is a BOOTABLE record with [removable = True]
    and [nvram = False], which [get_platform_install_info] then returns. *)
Theorem install_platform_completes_only_for_efi
    `{GrubEnv} pt source kwargs s s' :
  Target_install_platform pt source kwargs s = (Ok tt, s') →
  pt ≠ I386_PC ∧ isPlatformEfi pt = true
  ∧ _mode (target s) ∈ [RW; W]
  ∧ _platforms (target s')
    = <[pt := set_efi_attrs true false
                (set_status BOOTABLE PlatformInstallInfo_new)]>
        (_platforms (target s))
  ∧ get_platform_install_info (target s') pt
    = Ok (set_efi_attrs true false
            (set_status BOOTABLE PlatformInstallInfo_new)).
Proof.
  intros Hrun.
  assert (pt ≠ I386_PC ∧ isPlatformEfi pt = true ∧ _mode (target s) ∈ [RW; W]
          ∧ _platforms (target s')
            = <[pt := set_efi_attrs true false
                        (set_status BOOTABLE PlatformInstallInfo_new)]>
                (_platforms (target s))) as (Hne & Hefi & Hmode & Hmap).
  { revert Hrun. unfold Target_install_platform. run_target;
      repeat match goal with
             | Hb : Bios_install_platform ?a ?b ?c ?d ?e ?f ?g ?h ?w = (Ok _, _)
               |- _ =>
                 destruct (Bios_install_platform_raises a b c d e f g h w)
                   as [e' He']; congruence
             | Hm : bool_decide _ = true |- _ => apply bool_decide_eq_true_1 in Hm
             | Hi : on_fs (Efi_install_platform _ _ _) _ = _ |- _ =>
                 apply on_fs_inv in Hi as (Hi & _ & _);
                 apply Efi_install_platform_result in Hi; subst
             end;
      (split; [done|]); (split; [done|]); (split; [done|]);
      simpl; f_equal; congruence. }
  repeat split; try done.
  unfold get_platform_install_info. by rewrite Hmap, lookup_insert_eq.
Qed.

Lemma install_platform_completes_only_for_efi_witness :
  ∃ s', Target_install_platform x86_64_efi tt
          {| kw_allow_floppy := None; kw_rs_codes := None |}
          (new_session (mounted_target W) world_empty) = (Ok tt, s')
        ∧ get_platform_install_info (target s') x86_64_efi
          = Ok (set_efi_attrs true false
                  (set_status BOOTABLE PlatformInstallInfo_new)).
Proof.
  destruct (Target_install_platform (H := grub) x86_64_efi tt
              {| kw_allow_floppy := None; kw_rs_codes := None |}
              (new_session (mounted_target W) world_empty))
    as [r s'] eqn:Hrun.
  assert (r = Ok tt) as ->.
  { apply (f_equal fst) in Hrun. vm_compute in Hrun. by subst r. }
  exists s'. split; [reflexivity|].
  apply (install_platform_completes_only_for_efi (H := grub) _ _ _ _ _ Hrun).
Defined.

(** X13. Every operation checks the access mode first: on a read-only
    target the operations that write, and on a write-only target the two
    checks, raise an assertion error and leave the target, the boot
    directory and the devices as they were. *)
Theorem operations_assert_access_mode `{GrubEnv} op s :
  match op with
  | OpCheck _ | OpCheckWithSource _ _ => _mode (target s) = W
  | _ => _mode (target s) = R
  end →
  run_op op s = (Raise AssertionError, s).
Proof.
  destruct op; simpl; intros Hmode;
    [ unfold Target_install_platform | unfold Target_remove_platform
    | unfold Target_install_data | unfold Target_remove_data
    | unfold Target_touch_env_file | unfold Target_remove_env_file
    | unfold Target_remove_all | unfold Target_check
    | unfold Target_check_with_source ];
    unfold bind at 1, self; unfold bind at 1;
    rewrite Hmode; reflexivity.
Qed.

Lemma operations_assert_access_mode_witness :
  run_op OpRemoveAll (new_session (mounted_target R) world_unpatched)
  = (Raise AssertionError, new_session (mounted_target R) world_unpatched).
Proof.
  apply (operations_assert_access_mode (H := grub) OpRemoveAll
           (new_session (mounted_target R) world_unpatched)).
  reflexivity.
Defined.

(** X14. [install_platform] of a platform whose record is BOOTABLE raises an
    assertion error before it does anything: the platform has to be removed
    first. *)
Theorem install_platform_already_bootable `{GrubEnv} pt source kwargs s info :
  _platforms (target s) !! pt = Some info →
  status info = Some BOOTABLE →
  Target_install_platform pt source kwargs s = (Raise AssertionError, s).
Proof.
  intros Hpt Hst. unfold Target_install_platform, bind at 1, self.
  unfold bind at 1. unfold assert_. case_bool_decide; [|done].
  cbn [ret]. unfold bind at 1, lift, get_platform_install_info. rewrite Hpt.
  unfold bind at 1. by rewrite (bool_decide_eq_true_2 _ Hst).
Qed.

Lemma install_platform_already_bootable_witness :
  let s := new_session
             (set_platforms {[ x86_64_efi := set_efi_attrs true false bootable ]}
                (mounted_target RW)) world_empty in
  Target_install_platform x86_64_efi tt
    {| kw_allow_floppy := None; kw_rs_codes := None |} s
  = (Raise AssertionError, s).
Proof.
  intros s.
  apply (install_platform_already_bootable (H := grub) x86_64_efi tt _ s
           (set_efi_attrs true false bootable)); reflexivity.
Defined.

Section TargetRemoveAll.

Context `{GrubEnv}.

Lemma for_each_remove_platform_done l s s' :
  for_each l Target_remove_platform s = (Ok tt, s') →
  _platforms (target s')
  = foldl (fun acc k => delete k acc) (_platforms (target s)) l.
Proof.
  revert s. induction l as [|pt l IH]; intros s; simpl.
  - by intros [= <-].
  - unfold bind.
    destruct (Target_remove_platform pt s) as [[[]|e] s1] eqn:Hrm; [|done].
    intros Hrest. rewrite (IH _ Hrest).
    apply Target_remove_platform_spec in Hrm as [(_ & -> & _)|(Hr & _)];
      [done|by destruct Hr].
Qed.

Lemma in_fs_force_rm_gone p s r s' :
  p ≠ [] → in_fs (force_rm p) s = (r, s') →
  r = Ok tt ∧ target s' = target s ∧ fs_lookup p (fs (world s')) = None
  ∧ ∀ pre x r0 y r', p = pre ++ x :: r0 → x ≠ y →
      fs_lookup (pre ++ y :: r') (fs (world s'))
      = fs_lookup (pre ++ y :: r') (fs (world s)).
Proof.
  intros Hp Hrun. unfold in_fs in Hrun.
  apply in_world_inv in Hrun as (Ht & _ & Hw).
  apply on_fs_inv in Hw as (Hfs & _ & _).
  destruct (force_rm_gone p (fs (world s)) Hp) as (n' & Hrm & Hgone & _).
  rewrite Hrm in Hfs. injection Hfs as <- ->.
  repeat split; try done.
  intros pre x r0 y r' -> Hxy. by eapply below_force_rm.
Qed.

End TargetRemoveAll.

(** X15. A [remove_all] that completes leaves the platform map empty and
    neither an [EFI] nor a [grub] entry in the boot directory. *)
Theorem remove_all_leaves_nothing `{GrubEnv} s s' :
  Target_remove_all s = (Ok tt, s') →
  _platforms (target s') = ∅
  ∧ fs_lookup efiDir (fs (world s')) = None
  ∧ fs_lookup grubDir (fs (world s')) = None.
Proof.
  unfold Target_remove_all, bind at 1, self. unfold bind at 1, assert_.
  case_bool_decide; cbn [ret raise]; [|done].
  unfold bind at 1.
  destruct (for_each _ Target_remove_platform s) as [[[]|e] s1] eqn:Hloop;
    [|done].
  apply for_each_remove_platform_done in Hloop.
  unfold bind, Efi_remove_remaining_crufts, Common_remove_remaining_crufts.
  destruct (in_fs (force_rm efiDir) s1) as [r2 s2] eqn:Hefi.
  apply in_fs_force_rm_gone in Hefi as (-> & Ht2 & Hgone2 & _); [|done].
  destruct (in_fs (force_rm grubDir) s2) as [r3 s3] eqn:Hgrub.
  apply in_fs_force_rm_gone in Hgrub as (-> & Ht3 & Hgone3 & Hframe3); [|done].
  intros [= <-]. split; [|split; [|done]].
  - rewrite Ht3, Ht2, Hloop. apply map_eq. intros k.
    rewrite lookup_foldl_delete, lookup_empty.
    case_decide as Hk; [done|].
    destruct (_platforms (target s) !! k) eqn:Hmk; [|done]. destruct Hk.
    apply list_elem_of_fmap. eexists (k, _). split; [done|].
    by apply elem_of_map_to_list.
  - etransitivity; [exact (Hframe3 [] "grub" [] "EFI" [] eq_refl
                             ltac:(discriminate))|].
    exact Hgone2.
Qed.

Lemma remove_all_leaves_nothing_witness :
  let s := new_session
             (set_platforms {[ x86_64_efi := set_status EXIST bootable ]}
                (iso_target RW)) world_staged in
  ∃ s', Target_remove_all s = (Ok tt, s')
        ∧ _platforms (target s') = ∅
        ∧ fs_lookup ["EFI"] (fs (world s')) = None
        ∧ fs_lookup ["grub"] (fs (world s')) = None.
Proof.
  intros s.
  destruct (Target_remove_all s) as [r s'] eqn:Hrun.
  assert (r = Ok tt) as ->.
  { apply (f_equal fst) in Hrun. vm_compute in Hrun. by subst r. }
  exists s'. split; [reflexivity|].
  apply (remove_all_leaves_nothing (H := grub) s s' Hrun).
Defined.

(** ** What the constructor leaves in the map *)

Section InitEntries.

Context `{GrubEnv}.


Lemma Efi_check_result pt v tt n v' :
  Efi_check_and_fill_platform_install_info pt v tt n = Ok v' →
  v' = set_status EXIST v ∨ v' = set_efi_attrs true false v.
Proof.
  unfold Efi_check_and_fill_platform_install_info.
  repeat case_match; intros; simplify_eq; auto.
Qed.

Lemma init_platforms_values (n : node) m k v :
  Common_init_platforms n ∅ = Ok m → m !! k = Some v →
  v = set_status BOOTABLE PlatformInstallInfo_new.
Proof.
  set (B := set_status BOOTABLE PlatformInstallInfo_new).
  set (P := fun m0 : gmap PlatformType PlatformInstallInfo =>
              ∀ k0 v0, m0 !! k0 = Some v0 → v0 = B).
  assert (∀ fn m0, P m0 → P (init_platforms_entry fn m0)) as Hentry.
  { intros fn. unfold init_platforms_entry.
    induction (enum PlatformType) as [|q l IH]; intros m0 Hm0; [done|].
    simpl. apply IH. case_decide; [|done].
    intros k0 v0. rewrite lookup_insert. case_decide; [|by apply Hm0].
    by intros [= <-]. }
  assert (∀ l m0, P m0 →
            P (foldl (fun acc fn => init_platforms_entry fn acc) m0 l))
    as Hall.
  { induction l as [|fn l IH]; intros m0 Hm0; [done|].
    simpl. by apply IH, Hentry. }
  unfold Common_init_platforms.
  assert (P ∅) as Hempty by (intros k0 v0; by rewrite lookup_empty).
  repeat case_match; intros; simplify_eq; try by eapply Hempty.
  by eapply (Hall _ ∅ Hempty).
Qed.

Lemma Target_init_check_entries fuel tt dev w items m m' :
  Target_init_check fuel tt dev w items m = Some (Ok m') →
  (∀ k v, (k, v) ∈ items → v = set_status BOOTABLE PlatformInstallInfo_new) →
  (∀ k v, m !! k = Some v → scanned_entry k v ∨ ∃ v0, (k, v0) ∈ items) →
  ∀ k v, m' !! k = Some v → scanned_entry k v.
Proof.
  revert m. induction items as [|[k0 v0] items IH]; intros m; simpl.
  - intros [= <-] _ Hm k v Hk. destruct (Hm k v Hk) as [?|[? ?%elem_of_nil]];
      done.
  - intros Hrun Hitems Hm.
    assert (v0 = set_status BOOTABLE PlatformInstallInfo_new) as Hv0
      by (eapply Hitems; left).
    match type of Hrun with
    | match ?c with _ => _ end = _ => destruct c as [[v'|e]|] eqn:Hc; [|done..]
    end.
    assert (scanned_entry k0 v') as Hgood.
    { case_decide as Hk0.
      - left. split; [done|].
        apply Bios_check_returns_EXIST in Hc. by subst.
      - destruct (isPlatformEfi k0) eqn:Hefi; [|done].
        injection Hc as Hc. apply Efi_check_result in Hc.
        right. split; [done|]. split; [done|]. by subst. }
    clear Hc. eapply IH; [exact Hrun| |].
    + intros k v Hkv. eapply Hitems. by right.
    + intros k v. rewrite lookup_insert. case_decide as Hk.
      * intros [= ?]. subst. by left.
      * intros Hkv. destruct (Hm k v Hkv) as [?|[v1 Hin]]; [by left|].
        right. exists v1. apply elem_of_cons in Hin as [[= ? ?]|?]; [done|done].
Qed.

Lemma Target_init_scanned fuel tt mode kwargs w t pt v :
  Target_init fuel tt mode kwargs w = Some (Ok t) →
  _platforms t !! pt = Some v → scanned_entry pt v.
Proof.
  unfold Target_init.
  destruct (Target_init_attrs tt mode kwargs) as [t0|e] eqn:Hattrs; [|done].
  assert (_platforms t0 = ∅) as Hempty.
  { revert Hattrs. unfold Target_init_attrs.
    repeat case_match; intros; by simplify_eq. }
  case_bool_decide as Hmode.
  - destruct tt; [|done|];
      (rewrite Hempty;
       destruct (Common_init_platforms (fs w) ∅) as [m|] eqn:Hscan; [|done];
       match goal with
       | |- match ?c with _ => _ end = _ → _ =>
           destruct c as [[m'|]|] eqn:Hcheck; [|done..]
       end;
       intros [= <-]; simpl;
       eapply Target_init_check_entries; [exact Hcheck| |];
       [ intros k0 v0 Hin%elem_of_map_to_list;
         by eapply init_platforms_values
       | intros k0 v0 Hin; right; exists v0; by apply elem_of_map_to_list ]).
  - intros [= <-]. by rewrite Hempty, lookup_empty.
Qed.

End InitEntries.

(** X16. Whatever [__init__] returns, its map has entries for the BIOS
    platform and for EFI platforms only. The BIOS entry, if there is one,
    has status EXIST and no BIOS attribute set: a scan never reports the
    BIOS platform BOOTABLE. An EFI entry is either EXIST or BOOTABLE with
    [removable = True] and [nvram = False]. *)
Theorem Target_init_entries `{GrubEnv} fuel tt mode kwargs w t :
  Target_init fuel tt mode kwargs w = Some (Ok t) →
  (∀ pt v, _platforms t !! pt = Some v →
     (pt = I386_PC →
      status v = Some EXIST ∧ mbr_installed v = None
      ∧ allow_floppy v = None ∧ rs_codes v = None)
     ∧ (pt ≠ I386_PC →
        isPlatformEfi pt = true
        ∧ (status v = Some EXIST
           ∨ status v = Some BOOTABLE ∧ removable v = Some true
             ∧ nvram v = Some false)))
  ∧ I386_PC ∉ bootable_platforms t.
Proof.
  intros Hinit. split.
  - intros pt v Hv.
    destruct (Target_init_scanned _ _ _ _ _ _ _ _ Hinit Hv)
      as [[-> ->]|(Hne & Hefi & [->| ->])]; split; try done; auto.
  - unfold bootable_platforms. intros Hin.
    apply list_elem_of_fmap in Hin as ([k v] & Hk & Hkv).
    apply elem_of_map_to_list, map_lookup_filter_Some in Hkv as [Hv Hst].
    simpl in *. subst k.
    destruct (Target_init_scanned _ _ _ _ _ _ _ _ Hinit Hv)
      as [[_ ->]|(Hne & _)]; done.
Qed.

Lemma Target_init_entries_witness :
  let t := set_platforms {[ x86_64_efi := set_status EXIST bootable ]}
             (iso_target RW) in
  Target_init 1 ISO_DIR RW iso_kwargs world_staged = Some (Ok t)
  ∧ i386_pc ∉ bootable_platforms t.
Proof.
  intros t.
  assert (Target_init 1 ISO_DIR RW iso_kwargs world_staged = Some (Ok t))
    as Hinit by reflexivity.
  split; [exact Hinit|].
  apply (Target_init_entries (H := grub) 1 ISO_DIR RW iso_kwargs world_staged t
           Hinit).
Defined.

(** ** Checks and rejections *)


(** X17. [check] reads and never writes: the session after it is the
    session before it. Its outcome does not depend on [auto_fix]. It
    completes exactly when the target is open for reading, is not an
    optical image, and either [<boot>/grub] is a directory or the map
    is empty; otherwise it raises. *)
Theorem check_reads_only `{GrubEnv} auto_fix s :
  ∃ r, Target_check auto_fix s = (r, s)
       ∧ Target_check (negb auto_fix) s = (r, s)
       ∧ (is_Ok r ↔
          _mode (target s) ∈ [R; RW]
          ∧ _targetType (target s) ≠ PYCDLIB_OBJ
          ∧ (os_path_isdir grubDir (fs (world s)) = true
             ∨ _platforms (target s) = ∅)).
Proof.
  assert (∀ af, Common_check (target s) af (fs (world s))
                = (if os_path_isdir grubDir (fs (world s)) then Ok tt
                   else if (0 <? size (_platforms (target s)))%nat
                        then Raise (PyException "") else Ok tt,
                   fs (world s))) as Hcommon.
  { intros af. unfold Common_check, bind, get, lift.
    destruct (os_path_isdir grubDir (fs (world s))) eqn:Hdir; [|by case_match].
    unfold os_path_isdir in Hdir. unfold os_listdir.
    by destruct (fs_lookup grubDir (fs (world s))) as [[|]|]. }
  assert (∀ af, Target_check af s
                = (if bool_decide (_mode (target s) ∈ [R; RW])
                   then match _targetType (target s) with
                        | PYCDLIB_OBJ => Raise AssertionError
                        | _ => (Common_check (target s) af (fs (world s))).1
                        end
                   else Raise AssertionError, s)) as Hcheck.
  { intros af. unfold Target_check, bind at 1, self. unfold bind at 1, assert_.
    case_bool_decide; cbn [ret raise]; [|done].
    destruct (_targetType (target s)); [|done|];
      by rewrite (in_fs_pure _ s _ (Hcommon af)), Hcommon. }
  eexists. split; [apply Hcheck|]. split.
  { rewrite (Hcheck (negb auto_fix)), !Hcommon. done. }
  rewrite Hcommon. cbn [fst].
  case_bool_decide as Hmode; [|by intros; split; [|intros []]].
  assert ((0 <? size (_platforms (target s)))%nat = false
          ↔ _platforms (target s) = ∅) as Hsize.
  { rewrite Nat.ltb_ge, Nat.le_0_r. apply map_size_empty_iff. }
  destruct (_targetType (target s));
    [|by split; [|intros (_ & ? & _)]|];
    destruct (os_path_isdir grubDir (fs (world s)));
    try (by split; [auto|]);
    (destruct (0 <? size (_platforms (target s)))%nat eqn:Hs;
     [split; [done|]; intros (_ & _ & [?|Hempty]); [done|];
      apply Hsize in Hempty; congruence
     |split; [|done]; intros _; split; [done|]; split; [done|];
      right; by apply Hsize]).
Qed.

(** X18. [install_platform] of a platform on a boot directory whose
    filesystem UUID cannot be probed, and of an EFI platform on a boot
    directory that is not on vfat, raises before any file is copied or
    written: the session is as it was. *)
Theorem install_platform_rejects_mount `{GrubEnv} pt source kwargs s bootDir mnt :
  _bootDir (target s) = Some bootDir →
  probeMnt bootDir = Ok mnt →
  fs_uuid mnt = None ∨ (isPlatformEfi pt = true ∧ mnt_fs mnt ≠ "vfat") →
  (∃ msg, Common_install_platform (target s) pt source (world s)
          = (Raise (PyException msg), world s))
  ∧ ∃ e, Target_install_platform pt source kwargs s = (Raise e, s).
Proof.
  intros Hboot Hmnt Hbad.
  assert (∃ msg, Common_install_platform (target s) pt source (world s)
                 = (Raise (PyException msg), world s)) as [msg Hcommon].
  { unfold Common_install_platform, bind at 1, lift. rewrite Hboot.
    unfold bind at 1, lift. rewrite Hmnt.
    destruct (fs_uuid mnt) as [uuid|]; [|by eexists].
    destruct Hbad as [?|[-> Hfs]]; [done|].
    apply String.eqb_neq in Hfs. rewrite Hfs. by eexists. }
  split; [by eexists|].
  unfold Target_install_platform, bind at 1, self. unfold bind at 1, assert_.
  case_bool_decide; cbn [ret raise]; [|by eexists].
  unfold bind at 1, lift. unfold get_platform_install_info.
  unfold bind at 1.
  destruct (_platforms (target s) !! pt) as [info|];
    (match goal with |- context [bool_decide ?P] => destruct (bool_decide P) end;
     cbn [negb ret raise]; [by eexists|]);
    unfold bind at 1;
    (destruct (_targetType (target s)); [|by eexists|];
     unfold bind at 1; rewrite (in_world_pure _ s _ Hcommon); by eexists).
Qed.

Lemma install_platform_rejects_mount_witness :
  let s := new_session (H := grub_ext4)
             {| _targetType := MOUNTED_HDD_DEV; _mode := W;
                _bootDir := Some "/mnt/boot"; _dev := Some "/dev/sda";
                _platforms := ∅ |}
             {| fs := Dir ∅; disks := ∅; image_calls := [] |} in
  ∃ e, Target_install_platform (H := grub_ext4) x86_64_efi tt
         {| kw_allow_floppy := None; kw_rs_codes := None |} s = (Raise e, s).
Proof.
  intros s.
  apply (install_platform_rejects_mount (H := grub_ext4) x86_64_efi tt
           {| kw_allow_floppy := None; kw_rs_codes := None |} s "/mnt/boot"
           {| fs_uuid := Some "ABCD-1234"; mnt_fs := "ext4"; mnt_pt := "/mnt" |});
    [reflexivity | reflexivity | right; split; [reflexivity|discriminate]].
Defined.

(** X19. [install_data] begins with [force_mkdir] of [<boot>/grub]:
    called without locales, fonts or themes on a target open for writing,
    it completes and leaves [<boot>/grub] an empty directory. The
    directory of every platform is gone, while the platform map is what it
    was. *)
Theorem install_data_empties_grub `{GrubEnv} source s root :
  _mode (target s) ∈ [RW; W] →
  fs (world s) = Dir root →
  ∃ s', Target_install_data source None None None s = (Ok tt, s')
        ∧ fs_lookup grubDir (fs (world s')) = Some (Dir ∅)
        ∧ (∀ pt, fs_lookup (grubDir ++ [value pt]) (fs (world s')) = None)
        ∧ target s' = target s.
Proof.
  intros Hmode Hroot.
  destruct (force_mkdir_child [] "grub" (fs (world s)) root) as (n' & Hmk & Hn').
  { by rewrite Hroot. }
  assert (fs_lookup grubDir n' = Some (Dir ∅)) as Hgrub.
  { etransitivity; [exact (fs_lookup_snoc [] "grub" _ _ Hn')|].
    by rewrite lookup_insert_eq. }
  destruct s as [t [n d ic] c]. cbn [world target fs] in *.
  eexists. split.
  - unfold Target_install_data, bind, self, assert_.
    rewrite (bool_decide_eq_true_2 _ Hmode). cbn [ret].
    unfold in_fs, in_world, on_fs. cbn [world target fs completed disks image_calls].
    change (force_mkdir grubDir n) with (force_mkdir ([] ++ ["grub"]) n).
    rewrite Hmk. reflexivity.
  - cbn [world target fs]. split; [done|]. split; [|done].
    intros pt. by rewrite (fs_lookup_snoc _ (value pt) _ _ Hgrub).
Qed.

Lemma install_data_empties_grub_witness :
  let s := new_session (mounted_target W) world_unpatched in
  ∃ s', Target_install_data tt None None None s = (Ok tt, s')
        ∧ fs_lookup ["grub"] (fs (world s')) = Some (Dir ∅).
Proof.
  intros s.
  destruct (install_data_empties_grub (H := grub) tt s
              {[ "grub" := Dir {[ "boot.img" := File boot_img;
                                  "core.img" := File core_img;
                                  "i386-pc" := Dir ∅ ]} ]})
    as (s' & Hrun & Hgrub & _); [repeat constructor | reflexivity |].
  by exists s'.
Defined.

(** ** BIOS verification: when it returns *)

Section BiosCheckReturns.

Context `{GrubEnv}.

(** A pass reaches [bOk = True] only when all the checks hold. *)
Lemma Bios_check_iteration_passes dev b b' w :
  Bios_check_iteration dev b w = IterEnd b' → verification_passes dev w.
Proof.
  unfold Bios_check_iteration, verification_passes, os_path_exists, read_bytes.
  destruct (fs_lookup bootImgFile (fs w)) as [[bootBuf|?]|];
    [|rewrite bool_decide_eq_true_2 by eauto; done
     |rewrite bool_decide_eq_false_2 by (by intros [??]); done].
  rewrite bool_decide_eq_true_2 by eauto. cbn [negb].
  destruct (Nat.eqb_spec (length bootBuf) DISK_SECTOR_SIZE) as [Hbl|];
    cbn [negb]; [|done].
  destruct (fs_lookup coreImgFile (fs w)) as [[coreBuf|?]|];
    [|rewrite bool_decide_eq_true_2 by eauto; done
     |rewrite bool_decide_eq_false_2 by (by intros [??]); done].
  rewrite bool_decide_eq_true_2 by eauto. cbn [negb].
  unfold _getMbrGapSizeThreshold.
  destruct (Z.leb_spec (Z.of_nat DISK_SECTOR_SIZE) (Z.of_nat (length coreBuf)));
    cbn [negb andb]; [|done].
  destruct (Z.leb_spec (Z.of_nat (length coreBuf)) (512 * 1024));
    cbn [negb andb]; [|done].
  destruct (open_rb dev w) as [f|]; [|done].
  repeat (case_bool_decide; cbn [negb]; try done); intros _;
    exists bootBuf, coreBuf, f; repeat split; auto.
Qed.

End BiosCheckReturns.

(** X20. When one of the checks of the BIOS verification does not hold,
    [check_and_fill_platform_install_info] returns after the first pass
    through [while True:]: either an exception is raised, or the record
    comes back with status EXIST and nothing else changed. Together with
    the case in which all the checks hold, it never reports BOOTABLE. *)
Theorem Bios_check_returns_when_a_check_fails
    `{GrubEnv} fuel pt info tt dev w :
  status info = Some BOOTABLE →
  ¬ verification_passes dev w →
  Bios_check_and_fill_platform_install_info (S fuel) pt info tt dev w
    = Some (Ok (set_status EXIST info))
  ∨ ∃ e, Bios_check_and_fill_platform_install_info (S fuel) pt info tt dev w
         = Some (Raise e).
Proof.
  intros Hst Hnot.
  unfold Bios_check_and_fill_platform_install_info.
  rewrite (bool_decide_eq_true_2 _ Hst). cbn [negb Bios_check_loop].
  destruct (Bios_check_iteration dev None w) eqn:Hit; eauto.
  destruct Hnot. by eapply Bios_check_iteration_passes.
Qed.

Lemma Bios_check_returns_when_a_check_fails_witness :
  Bios_check_and_fill_platform_install_info 1 i386_pc bootable
    MOUNTED_HDD_DEV (Some "/dev/sda") world_short_core
    = Some (Ok (set_status EXIST bootable))
  ∨ ∃ e, Bios_check_and_fill_platform_install_info 1 i386_pc bootable
           MOUNTED_HDD_DEV (Some "/dev/sda") world_short_core
         = Some (Raise e).
Proof.
  apply (Bios_check_returns_when_a_check_fails (H := grub) 0 i386_pc bootable
           MOUNTED_HDD_DEV (Some "/dev/sda") world_short_core);
    [reflexivity|].
  intros (bootBuf & coreBuf & f & _ & _ & Hc & [Hlen _] & _).
  vm_compute in Hc. injection Hc as <-. vm_compute in Hlen. by apply Hlen.
Defined.

(** ** BIOS installation: the sector that is written *)


Section Slices.

Local Open Scope nat_scope.

Lemma slice_lookup {A} a b (l : list A) j :
  slice a b l !! j = if decide (j < b - a) then l !! (a + j) else None.
Proof.
  unfold slice. rewrite lookup_take.
  case_decide; [by rewrite lookup_drop|done].
Qed.

Lemma slice_length {A} a b (l : list A) :
  b ≤ length l → length (slice a b l) = b - a.
Proof. intros. unfold slice. rewrite length_take, length_drop. lia. Qed.

Lemma slice_assign_length {A} a b (src l : list A) :
  a ≤ b ≤ length l → length src = b - a →
  length (slice_assign a b src l) = length l.
Proof.
  intros. unfold slice_assign.
  rewrite !length_app, length_take, length_drop. lia.
Qed.

Lemma slice_assign_lookup {A} a b (src l : list A) i :
  a ≤ b ≤ length l → length src = b - a →
  slice_assign a b src l !! i
  = if decide (a ≤ i < b) then src !! (i - a) else l !! i.
Proof.
  intros Hab Hs. unfold slice_assign.
  destruct (decide (i < a)).
  - rewrite lookup_app_l by (rewrite length_take; lia).
    rewrite lookup_take_lt by lia. case_decide; [lia|done].
  - rewrite lookup_app_r by (rewrite length_take; lia).
    rewrite length_take. replace (a `min` length l) with a by lia.
    destruct (decide (i < b)).
    + rewrite lookup_app_l by lia. case_decide; [done|lia].
    + rewrite lookup_app_r by lia. rewrite lookup_drop.
      case_decide; [lia|]. f_equal. lia.
Qed.

Lemma take_ext {A} n (l1 l2 : list A) :
  (∀ i, i < n → l1 !! i = l2 !! i) → take n l1 = take n l2.
Proof.
  intros Hl. apply list_eq. intros i. rewrite !lookup_take.
  case_decide; auto.
Qed.

Lemma slice_ext {A} a b (l1 l2 : list A) :
  (∀ i, a ≤ i < b → l1 !! i = l2 !! i) → slice a b l1 = slice a b l2.
Proof.
  intros Hl. apply list_eq. intros j. rewrite !slice_lookup.
  case_decide; [|done]. apply Hl. lia.
Qed.

Lemma drop_ext {A} a (l1 l2 : list A) :
  (∀ i, a ≤ i → l1 !! i = l2 !! i) → drop a l1 = drop a l2.
Proof.
  intros Hl. apply list_eq. intros j. rewrite !lookup_drop. apply Hl. lia.
Qed.

End Slices.

Section BiosMbr.

Context `{GrubEnv}.

Local Open Scope nat_scope.

(** The block under [if bInstallMbr:] on images of the right sizes and a
    device of at least one sector. *)
Lemma Bios_install_mbr_writes dev w bootBuf coreBuf dk :
  sector_layout →
  fs_lookup bootImgFile (fs w) = Some (File bootBuf) →
  length bootBuf = DISK_SECTOR_SIZE →
  fs_lookup coreImgFile (fs w) = Some (File coreBuf) →
  (Z.of_nat DISK_SECTOR_SIZE ≤ Z.of_nat (length coreBuf) ≤ 512 * 1024)%Z →
  disks w !! dev = Some dk →
  DISK_SECTOR_SIZE ≤ length (dk_bytes dk) →
  ∃ mbr,
    Bios_install_mbr dev false false false w
    = (Ok tt,
       {| fs := fs w;
          disks := <[dev := {| dk_bytes :=
                                 mbr ++ coreBuf
                                 ++ drop (DISK_SECTOR_SIZE + length coreBuf)
                                      (dk_bytes dk);
                               dk_type := dk_type dk;
                               dk_primaries := dk_primaries dk;
                               dk_sectorSize := dk_sectorSize dk |}]>
                     (disks w);
          image_calls := image_calls w |})
    ∧ length mbr = DISK_SECTOR_SIZE
    ∧ (∀ i, BOOT_MACHINE_BPB_START ≤ i < BOOT_MACHINE_BPB_END
            ∨ BOOT_MACHINE_WINDOWS_NT_MAGIC ≤ i < BOOT_MACHINE_PART_END →
            mbr !! i = dk_bytes dk !! i)
    ∧ mbr !! BOOT_MACHINE_DRIVE_CHECK = Some x90
    ∧ mbr !! (BOOT_MACHINE_DRIVE_CHECK + 1) = Some x90
    ∧ (∀ i, i < BOOT_MACHINE_BPB_START
            ∨ BOOT_MACHINE_BPB_END ≤ i < BOOT_MACHINE_DRIVE_CHECK
            ∨ BOOT_MACHINE_DRIVE_CHECK + 2 ≤ i < BOOT_MACHINE_WINDOWS_NT_MAGIC
            ∨ BOOT_MACHINE_PART_END ≤ i →
            mbr !! i = bootBuf !! i).
Proof.
  intros (Hl1 & Hl2 & Hl3 & Hl4 & Hl5) Hboot Hbl Hcore [Hc1 Hc2] Hdev Hdl.
  destruct w as [n d ic]. cbn [fs disks image_calls] in *.
  set (tmpBuf := take DISK_SECTOR_SIZE (dk_bytes dk)).
  assert (length tmpBuf = DISK_SECTOR_SIZE) as Htl.
  { unfold tmpBuf. rewrite length_take. lia. }
  set (b1 := slice_assign BOOT_MACHINE_BPB_START BOOT_MACHINE_BPB_END
               (slice BOOT_MACHINE_BPB_START BOOT_MACHINE_BPB_END tmpBuf)
               bootBuf).
  assert (length b1 = DISK_SECTOR_SIZE) as Hb1.
  { unfold b1. rewrite slice_assign_length; [done|lia|].
    rewrite slice_length; lia. }
  set (b3 := <[BOOT_MACHINE_DRIVE_CHECK + 1 := x90]>
               (<[BOOT_MACHINE_DRIVE_CHECK := x90]> b1)).
  assert (length b3 = DISK_SECTOR_SIZE) as Hb3.
  { unfold b3. by rewrite !length_insert. }
  set (mbr := slice_assign BOOT_MACHINE_WINDOWS_NT_MAGIC BOOT_MACHINE_PART_END
                (slice BOOT_MACHINE_WINDOWS_NT_MAGIC BOOT_MACHINE_PART_END
                   tmpBuf) b3).
  assert (length mbr = DISK_SECTOR_SIZE) as Hml.
  { unfold mbr. rewrite slice_assign_length; [done|lia|].
    rewrite slice_length; lia. }
  assert (∀ i, mbr !! i
               = if decide (BOOT_MACHINE_WINDOWS_NT_MAGIC ≤ i
                            < BOOT_MACHINE_PART_END)
                 then dk_bytes dk !! i
                 else if decide (i = BOOT_MACHINE_DRIVE_CHECK
                                 ∨ i = BOOT_MACHINE_DRIVE_CHECK + 1)
                 then Some x90
                 else if decide (BOOT_MACHINE_BPB_START ≤ i
                                 < BOOT_MACHINE_BPB_END)
                 then dk_bytes dk !! i
                 else bootBuf !! i) as Hlook.
  { intros i. unfold mbr.
    rewrite slice_assign_lookup; [|lia|rewrite slice_length; lia].
    case_decide.
    { rewrite slice_lookup. rewrite decide_True by lia.
      unfold tmpBuf. rewrite lookup_take_lt by lia. f_equal. lia. }
    unfold b3. rewrite !list_lookup_insert, !length_insert.
    repeat case_decide; try done; try lia.
    all: unfold b1;
      (rewrite slice_assign_lookup; [|lia|rewrite slice_length; lia]).
    all: case_decide; try done; try lia.
    all: rewrite slice_lookup, decide_True by lia.
    all: unfold tmpBuf; rewrite lookup_take_lt by lia; f_equal; lia. }
  exists mbr. split; [|split; [done|]].
  - unfold Bios_install_mbr, bind, on_fs, get, lift, read_bytes, raise, ret.
    cbn [fs disks image_calls]. rewrite Hboot, Hbl, Nat.eqb_refl.
    cbn [negb fs disks image_calls]. rewrite Hcore.
    unfold _getMbrGapSizeThreshold.
    destruct (Z.ltb_spec (Z.of_nat (length coreBuf))
                (Z.of_nat DISK_SECTOR_SIZE)); [lia|].
    destruct (Z.ltb_spec (512 * 1024) (Z.of_nat (length coreBuf))); [lia|].
    unfold open_rb. cbn [fs disks image_calls]. rewrite Hdev.
    fold tmpBuf. fold b1. cbn [negb andb].
    unfold index_assign. rewrite decide_True by lia.
    rewrite decide_True by (rewrite length_insert; lia).
    fold b3. fold mbr. cbn [fs disks image_calls]. rewrite Hdev.
    unfold write_dev. cbn [fs disks image_calls]. rewrite Hdev.
    do 4 f_equal. rewrite <- (assoc_L (++)). do 2 f_equal.
    rewrite length_app, Hml. done.
  - repeat split.
    + intros i Hi. rewrite Hlook. repeat case_decide; try done; lia.
    + rewrite Hlook. repeat case_decide; try done; lia.
    + rewrite Hlook. repeat case_decide; try done; lia.
    + intros i Hi. rewrite Hlook. repeat case_decide; try done; lia.
Qed.

(** A sector built as above, followed by [core.img], passes every check of
    the verification, the drive check by the no-op pair. *)
Lemma mbr_sector_verifies dev w bootBuf coreBuf dk mbr rest :
  sector_layout →
  fs_lookup bootImgFile (fs w) = Some (File bootBuf) →
  length bootBuf = DISK_SECTOR_SIZE →
  fs_lookup coreImgFile (fs w) = Some (File coreBuf) →
  (Z.of_nat DISK_SECTOR_SIZE ≤ Z.of_nat (length coreBuf) ≤ 512 * 1024)%Z →
  disks w !! dev = Some dk →
  dk_bytes dk = mbr ++ coreBuf ++ rest →
  length mbr = DISK_SECTOR_SIZE →
  mbr !! BOOT_MACHINE_DRIVE_CHECK = Some x90 →
  mbr !! (BOOT_MACHINE_DRIVE_CHECK + 1) = Some x90 →
  (∀ i, i < BOOT_MACHINE_BPB_START
        ∨ BOOT_MACHINE_BPB_END ≤ i < BOOT_MACHINE_DRIVE_CHECK
        ∨ BOOT_MACHINE_DRIVE_CHECK + 2 ≤ i < BOOT_MACHINE_WINDOWS_NT_MAGIC
        ∨ BOOT_MACHINE_PART_END ≤ i →
        mbr !! i = bootBuf !! i) →
  verification_passes (Some dev) w
  ∧ ∀ b, Bios_check_iteration (Some dev) b w = IterEnd (Some false).
Proof.
  intros (Hl1 & Hl2 & Hl3 & Hl4 & Hl5) Hboot Hbl Hcore [Hc1 Hc2] Hdev Hbytes
    Hml Hd0 Hd1 Hrest.
  assert (open_rb (Some dev) w = Ok (mbr ++ coreBuf ++ rest)) as Hf.
  { unfold open_rb. by rewrite Hdev, Hbytes. }
  assert (take DISK_SECTOR_SIZE (mbr ++ coreBuf ++ rest) = mbr) as Ht.
  { by rewrite take_app_length'. }
  assert (slice BOOT_MACHINE_DRIVE_CHECK (BOOT_MACHINE_DRIVE_CHECK + 2) mbr
          = [x90; x90]) as Hnop.
  { apply list_eq. intros j. rewrite slice_lookup.
    destruct j as [|[|j]]; simpl.
    - rewrite decide_True by lia. by rewrite Nat.add_0_r.
    - rewrite decide_True by lia. done.
    - rewrite decide_False by lia. done. }
  assert (take BOOT_MACHINE_BPB_START mbr = take BOOT_MACHINE_BPB_START bootBuf)
    as H1.
  { apply take_ext. intros i Hi. apply Hrest. lia. }
  assert (slice BOOT_MACHINE_BPB_END BOOT_MACHINE_DRIVE_CHECK mbr
          = slice BOOT_MACHINE_BPB_END BOOT_MACHINE_DRIVE_CHECK bootBuf) as H2.
  { apply slice_ext. intros i Hi. apply Hrest. lia. }
  assert (slice (BOOT_MACHINE_DRIVE_CHECK + 2) BOOT_MACHINE_WINDOWS_NT_MAGIC mbr
          = slice (BOOT_MACHINE_DRIVE_CHECK + 2) BOOT_MACHINE_WINDOWS_NT_MAGIC
              bootBuf) as H3.
  { apply slice_ext. intros i Hi. apply Hrest. lia. }
  assert (drop BOOT_MACHINE_PART_END mbr = drop BOOT_MACHINE_PART_END bootBuf)
    as H4.
  { apply drop_ext. intros i Hi. apply Hrest. lia. }
  assert (coreBuf = take (length coreBuf)
                      (drop DISK_SECTOR_SIZE (mbr ++ coreBuf ++ rest))) as H5.
  { by rewrite drop_app_length', take_app_length. }
  split.
  - exists bootBuf, coreBuf, (mbr ++ coreBuf ++ rest).
    rewrite Ht. repeat split; auto.
  - intros b.
    unfold Bios_check_iteration, os_path_exists, read_bytes.
    rewrite Hboot, Hcore, Hf, Hbl, Nat.eqb_refl, Ht.
    unfold _getMbrGapSizeThreshold.
    destruct (Z.leb_spec (Z.of_nat DISK_SECTOR_SIZE)
                (Z.of_nat (length coreBuf))); [|lia].
    destruct (Z.leb_spec (Z.of_nat (length coreBuf)) (512 * 1024)); [|lia].
    rewrite !bool_decide_eq_true_2 by eauto. done.
Qed.

End BiosMbr.

Section BiosInstallFrom.

Context `{GrubEnv}.

Local Open Scope nat_scope.

(** [shutil.copy] of [boot.img] into a [grub] directory that has no
    subdirectory of that name. *)
Lemma copy_boot_img_child c n g :
  fs_lookup grubDir n = Some (Dir g) →
  (∀ m, g !! "boot.img" ≠ Some (Dir m)) →
  ∃ n', shutil_copy_to (Ok c) "boot.img" bootImgFile n = (Ok tt, n')
        ∧ fs_lookup grubDir n' = Some (Dir (<["boot.img" := File c]> g)).
Proof.
  intros Hg Hnd. unfold shutil_copy_to, bind, lift, get, os_path_isdir.
  change bootImgFile with (grubDir ++ ["boot.img"]).
  rewrite (fs_lookup_snoc _ _ _ _ Hg).
  destruct (write_file_child grubDir "boot.img" n g c Hg Hnd) as (n' & Hw & Hn').
  destruct (g !! "boot.img") as [[?|m]|] eqn:Hb; eauto.
  by destruct (Hnd m).
Qed.

(** The block under [if bInstallMbr:] writes to [dev] and to nothing
    else. *)
Lemma Bios_install_mbr_frame dev fl af rs w r w' :
  Bios_install_mbr dev fl af rs w = (r, w') →
  fs w' = fs w ∧ image_calls w' = image_calls w
  ∧ ∀ d, d ≠ dev → disks w' !! d = disks w !! d.
Proof.
  destruct w as [n d ic].
  unfold Bios_install_mbr, bind, on_fs, get, lift, raise, ret, write_dev.
  cbn [fs disks image_calls].
  repeat (case_match; simplify_eq/=; try done).
  all: intros; simplify_eq/=; repeat split; try done.
  all: intros; by rewrite lookup_insert_ne.
Qed.

Lemma Bios_install_platform_from_steps pt info source dev w g bootBuf coreBuf dk :
  sector_layout →
  source_boot_img source pt = Some bootBuf →
  length bootBuf = DISK_SECTOR_SIZE →
  fs_lookup grubDir (fs w) = Some (Dir g) →
  (∀ m, g !! "boot.img" ≠ Some (Dir m)) →
  g !! "core.img" = Some (File coreBuf) →
  (Z.of_nat DISK_SECTOR_SIZE ≤ Z.of_nat (length coreBuf) ≤ 512 * 1024)%Z →
  disks w !! dev = Some dk →
  DISK_SECTOR_SIZE ≤ length (dk_bytes dk) →
  ∃ mbr n',
    let dk' := {| dk_bytes := mbr ++ coreBuf
                              ++ drop (DISK_SECTOR_SIZE + length coreBuf)
                                   (dk_bytes dk);
                  dk_type := dk_type dk;
                  dk_primaries := dk_primaries dk;
                  dk_sectorSize := dk_sectorSize dk |} in
    Bios_install_platform_from true pt info source dev true
      false false false w
    = (Ok (set_bios_attrs true (Some false) false info),
       {| fs := n'; disks := <[dev := dk']> (disks w);
          image_calls := image_calls w |})
    ∧ fs_lookup grubDir n' = Some (Dir (<["boot.img" := File bootBuf]> g))
    ∧ length mbr = DISK_SECTOR_SIZE
    ∧ (∀ i, BOOT_MACHINE_BPB_START ≤ i < BOOT_MACHINE_BPB_END
            ∨ BOOT_MACHINE_WINDOWS_NT_MAGIC ≤ i < BOOT_MACHINE_PART_END →
            mbr !! i = dk_bytes dk !! i)
    ∧ mbr !! BOOT_MACHINE_DRIVE_CHECK = Some x90
    ∧ mbr !! (BOOT_MACHINE_DRIVE_CHECK + 1) = Some x90
    ∧ (∀ i, i < BOOT_MACHINE_BPB_START
            ∨ BOOT_MACHINE_BPB_END ≤ i < BOOT_MACHINE_DRIVE_CHECK
            ∨ BOOT_MACHINE_DRIVE_CHECK + 2 ≤ i < BOOT_MACHINE_WINDOWS_NT_MAGIC
            ∨ BOOT_MACHINE_PART_END ≤ i →
            mbr !! i = bootBuf !! i).
Proof.
  intros Hlay Hsrc Hbl Hg Hnd Hcore Hcl Hdev Hdl.
  destruct (copy_boot_img_child bootBuf (fs w) g Hg Hnd) as (n' & Hcp & Hg').
  set (w1 := {| fs := n'; disks := disks w; image_calls := image_calls w |}).
  destruct (Bios_install_mbr_writes dev w1 bootBuf coreBuf dk)
    as (mbr & Hmbr & Hrest); auto.
  { change bootImgFile with (grubDir ++ ["boot.img"]). cbn [fs w1].
    rewrite (fs_lookup_snoc _ _ _ _ Hg'). by rewrite lookup_insert_eq. }
  { change coreImgFile with (grubDir ++ ["core.img"]). cbn [fs w1].
    rewrite (fs_lookup_snoc _ _ _ _ Hg'). by rewrite lookup_insert_ne. }
  exists mbr, n'. cbn zeta. split; [|split; [done|exact Hrest]].
  unfold Bios_install_platform_from, bind, assert_, ret, on_fs.
  cbn [negb andb]. rewrite Hsrc, Hcp. fold w1. by rewrite Hmbr.
Qed.

End BiosInstallFrom.

(** X21. The BIOS [install_platform] past its first assertion, with
    [bInstallMbr] set and the three other flags false, on a [boot.img] of
    one sector, a [core.img] in range and a device of at least one sector:
    it copies [boot.img] into [<boot>/grub], records
    [mbr_installed = True], [allow_floppy = False], [rs_codes = False], and
    writes to the start of the device a sector followed by [core.img]. In
    that sector the BPB and the partition table are those the device had,
    the drive check is the no-op pair [0x90 0x90], and every other byte
    is that of [boot.img]. What follows [core.img] on the device stays. *)
Theorem Bios_install_platform_writes_sector
    `{GrubEnv} pt info source dev w g bootBuf coreBuf dk :
  sector_layout →
  source_boot_img source pt = Some bootBuf →
  length bootBuf = DISK_SECTOR_SIZE →
  fs_lookup grubDir (fs w) = Some (Dir g) →
  (∀ m, g !! "boot.img" ≠ Some (Dir m)) →
  g !! "core.img" = Some (File coreBuf) →
  (Z.of_nat DISK_SECTOR_SIZE ≤ Z.of_nat (length coreBuf) ≤ 512 * 1024)%Z →
  disks w !! dev = Some dk →
  (DISK_SECTOR_SIZE ≤ length (dk_bytes dk))%nat →
  ∃ mbr w',
    Bios_install_platform_from true pt info source dev true
      false false false w
    = (Ok (set_bios_attrs true (Some false) false info), w')
    ∧ fs_lookup grubDir (fs w')
      = Some (Dir (<["boot.img" := File bootBuf]> g))
    ∧ disks w'
      = <[dev := {| dk_bytes :=
                      mbr ++ coreBuf
                      ++ drop (DISK_SECTOR_SIZE + length coreBuf) (dk_bytes dk);
                    dk_type := dk_type dk;
                    dk_primaries := dk_primaries dk;
                    dk_sectorSize := dk_sectorSize dk |}]> (disks w)
    ∧ length mbr = DISK_SECTOR_SIZE
    ∧ (∀ i, (BOOT_MACHINE_BPB_START ≤ i < BOOT_MACHINE_BPB_END)%nat
            ∨ (BOOT_MACHINE_WINDOWS_NT_MAGIC ≤ i < BOOT_MACHINE_PART_END)%nat →
            mbr !! i = dk_bytes dk !! i)
    ∧ mbr !! BOOT_MACHINE_DRIVE_CHECK = Some x90
    ∧ mbr !! (BOOT_MACHINE_DRIVE_CHECK + 1)%nat = Some x90
    ∧ (∀ i, (i < BOOT_MACHINE_BPB_START)%nat
            ∨ (BOOT_MACHINE_BPB_END ≤ i < BOOT_MACHINE_DRIVE_CHECK)%nat
            ∨ (BOOT_MACHINE_DRIVE_CHECK + 2 ≤ i
               < BOOT_MACHINE_WINDOWS_NT_MAGIC)%nat
            ∨ (BOOT_MACHINE_PART_END ≤ i)%nat →
            mbr !! i = bootBuf !! i).
Proof.
  intros Hlay Hsrc Hbl Hg Hnd Hcore Hcl Hdev Hdl.
  destruct (Bios_install_platform_from_steps pt info source dev w g bootBuf
              coreBuf dk) as (mbr & n' & Hrun & Hg' & Hrest); auto.
  exists mbr. eexists. split; [exact Hrun|]. cbn [fs disks].
  split; [exact Hg'|]. split; [done|exact Hrest].
Qed.

Lemma Bios_install_platform_writes_sector_witness :
  let w := world_of grub_tree (replicate 2048 x00) in
  ∃ mbr w',
    Bios_install_platform_from true i386_pc bootable tt "/dev/sda" true
      false false false w
    = (Ok (set_bios_attrs true (Some false) false bootable), w')
    ∧ fs_lookup grubDir (fs w')
      = Some (Dir (<["boot.img" := File boot_img]>
                     {[ "boot.img" := File boot_img;
                        "core.img" := File core_img;
                        "i386-pc" := Dir ∅ ]}))
    ∧ disks w'
      = <["/dev/sda" :=
            {| dk_bytes :=
                 mbr ++ core_img
                 ++ drop (512 + length core_img)
                      (replicate 2048 x00 ++ replicate 64 x00);
               dk_type := Some "msdos";
               dk_primaries := [];
               dk_sectorSize := 512 |}]> (disks w)
    ∧ length mbr = 512
    ∧ (∀ i, (3 ≤ i < 90)%nat ∨ (440 ≤ i < 510)%nat →
            mbr !! i = (replicate 2048 x00 ++ replicate 64 x00) !! i)
    ∧ mbr !! 102%nat = Some x90
    ∧ mbr !! 103%nat = Some x90
    ∧ (∀ i, (i < 3)%nat ∨ (90 ≤ i < 102)%nat ∨ (104 ≤ i < 440)%nat
            ∨ (510 ≤ i)%nat →
            mbr !! i = boot_img !! i).
Proof.
  intros w.
  apply (Bios_install_platform_writes_sector (H := grub) i386_pc bootable tt
           "/dev/sda" w
           {[ "boot.img" := File boot_img; "core.img" := File core_img;
              "i386-pc" := Dir ∅ ]}
           boot_img core_img
           (disk_of (replicate 2048 x00 ++ replicate 64 x00))).
  - unfold sector_layout. cbn. lia.
  - reflexivity.
  - reflexivity.
  - reflexivity.
  - intros m Hm. vm_compute in Hm. discriminate.
  - reflexivity.
  - split; vm_compute; congruence.
  - reflexivity.
  - cbn [dk_bytes disk_of]. rewrite length_app, !length_replicate. cbn. lia.
Defined.

(** X22. Round trip: on the world that such an installation leaves, every
    check of the BIOS verification holds; a pass through its loop assigns
    [bAllowFloppy = False] and reaches [bOk = True]. As the loop is not
    left there, the verification of the disk just installed does not
    return, however many passes are allowed. *)
Theorem Bios_install_then_check
    `{GrubEnv} pt info source dev w g bootBuf coreBuf dk :
  sector_layout →
  source_boot_img source pt = Some bootBuf →
  length bootBuf = DISK_SECTOR_SIZE →
  fs_lookup grubDir (fs w) = Some (Dir g) →
  (∀ m, g !! "boot.img" ≠ Some (Dir m)) →
  g !! "core.img" = Some (File coreBuf) →
  (Z.of_nat DISK_SECTOR_SIZE ≤ Z.of_nat (length coreBuf) ≤ 512 * 1024)%Z →
  disks w !! dev = Some dk →
  (DISK_SECTOR_SIZE ≤ length (dk_bytes dk))%nat →
  ∃ info' w',
    Bios_install_platform_from true pt info source dev true
      false false false w = (Ok info', w')
    ∧ verification_passes (Some dev) w'
    ∧ (∀ b, Bios_check_iteration (Some dev) b w' = IterEnd (Some false))
    ∧ ∀ fuel pt' v tt,
        status v = Some BOOTABLE →
        Bios_check_and_fill_platform_install_info fuel pt' v tt (Some dev) w'
        = None.
Proof.
  intros Hlay Hsrc Hbl Hg Hnd Hcore Hcl Hdev Hdl.
  destruct (Bios_install_platform_from_steps pt info source dev w g bootBuf
              coreBuf dk)
    as (mbr & n' & Hrun & Hg' & Hml & _ & Hd0 & Hd1 & Hrest); auto.
  cbn zeta in Hrun.
  match type of Hrun with _ = (_, ?w1) => set (w' := w1) in * end.
  destruct (mbr_sector_verifies dev w' bootBuf coreBuf
              {| dk_bytes := mbr ++ coreBuf
                             ++ drop (DISK_SECTOR_SIZE + length coreBuf)
                                  (dk_bytes dk);
                 dk_type := dk_type dk;
                 dk_primaries := dk_primaries dk;
                 dk_sectorSize := dk_sectorSize dk |}
              mbr (drop (DISK_SECTOR_SIZE + length coreBuf) (dk_bytes dk)))
    as [Hpass Hit]; auto.
  { change bootImgFile with (grubDir ++ ["boot.img"]). cbn [fs w'].
    rewrite (fs_lookup_snoc _ _ _ _ Hg'). by rewrite lookup_insert_eq. }
  { change coreImgFile with (grubDir ++ ["core.img"]). cbn [fs w'].
    rewrite (fs_lookup_snoc _ _ _ _ Hg'). by rewrite lookup_insert_ne. }
  { cbn [disks w']. by rewrite lookup_insert_eq. }
  eexists _, w'. split; [exact Hrun|]. split; [exact Hpass|].
  split; [exact Hit|]. intros fuel pt' v tt Hst.
  unfold Bios_check_and_fill_platform_install_info.
  rewrite (bool_decide_eq_true_2 _ Hst). cbn [negb].
  by rewrite (Bios_check_loop_spins _ _ _ _ (Hit None)).
Qed.

Lemma Bios_install_then_check_witness :
  let w := world_of grub_tree (replicate 2048 x00) in
  ∃ info' w',
    Bios_install_platform_from true i386_pc bootable tt "/dev/sda" true
      false false false w = (Ok info', w')
    ∧ verification_passes (Some "/dev/sda") w'
    ∧ (∀ b, Bios_check_iteration (Some "/dev/sda") b w' = IterEnd (Some false))
    ∧ ∀ fuel pt' v tt,
        status v = Some BOOTABLE →
        Bios_check_and_fill_platform_install_info fuel pt' v tt
          (Some "/dev/sda") w' = None.
Proof.
  intros w.
  apply (Bios_install_then_check (H := grub) i386_pc bootable tt
           "/dev/sda" w
           {[ "boot.img" := File boot_img; "core.img" := File core_img;
              "i386-pc" := Dir ∅ ]}
           boot_img core_img
           (disk_of (replicate 2048 x00 ++ replicate 64 x00))).
  - unfold sector_layout. cbn. lia.
  - reflexivity.
  - reflexivity.
  - reflexivity.
  - intros m Hm. vm_compute in Hm. discriminate.
  - reflexivity.
  - split; vm_compute; congruence.
  - reflexivity.
  - cbn [dk_bytes disk_of]. rewrite length_app, !length_replicate. cbn. lia.
Defined.

Section BiosInstallFrame.

Context `{GrubEnv}.

Lemma below_shutil_copy_to pre x r src base :
  below pre x (shutil_copy_to src base (pre ++ x :: r)).
Proof.
  unfold shutil_copy_to. apply below_bind; [apply below_lift|]. intros c.
  apply below_bind; [apply below_get|]. intros n.
  apply below_if; [|apply below_write_file].
  rewrite <- (assoc_L (++)). apply below_write_file.
Qed.

End BiosInstallFrame.

(** X23. Whatever its arguments and its outcome, the BIOS
    [install_platform] past its first assertion writes to no device but
    [dev], and to no device at all unless [bInstallMbr] is set; it
    changes nothing in the boot directory outside [grub], and it calls no
    image maker. *)
Theorem Bios_install_platform_touches_one_device
    `{GrubEnv} valid pt info source dev bInstallMbr bFloppyOrHdd bAllowFloppy
    bAddRsCodes w r w' :
  Bios_install_platform_from valid pt info source dev bInstallMbr
    bFloppyOrHdd bAllowFloppy bAddRsCodes w = (r, w') →
  (∀ d, d ≠ dev → disks w' !! d = disks w !! d)
  ∧ (bInstallMbr = false → disks w' = disks w)
  ∧ (∀ y r', "grub" ≠ y →
       fs_lookup (y :: r') (fs w') = fs_lookup (y :: r') (fs w))
  ∧ image_calls w' = image_calls w.
Proof.
  unfold Bios_install_platform_from, bind at 1 2.
  destruct valid; cbn [assert_ ret raise]; [|by intros [= <- <-]].
  destruct (negb bFloppyOrHdd && negb bAllowFloppy && negb bAddRsCodes);
    cbn [assert_ ret raise]; [|by intros [= <- <-]].
  unfold bind at 1.
  destruct (on_fs _ w) as [r1 w1] eqn:Hcp.
  apply on_fs_inv in Hcp as (Hcp & Hd1 & Hi1).
  assert (∀ y r', "grub" ≠ y →
            fs_lookup (y :: r') (fs w1) = fs_lookup (y :: r') (fs w)) as Hfs.
  { intros y r' Hy.
    exact (below_shutil_copy_to [] "grub" ["boot.img"] _ _ _ _ _ y r' Hcp Hy). }
  destruct r1 as [[]|e]; [|intros [= <- <-]; by rewrite Hd1].
  unfold bind. destruct bInstallMbr.
  - destruct (Bios_install_mbr _ _ _ _ w1) as [r2 w2] eqn:Hmbr.
    apply Bios_install_mbr_frame in Hmbr as (Hf2 & Hi2 & Hd2).
    assert (r = r → w' = w2 →
            (∀ d, d ≠ dev → disks w' !! d = disks w !! d)
            ∧ (true = false → disks w' = disks w)
            ∧ (∀ y r', "grub" ≠ y →
                 fs_lookup (y :: r') (fs w') = fs_lookup (y :: r') (fs w))
            ∧ image_calls w' = image_calls w) as Hall.
    { intros _ ->. rewrite Hf2, Hi2, Hi1. repeat split; try done.
      intros d Hd. by rewrite Hd2, Hd1. }
    destruct r2 as [[]|e]; intros [= <- <-]; by apply Hall.
  - intros [= <- <-]. by rewrite Hd1, Hi1.
Qed.

Lemma Bios_install_platform_touches_one_device_witness :
  let w := world_of grub_tree (replicate 2048 x00) in
  ∃ r w',
    Bios_install_platform_from true i386_pc bootable tt "/dev/sda" false
      false false false w = (r, w')
    ∧ disks w' = disks w
    ∧ image_calls w' = image_calls w.
Proof.
  intros w.
  destruct (Bios_install_platform_from (H := grub) true i386_pc bootable tt
              "/dev/sda" false false false false w) as [r w'] eqn:Hrun.
  exists r, w'. split; [reflexivity|].
  destruct (Bios_install_platform_touches_one_device (H := grub) true i386_pc
              bootable tt "/dev/sda" false false false false w r w' Hrun)
    as (_ & Hd & _ & Hi).
  split; [by apply Hd|exact Hi].
Defined.

(** ** The data directories and the environment file *)

Section TargetData.

Context `{GrubEnv}.

Lemma in_fs_run {A} (m : M node A) t n d ic c r n' :
  m n = (r, n') →
  in_fs m {| target := t;
             world := {| fs := n; disks := d; image_calls := ic |};
             completed := c |}
  = (r, {| target := t;
           world := {| fs := n'; disks := d; image_calls := ic |};
           completed := c |}).
Proof. intros Hm. unfold in_fs, in_world, on_fs. simpl. by rewrite Hm. Qed.

End TargetData.

(** X24. On a target open for writing, [remove_data] never raises. After
    it [<boot>/grub] has no [locale], [fonts] or [themes] entry, whatever
    they were; every other entry of [<boot>/grub], the platform
    directories among them, and everything outside [<boot>/grub] is as it
    was, and so are the platform map and the devices. *)
Theorem remove_data_removes_three `{GrubEnv} s :
  _mode (target s) ∈ [RW; W] →
  ∃ s', Target_remove_data s = (Ok tt, s')
        ∧ (∀ x, x ∈ ["locale"; "fonts"; "themes"] →
             fs_lookup (grubDir ++ [x]) (fs (world s')) = None)
        ∧ (∀ y r', y ∉ ["locale"; "fonts"; "themes"] →
             fs_lookup (grubDir ++ y :: r') (fs (world s'))
             = fs_lookup (grubDir ++ y :: r') (fs (world s)))
        ∧ (∀ y r', "grub" ≠ y →
             fs_lookup (y :: r') (fs (world s'))
             = fs_lookup (y :: r') (fs (world s)))
        ∧ target s' = target s
        ∧ disks (world s') = disks (world s).
Proof.
  intros Hmode. destruct s as [t [n d ic] c]. cbn [target world fs disks] in *.
  destruct (force_rm_gone (grubDir ++ ["locale"]) n) as (n1 & Hr1 & Hg1 & _);
    [done|].
  destruct (force_rm_gone (grubDir ++ ["fonts"]) n1) as (n2 & Hr2 & Hg2 & _);
    [done|].
  destruct (force_rm_gone (grubDir ++ ["themes"]) n2) as (n3 & Hr3 & Hg3 & _);
    [done|].
  pose proof (λ y r0, below_force_rm grubDir "locale" [] _ _ _ y r0 Hr1) as Hb1.
  pose proof (λ y r0, below_force_rm grubDir "fonts" [] _ _ _ y r0 Hr2) as Hb2.
  pose proof (λ y r0, below_force_rm grubDir "themes" [] _ _ _ y r0 Hr3) as Hb3.
  pose proof (λ y r0, below_force_rm [] "grub" ["locale"] _ _ _ y r0 Hr1) as Ho1.
  pose proof (λ y r0, below_force_rm [] "grub" ["fonts"] _ _ _ y r0 Hr2) as Ho2.
  pose proof (λ y r0, below_force_rm [] "grub" ["themes"] _ _ _ y r0 Hr3) as Ho3.
  eexists. split.
  - unfold Target_remove_data, bind at 1 2, self, assert_.
    cbn [target]. rewrite (bool_decide_eq_true_2 _ Hmode). cbn [ret].
    unfold bind. rewrite (in_fs_run _ _ _ _ _ _ _ _ Hr1).
    rewrite (in_fs_run _ _ _ _ _ _ _ _ Hr2).
    rewrite (in_fs_run _ _ _ _ _ _ _ _ Hr3). reflexivity.
  - cbn [target world fs disks]. repeat split.
    + intros x Hx. apply elem_of_cons in Hx as [->|Hx].
      { rewrite (Hb3 "locale" []) by done. by rewrite (Hb2 "locale" []). }
      apply elem_of_cons in Hx as [->|Hx].
      { by rewrite (Hb3 "fonts" []). }
      apply list_elem_of_singleton in Hx as ->. done.
    + intros y r' Hy.
      rewrite (Hb3 y r'), (Hb2 y r'), (Hb1 y r'); try done.
      all: intros <-; apply Hy; set_solver.
    + intros y r' Hy.
      etransitivity; [exact (Ho3 y r' Hy)|].
      etransitivity; [exact (Ho2 y r' Hy)|]. exact (Ho1 y r' Hy).
Qed.

Lemma remove_data_removes_three_witness :
  let s := new_session (mounted_target W) world_unpatched in
  ∃ s', Target_remove_data s = (Ok tt, s')
        ∧ fs_lookup ["grub"; "locale"] (fs (world s')) = None
        ∧ fs_lookup ["grub"; "core.img"] (fs (world s'))
          = fs_lookup ["grub"; "core.img"] (fs (world s)).
Proof.
  intros s.
  destruct (remove_data_removes_three (H := grub) s)
    as (s' & Hrun & Hgone & Hkeep & _); [repeat constructor|].
  exists s'. split; [exact Hrun|]. split.
  - apply (Hgone "locale"). repeat constructor.
  - apply (Hkeep "core.img" []).
    intros Hin. repeat (apply elem_of_cons in Hin as [Hin|Hin]; [discriminate|]).
    by apply elem_of_nil in Hin.
Defined.

(** X25. On a target open for writing, [touch_env_file] leaves an existing
    [<boot>/grub/grubenv] alone, be it a file or a directory: nothing is
    written and nothing changes. [remove_env_file] never raises and leaves
    no [grubenv], every other entry of [<boot>/grub] being as it was. *)
Theorem env_file_touch_and_remove `{GrubEnv} s :
  _mode (target s) ∈ [RW; W] →
  (is_Some (fs_lookup grubEnvFile (fs (world s))) →
   Target_touch_env_file s = (Ok tt, s))
  ∧ ∃ s', Target_remove_env_file s = (Ok tt, s')
          ∧ fs_lookup grubEnvFile (fs (world s')) = None
          ∧ (∀ y r', y ≠ "grubenv" →
               fs_lookup (grubDir ++ y :: r') (fs (world s'))
               = fs_lookup (grubDir ++ y :: r') (fs (world s)))
          ∧ target s' = target s
          ∧ disks (world s') = disks (world s).
Proof.
  intros Hmode. split.
  - intros Hex. unfold Target_touch_env_file, bind, self, assert_, get.
    rewrite (bool_decide_eq_true_2 _ Hmode). cbn [ret].
    unfold os_path_exists. by rewrite (bool_decide_eq_true_2 _ Hex).
  - destruct s as [t [n d ic] c]. cbn [target world fs disks] in *.
    destruct (force_rm_gone grubEnvFile n) as (n1 & Hr1 & Hg1 & _); [done|].
    pose proof (λ y r0, below_force_rm grubDir "grubenv" [] _ _ _ y r0 Hr1) as Hb1.
    eexists. split.
    + unfold Target_remove_env_file, bind, self, assert_.
      cbn [target]. rewrite (bool_decide_eq_true_2 _ Hmode). cbn [ret].
      rewrite (in_fs_run _ _ _ _ _ _ _ _ Hr1). reflexivity.
    + cbn [target world fs disks]. repeat split; [done|].
      intros y r' Hy. by apply Hb1.
Qed.

Lemma env_file_touch_and_remove_witness :
  let s := new_session (mounted_target W) world_unpatched in
  ∃ s', Target_remove_env_file s = (Ok tt, s')
        ∧ fs_lookup ["grub"; "grubenv"] (fs (world s')) = None.
Proof.
  intros s.
  destruct (env_file_touch_and_remove (H := grub) s)
    as (_ & s' & Hrun & Hgone & _); [repeat constructor|].
  by exists s'.
Defined.

(** ** The devices *)

Section Devices.

Context `{GrubEnv}.

Lemma Common_install_platform_disks p pt source w r w' :
  Common_install_platform p pt source w = (r, w') → disks w' = disks w.
Proof.
  unfold Common_install_platform, bind, lift, raise, log_image_call.
  intros Hrun. repeat (case_match; simplify_eq/=); try done.
  all: repeat match goal with
              | Hw : on_fs _ _ = _ |- _ =>
                  apply on_fs_inv in Hw as (_ & ? & _)
              end; simpl in *; congruence.
Qed.

Lemma Bios_install_platform_world pt info source dev mbr fl af rs w r w' :
  Bios_install_platform pt info source dev mbr fl af rs w = (r, w') → w' = w.
Proof.
  destruct (Bios_install_platform_raises pt info source dev mbr fl af rs w)
    as [e ->]. by intros [= _ <-].
Qed.

Ltac disks_frame :=
  repeat match goal with
         | Hw : on_fs _ _ = _ |- _ => apply on_fs_inv in Hw as (_ & ? & _)
         | Hw : Common_install_platform _ _ _ _ = _ |- _ =>
             apply Common_install_platform_disks in Hw
         | Hw : Bios_install_platform _ _ _ _ _ _ _ _ _ = _ |- _ =>
             apply Bios_install_platform_world in Hw
         | Hw : Bios_remove_platform _ _ _ = _ |- _ =>
             unfold Bios_remove_platform, ret in Hw
         end;
  simpl in *; simplify_eq; try congruence.

Lemma Target_install_platform_disks pt source kwargs s r s' :
  Target_install_platform pt source kwargs s = (r, s') →
  disks (world s') = disks (world s).
Proof. unfold Target_install_platform. run_target; disks_frame. Qed.

Lemma Target_remove_platform_disks pt s r s' :
  Target_remove_platform pt s = (r, s') →
  disks (world s') = disks (world s).
Proof. unfold Target_remove_platform. run_target; disks_frame. Qed.

Lemma for_each_remove_platform_disks l s r s' :
  for_each l Target_remove_platform s = (r, s') →
  disks (world s') = disks (world s).
Proof.
  revert s. induction l as [|pt l IH]; intros s; simpl.
  - unfold ret. by intros [= _ <-].
  - unfold bind.
    destruct (Target_remove_platform pt s) as [[[]|e] s1] eqn:Hrm;
      apply Target_remove_platform_disks in Hrm.
    + intros Hl. apply IH in Hl. congruence.
    + intros [= _ <-]. done.
Qed.

Lemma Target_remove_all_disks s r s' :
  Target_remove_all s = (r, s') → disks (world s') = disks (world s).
Proof.
  unfold Target_remove_all, bind at 1 2 3, self, assert_.
  destruct (bool_decide _); cbn [ret raise]; [|by intros [= _ <-]].
  destruct (for_each _ Target_remove_platform s) as [[[]|e] s1] eqn:Hl;
    apply for_each_remove_platform_disks in Hl; [|by intros [= _ <-]].
  run_target; disks_frame.
Qed.

Lemma run_op_disks op s :
  disks (world (run_op op s).2) = disks (world s).
Proof.
  destruct (run_op op s) as [r s'] eqn:Hrun. cbn [snd].
  destruct op; simpl in Hrun.
  - by eapply Target_install_platform_disks.
  - by eapply Target_remove_platform_disks.
  - revert Hrun. unfold Target_install_data. run_target; disks_frame.
  - revert Hrun. unfold Target_remove_data. run_target; disks_frame.
  - revert Hrun. unfold Target_touch_env_file, get. run_target; disks_frame.
  - revert Hrun. unfold Target_remove_env_file. run_target; disks_frame.
  - by eapply Target_remove_all_disks.
  - revert Hrun. unfold Target_check. run_target; disks_frame.
  - revert Hrun. unfold Target_check_with_source. run_target; disks_frame.
Qed.

End Devices.

(** X26. No sequence of operations on a target changes a block device:
    the devices after it, the bytes of each of them included, are those
    before it. The BIOS [install_platform], the one place that opens a
    device for writing, always fails its first assertion; every other
    operation works on the boot directory. The helpers of [Grub] are taken
    to write files only. *)
Theorem operations_never_write_a_device `{GrubEnv} ops s :
  disks (world (run_ops ops s)) = disks (world s).
Proof.
  revert s. induction ops as [|op ops IH]; intros s; [done|].
  simpl. rewrite IH. apply run_op_disks.
Qed.

(** ** What the constructor rejects *)

(** X27. [__init__] never returns a target for an optical image, and never
    returns one on a boot directory in which the scan finds the directory
    of a platform that is neither the BIOS platform nor an EFI one: its
    verification loop has an [assert False] for such a key. *)
Theorem Target_init_rejects `{GrubEnv} fuel tt mode kwargs w t :
  tt = PYCDLIB_OBJ
  ∨ (∃ pt, found_by_scan mode (fs w) pt
           ∧ pt ≠ I386_PC ∧ isPlatformEfi pt = false) →
  Target_init fuel tt mode kwargs w ≠ Some (Ok t).
Proof.
  intros [->|(pt & Hfound & Hne & Hefi)] Hinit.
  - pose proof (Target_init_initialised _ _ _ _ _ _ Hinit) as Hi.
    assert (_targetType t = PYCDLIB_OBJ) as Htt.
    { revert Hinit. unfold Target_init, Target_init_attrs.
      repeat case_match; intros; simplify_eq; done. }
    unfold initialised in Hi. by rewrite Htt in Hi.
  - apply (Target_init_keys _ _ _ _ _ _ pt Hinit) in Hfound.
    unfold platforms in Hfound. apply elem_of_dom in Hfound as [v Hv].
    destruct (Target_init_scanned _ _ _ _ _ _ _ _ Hinit Hv)
      as [[-> _]|(_ & Hefi' & _)]; [done|congruence].
Qed.

Lemma Target_init_rejects_witness :
  let w := world_of (Dir {[ "grub" := Dir {[ "i386-coreboot" := Dir ∅ ]} ]}) [] in
  found_by_scan R (fs w) i386_coreboot
  ∧ ¬ ∃ t, Target_init 1 ISO_DIR R iso_kwargs w = Some (Ok t).
Proof.
  intros w.
  assert (found_by_scan R (fs w) i386_coreboot) as Hfound.
  { split; [repeat constructor|].
    exists {[ "i386-coreboot" := Dir ∅ ]}. split; [reflexivity|].
    eexists. reflexivity. }
  split; [exact Hfound|]. intros [t Ht]. revert Ht.
  apply (Target_init_rejects (H := grub) 1 ISO_DIR R iso_kwargs w t).
  right. exists i386_coreboot. split; [exact Hfound|].
  split; [discriminate|reflexivity].
Defined.
